(** * compressor.py: a shallow embedding and its verified properties

    The program compiles a tree of article folders into self-contained JSON
    documents and four manifests.

    - Python [str] values are Rocq [string]s holding the UTF-8 bytes of the
      text: every character the program inspects (the delimiters of an image
      reference, the path separator, the newline, the letters of the image
      extensions) is ASCII, and no byte of a multi-byte UTF-8 sequence is
      ASCII, so scanning bytes and scanning code points agree.
    - The file system is a map from paths to files and directories, threaded
      through the program by a state monad whose computations return a value
      or raise an exception.
    - [hashlib.md5], [base64.b64encode], [os.path], the regular expression
      and the float arithmetic are written out; python-frontmatter, Pillow,
      [datetime.fromisoformat] and [json.dump] are operations of a class,
      with [None] for a raised exception.
    - The messages the program prints are not part of the model. *)

From Stdlib Require Import ZArith Bool Ascii String List Lia.
From Stdlib Require Import Floats.SpecFloat.
From stdpp Require Import base option list sorting strings pretty gmap.

Local Open Scope string_scope.

(** ** Strings *)

Module Str.

Definition newline : ascii := Ascii.ascii_of_nat 10.
Definition carriage_return : ascii := Ascii.ascii_of_nat 13.

Definition is_newline (c : ascii) : bool := Ascii.eqb c newline.

(** [s.startswith(p)], returning what follows the prefix. *)
Fixpoint strip_prefix (p s : string) : option string :=
  match p with
  | EmptyString => Some s
  | String a p' =>
      match s with
      | EmptyString => None
      | String b s' => if Ascii.eqb a b then strip_prefix p' s' else None
      end
  end.

(** [s.endswith(p)]. *)
Definition endswith (s p : string) : bool :=
  let n := String.length s in
  let m := String.length p in
  (m <=? n)%nat && String.eqb (String.substring (n - m) m s) p.

(** [str.lower()] on the ASCII letters; other bytes are kept.  (The only
    non-ASCII characters whose lower-case form contains an ASCII letter yield
    [k] or an [i] followed by a combining mark, which no extension tested by
    the program ends with.) *)
Definition lower_ascii (c : ascii) : ascii :=
  let n := Ascii.nat_of_ascii c in
  if ((65 <=? n) && (n <=? 90))%nat then Ascii.ascii_of_nat (n + 32) else c.

Fixpoint lower (s : string) : string :=
  match s with
  | EmptyString => EmptyString
  | String c s' => String (lower_ascii c) (lower s')
  end.

(** [s[:n]]. *)
Definition take (n : nat) (s : string) : string := String.substring 0 n s.

(** [c in s]. *)
Fixpoint contains (c : ascii) (s : string) : bool :=
  match s with
  | EmptyString => false
  | String a s' => Ascii.eqb a c || contains c s'
  end.

End Str.

(** ** os.path (POSIX flavour) *)

Module Path.

Definition sep : ascii := "/"%char.

(** [posixpath.basename]: what follows the last separator. *)
Fixpoint basename (p : string) : string :=
  match p with
  | EmptyString => EmptyString
  | String c p' =>
      if Str.contains sep p' then basename p'
      else if Ascii.eqb c sep then p' else p
  end.

(** [posixpath.dirname]: what precedes the last separator, trailing
    separators removed unless the head consists of separators only. *)
Fixpoint rstrip_sep (rev_head : list ascii) : list ascii :=
  match rev_head with
  | c :: t => if Ascii.eqb c sep then rstrip_sep t else rev_head
  | [] => []
  end.

Fixpoint head_upto_last_sep (p : string) : list ascii :=
  match p with
  | EmptyString => []
  | String c p' =>
      if Ascii.eqb c sep || Str.contains sep p'
      then c :: head_upto_last_sep p' else []
  end.

Definition dirname (p : string) : string :=
  let head := head_upto_last_sep p in
  match rstrip_sep (rev head) with
  | [] => string_of_list_ascii head
  | r => string_of_list_ascii (rev r)
  end.

(** [posixpath.join] of two components. *)
Definition join (a b : string) : string :=
  match b with
  | String c _ =>
      if Ascii.eqb c sep then b
      else if String.eqb a "" || Str.endswith a "/" then a +:+ b
      else a +:+ "/" +:+ b
  | EmptyString =>
      if String.eqb a "" || Str.endswith a "/" then a else a +:+ "/"
  end.

End Path.

Arguments Path.join : simpl never.
Arguments Path.basename : simpl never.
Arguments Path.dirname : simpl never.

(** ** The regular expression of [replace_image_paths]

    [r'!\[(.*?)\]\((.*?)\)'] as a backtracking matcher in continuation
    style.  A lazy group [(.*?)] first tries what follows it on the input that
    is left and only then takes one more character, never a newline
    (the pattern is compiled without [re.DOTALL]). *)

Module Re.

(** [lazy_dot k g s]: the group holds [g] so far, [s] is still to read and
    [k] matches the rest of the pattern. *)
Fixpoint lazy_dot {R : Type} (k : string -> string -> option R) (g s : string)
  : option R :=
  match k g s with
  | Some r => Some r
  | None =>
      match s with
      | EmptyString => None
      | String c s' =>
          if Str.is_newline c then None
          else lazy_dot k (g +:+ String c EmptyString) s'
      end
  end.

(** What follows group 1: the literal "](" , group 2 and the literal ")" . *)
Definition after_alt (alt s : string) : option (string * string * string) :=
  match Str.strip_prefix "](" s with
  | None => None
  | Some s2 =>
      lazy_dot
        (fun path s3 =>
           match Str.strip_prefix ")" s3 with
           | Some s4 => Some (alt, path, s4)
           | None => None
           end)
        "" s2
  end.

(** [pattern.match(s)]: groups 1 and 2 and the text after the match. *)
Definition match_image (s : string) : option (string * string * string) :=
  match Str.strip_prefix "![" s with
  | None => None
  | Some s1 => lazy_dot after_alt "" s1
  end.

(** [re.sub(pattern, repl, s)] for this pattern, whose matches are never
    empty: at each position either a match is replaced and the scan resumes
    after it, or one character is copied.  [fuel] bounds the number of steps;
    [String.length s] steps always suffice. *)
Fixpoint sub_fuel (repl : string -> string -> string) (fuel : nat) (s : string)
  : string :=
  match fuel with
  | O => EmptyString
  | S fuel' =>
      match match_image s with
      | Some (alt, path, rest) => repl alt path +:+ sub_fuel repl fuel' rest
      | None =>
          match s with
          | EmptyString => EmptyString
          | String c s' => String c (sub_fuel repl fuel' s')
          end
      end
  end.

Definition sub (repl : string -> string -> string) (s : string) : string :=
  sub_fuel repl (String.length s) s.

(** The matches of the pattern in [s], in scan order, with the characters
    between them. *)
Inductive segment :=
| Text (c : ascii)
| Image (alt path : string).

Fixpoint segments_fuel (fuel : nat) (s : string) : list segment :=
  match fuel with
  | O => []
  | S fuel' =>
      match match_image s with
      | Some (alt, path, rest) => Image alt path :: segments_fuel fuel' rest
      | None =>
          match s with
          | EmptyString => []
          | String c s' => Text c :: segments_fuel fuel' s'
          end
      end
  end.

Definition segments (s : string) : list segment :=
  segments_fuel (String.length s) s.

Definition image_text (alt path : string) : string :=
  "![" +:+ alt +:+ "](" +:+ path +:+ ")".

Definition segment_text (g : segment) : string :=
  match g with
  | Text c => String c EmptyString
  | Image alt path => image_text alt path
  end.

Fixpoint concat_text (l : list segment) : string :=
  match l with
  | [] => EmptyString
  | g :: l' => segment_text g +:+ concat_text l'
  end.

End Re.

(** ** replace_image_paths *)

(** [replace_match]: the reference is rebuilt around [assets.get(img_file,
    img_path)]. *)
Definition replace_match (assets : gmap string string) (alt img_path : string)
  : string :=
  let img_file := Path.basename img_path in
  "![" +:+ alt +:+ "](" +:+ default img_path (assets !! img_file) +:+ ")".

Definition replace_image_paths (content : string) (assets : gmap string string)
  : string :=
  Re.sub (replace_match assets) content.


(** ** Bytes, UTF-8 and text files *)

Module Bytes.

Definition of_string (s : string) : list Z :=
  map (fun c => Z.of_N (Ascii.N_of_ascii c)) (list_ascii_of_string s).

Definition continuation (b : Z) : bool := (128 <=? b)%Z && (b <=? 191)%Z.

Definition between (lo hi b : Z) : bool := (lo <=? b)%Z && (b <=? hi)%Z.

(** The strict UTF-8 decoder accepts exactly the well-formed byte sequences
    (no overlong form, no surrogate, nothing above U+10FFFF). *)
Fixpoint utf8_valid (l : list Z) : bool :=
  match l with
  | [] => true
  | b0 :: t =>
      if (b0 <? 128)%Z then utf8_valid t
      else if between 194 223 b0 then
        match t with
        | b1 :: t1 => continuation b1 && utf8_valid t1
        | _ => false
        end
      else if between 224 239 b0 then
        match t with
        | b1 :: b2 :: t2 =>
            (if (b0 =? 224)%Z then between 160 191 b1
             else if (b0 =? 237)%Z then between 128 159 b1
             else continuation b1)
            && continuation b2 && utf8_valid t2
        | _ => false
        end
      else if between 240 244 b0 then
        match t with
        | b1 :: b2 :: b3 :: t3 =>
            (if (b0 =? 240)%Z then between 144 191 b1
             else if (b0 =? 244)%Z then between 128 143 b1
             else continuation b1)
            && continuation b2 && continuation b3 && utf8_valid t3
        | _ => false
        end
      else false
  end.

Definition valid_text (s : string) : bool := utf8_valid (of_string s).

(** Text mode with the default [newline=None]: "\r\n" and a lone "\r" are
    read as "\n". *)
Fixpoint universal_newlines (s : string) : string :=
  match s with
  | EmptyString => EmptyString
  | String c s' =>
      if Ascii.eqb c Str.carriage_return then
        match s' with
        | String c' s'' =>
            if Ascii.eqb c' Str.newline
            then String Str.newline (universal_newlines s'')
            else String Str.newline (universal_newlines s')
        | EmptyString => String Str.newline EmptyString
        end
      else String c (universal_newlines s')
  end.

End Bytes.

(** ** hashlib.md5 (RFC 1321) *)

Module MD5.

Local Open Scope Z_scope.

Definition w32 (x : Z) : Z := x mod 2 ^ 32.

Definition rotl (x : Z) (c : Z) : Z :=
  w32 (Z.lor (Z.shiftl x c) (Z.shiftr x (32 - c))).

Definition lnot32 (x : Z) : Z := Z.lxor x 0xffffffff.

Definition K : list Z :=
  [ 0xd76aa478; 0xe8c7b756; 0x242070db; 0xc1bdceee;
    0xf57c0faf; 0x4787c62a; 0xa8304613; 0xfd469501;
    0x698098d8; 0x8b44f7af; 0xffff5bb1; 0x895cd7be;
    0x6b901122; 0xfd987193; 0xa679438e; 0x49b40821;
    0xf61e2562; 0xc040b340; 0x265e5a51; 0xe9b6c7aa;
    0xd62f105d; 0x02441453; 0xd8a1e681; 0xe7d3fbc8;
    0x21e1cde6; 0xc33707d6; 0xf4d50d87; 0x455a14ed;
    0xa9e3e905; 0xfcefa3f8; 0x676f02d9; 0x8d2a4c8a;
    0xfffa3942; 0x8771f681; 0x6d9d6122; 0xfde5380c;
    0xa4beea44; 0x4bdecfa9; 0xf6bb4b60; 0xbebfbc70;
    0x289b7ec6; 0xeaa127fa; 0xd4ef3085; 0x04881d05;
    0xd9d4d039; 0xe6db99e5; 0x1fa27cf8; 0xc4ac5665;
    0xf4292244; 0x432aff97; 0xab9423a7; 0xfc93a039;
    0x655b59c3; 0x8f0ccc92; 0xffeff47d; 0x85845dd1;
    0x6fa87e4f; 0xfe2ce6e0; 0xa3014314; 0x4e0811a1;
    0xf7537e82; 0xbd3af235; 0x2ad7d2bb; 0xeb86d391 ].

Definition shifts : list Z :=
  [ 7; 12; 17; 22; 7; 12; 17; 22; 7; 12; 17; 22; 7; 12; 17; 22;
    5; 9; 14; 20; 5; 9; 14; 20; 5; 9; 14; 20; 5; 9; 14; 20;
    4; 11; 16; 23; 4; 11; 16; 23; 4; 11; 16; 23; 4; 11; 16; 23;
    6; 10; 15; 21; 6; 10; 15; 21; 6; 10; 15; 21; 6; 10; 15; 21 ].

Definition state : Type := Z * Z * Z * Z.

Definition init : state := (0x67452301, 0xefcdab89, 0x98badcfe, 0x10325476).

(** One of the 64 operations on the block [m] (16 little-endian words). *)
Definition step (m : list Z) (st : state) (i : nat) : state :=
  let '(a, b, c, d) := st in
  let zi := Z.of_nat i in
  let '(f, g) :=
    if zi <? 16 then (Z.lor (Z.land b c) (Z.land (lnot32 b) d), zi)
    else if zi <? 32 then
      (Z.lor (Z.land d b) (Z.land (lnot32 d) c), (5 * zi + 1) mod 16)
    else if zi <? 48 then (Z.lxor (Z.lxor b c) d, (3 * zi + 5) mod 16)
    else (Z.lxor c (Z.lor b (lnot32 d)), (7 * zi) mod 16) in
  let f' := w32 (f + a + nth i K 0 + nth (Z.to_nat g) m 0) in
  (d, w32 (b + rotl f' (nth i shifts 0)), b, c).

Definition compress (st : state) (m : list Z) : state :=
  let '(a0, b0, c0, d0) := st in
  let '(a, b, c, d) := fold_left (step m) (seq 0 64) st in
  (w32 (a0 + a), w32 (b0 + b), w32 (c0 + c), w32 (d0 + d)).

Definition le_bytes (n : nat) (x : Z) : list Z :=
  map (fun i => Z.shiftr x (8 * Z.of_nat i) mod 256) (seq 0 n).

(** The message followed by a 1 bit, zeros up to 56 modulo 64 bytes, and
    the bit length on 64 bits. *)
Definition pad (msg : list Z) : list Z :=
  let n := Z.of_nat (length msg) in
  let zeros := Z.to_nat ((55 - n) mod 64) in
  msg ++ [128] ++ repeat 0 zeros ++ le_bytes 8 ((8 * n) mod 2 ^ 64).

Fixpoint words (fuel : nat) (l : list Z) : list Z :=
  match fuel, l with
  | S fuel', b0 :: b1 :: b2 :: b3 :: t =>
      (b0 + 256 * b1 + 65536 * b2 + 16777216 * b3) :: words fuel' t
  | _, _ => []
  end.

Fixpoint blocks (fuel : nat) (st : state) (l : list Z) : state :=
  match fuel with
  | O => st
  | S fuel' =>
      match l with
      | [] => st
      | _ => blocks fuel' (compress st (words 16 (firstn 64 l))) (skipn 64 l)
      end
  end.

Definition digest (msg : list Z) : list Z :=
  let p := pad msg in
  let '(a, b, c, d) := blocks (length p) init p in
  le_bytes 4 a ++ le_bytes 4 b ++ le_bytes 4 c ++ le_bytes 4 d.

Definition hex_digit (x : Z) : ascii :=
  if x <? 10 then Ascii.ascii_of_N (Z.to_N (48 + x))
  else Ascii.ascii_of_N (Z.to_N (87 + x)).

Fixpoint hex (l : list Z) : string :=
  match l with
  | [] => EmptyString
  | b :: t => String (hex_digit (b / 16)) (String (hex_digit (b mod 16)) (hex t))
  end.

(** [hashlib.md5(data).hexdigest()]. *)
Definition hexdigest (msg : list Z) : string := hex (digest msg).

End MD5.

(** ** base64.b64encode *)

Module Base64.

Local Open Scope Z_scope.

Definition alphabet : string :=
  "ABCDEFGHIJKLMNOPQRSTUVWXYZabcdefghijklmnopqrstuvwxyz0123456789+/".

Definition digit (x : Z) : ascii :=
  match String.get (Z.to_nat x) alphabet with
  | Some c => c
  | None => "="%char
  end.

Fixpoint b64encode (l : list Z) : string :=
  match l with
  | [] => EmptyString
  | [a] =>
      String (digit (a / 4)) (String (digit ((a mod 4) * 16)) "==")
  | [a; b] =>
      String (digit (a / 4))
        (String (digit ((a mod 4) * 16 + b / 16))
           (String (digit ((b mod 16) * 4)) "="))
  | a :: b :: c :: t =>
      String (digit (a / 4))
        (String (digit ((a mod 4) * 16 + b / 16))
           (String (digit ((b mod 16) * 4 + c / 64))
              (String (digit (c mod 64)) (b64encode t))))
  end.

End Base64.

(** ** Python floats (IEEE 754 binary64) *)

Module Float.

Definition prec : Z := 53.
Definition emax : Z := 1024.

(** [float(n)], rounding to nearest even. *)
Definition of_int (n : Z) : spec_float := binary_normalize prec emax n 0 false.

(** [a / b] on two ints (true division), for [b <> 0] and operands below
    2^53, which convert to floats exactly. *)
Definition truediv (a b : Z) : spec_float := SFdiv prec emax (of_int a) (of_int b).

(** [x * n] with [n] an int. *)
Definition mul_int (x : spec_float) (n : Z) : spec_float :=
  SFmul prec emax x (of_int n).

(** [int(x)]: truncation toward zero; [None] where Python raises
    (infinities and NaN). *)
Definition to_int (x : spec_float) : option Z :=
  match x with
  | S754_zero _ => Some 0%Z
  | S754_finite s m e =>
      let magnitude :=
        if (0 <=? e)%Z then Z.shiftl (Zpos m) e else Z.shiftr (Zpos m) (- e) in
      Some (if s then (- magnitude)%Z else magnitude)
  | _ => None
  end.

(** [round(x)] to an int: nearest, ties to even; [None] where Python
    raises. *)
Definition round_half_even (x : spec_float) : option Z :=
  match x with
  | S754_zero _ => Some 0%Z
  | S754_finite s m e =>
      let magnitude :=
        if (0 <=? e)%Z then Z.shiftl (Zpos m) e
        else
          let q := Z.shiftr (Zpos m) (- e) in
          let twice_rest := (2 * (Zpos m - Z.shiftl q (- e)))%Z in
          let unit := Z.shiftl 1 (- e) in
          if (twice_rest <? unit)%Z then q
          else if (unit <? twice_rest)%Z then (q + 1)%Z
          else if Z.even q then q else (q + 1)%Z in
      Some (if s then (- magnitude)%Z else magnitude)
  | _ => None
  end.

End Float.

(** ** Python values *)

(** The values a YAML front matter block yields and [json.dump] writes.  A
    [datetime.date] or [datetime.datetime] object is held as the text its
    [isoformat()] returns, which identifies it. *)
#[warnings="-register-all"]
Inductive pyval :=
| VNone
| VBool (b : bool)
| VInt (n : Z)
| VFloat (x : spec_float)
| VStr (s : string)
| VDate (iso : string)
| VList (items : list pyval)
| VDict (items : list (string * pyval)).

(** Truth value testing ([if v], [not v], [v or w]). *)
Definition truthy (v : pyval) : bool :=
  match v with
  | VNone => false
  | VBool b => b
  | VInt n => negb (n =? 0)%Z
  | VFloat x => match x with S754_zero _ => false | _ => true end
  | VStr s => negb (String.eqb s "")
  | VDate _ => true
  | VList items => match items with [] => false | _ => true end
  | VDict items => match items with [] => false | _ => true end
  end.

(** [d.get(k)] on a dict held in insertion order, with distinct keys;
    [None] stands for Python's [None] result, which is falsy. *)
Fixpoint dict_get (d : list (string * pyval)) (k : string) : option pyval :=
  match d with
  | [] => None
  | (k', v) :: d' => if String.eqb k' k then Some v else dict_get d' k
  end.

Definition truthy_opt (o : option pyval) : bool :=
  match o with
  | Some v => truthy v
  | None => false
  end.

(** [serialize_date]. *)
Definition serialize_date (obj : pyval) : pyval :=
  match obj with
  | VDate iso => VStr iso
  | _ => obj
  end.

(** ** Exceptions, the file system and the state monad of the program *)

Inductive exn :=
| FileNotFoundError
| FileExistsError
| IsADirectoryError
| NotADirectoryError
| UnicodeDecodeError
| UnicodeEncodeError
| KeyError
| ValueError
| TypeError.

Inductive result (A : Type) :=
| Ok (a : A)
| Raise (e : exn).

Arguments Ok {A} a.
Arguments Raise {A} e.

Definition result_bind {A B : Type} (r : result A) (k : A -> result B)
  : result B :=
  match r with
  | Ok a => k a
  | Raise e => Raise e
  end.

Fixpoint result_map {A B : Type} (f : A -> result B) (l : list A)
  : result (list B) :=
  match l with
  | [] => Ok []
  | x :: l' =>
      result_bind (f x) (fun y =>
      result_bind (result_map f l') (fun ys => Ok (y :: ys)))
  end.

(** A path names a regular file with its bytes or a directory with the names
    [os.listdir] returns, in the order it returns them.  Relative paths are
    resolved against the working directory, which is the empty path, exists
    and is not listed by the program. *)
Inductive node :=
| File (data : string)
| Dir (listing : list string).

Abbreviation filesys := (gmap string node).

Definition M (A : Type) : Type := filesys -> result A * filesys.

Definition ret {A : Type} (a : A) : M A := fun fs => (Ok a, fs).

Definition bind {A B : Type} (m : M A) (k : A -> M B) : M B :=
  fun fs =>
    match m fs with
    | (Ok a, fs') => k a fs'
    | (Raise e, fs') => (Raise e, fs')
    end.

Notation "'let*' x := m 'in' k" := (bind m (fun x => k))
  (at level 10, x name, m at level 100, k at level 200).
Notation "m >> k" := (bind m (fun _ => k))
  (at level 100, k at level 200, right associativity).

Definition lift {A : Type} (r : result A) : M A := fun fs => (r, fs).

Fixpoint foldM {A B : Type} (f : B -> A -> M B) (l : list A) (b : B) : M B :=
  match l with
  | [] => ret b
  | x :: l' => let* b' := f b x in foldM f l' b'
  end.

Module FS.

(** [os.path.exists]. *)
Definition path_exists (p : string) : M bool :=
  fun fs => (Ok (bool_decide (is_Some (fs !! p))), fs).

(** [os.path.isdir]. *)
Definition isdir (p : string) : M bool :=
  fun fs => (Ok (match fs !! p with Some (Dir _) => true | _ => false end), fs).

(** [os.listdir]. *)
Definition listdir (p : string) : M (list string) :=
  fun fs =>
    match fs !! p with
    | Some (Dir l) => (Ok l, fs)
    | Some (File _) => (Raise NotADirectoryError, fs)
    | None => (Raise FileNotFoundError, fs)
    end.

(** [open(p, 'r', encoding='utf-8').read()]. *)
Definition read_text (p : string) : M string :=
  fun fs =>
    match fs !! p with
    | Some (File data) =>
        if Bytes.valid_text data then (Ok (Bytes.universal_newlines data), fs)
        else (Raise UnicodeDecodeError, fs)
    | Some (Dir _) => (Raise IsADirectoryError, fs)
    | None => (Raise FileNotFoundError, fs)
    end.

(** Creating the entry [p]: its parent must be a directory, which then
    lists it. *)
Definition create (p : string) (n : node) : M unit :=
  fun fs =>
    let parent := Path.dirname p in
    if String.eqb parent "" then (Ok tt, <[p := n]> fs)
    else
      match fs !! parent with
      | Some (Dir l) =>
          (Ok tt, <[p := n]> (<[parent := Dir (l ++ [Path.basename p])]> fs))
      | Some (File _) => (Raise NotADirectoryError, fs)
      | None => (Raise FileNotFoundError, fs)
      end.

(** [os.mkdir]. *)
Definition mkdir (p : string) : M unit :=
  fun fs =>
    match fs !! p with
    | Some _ => (Raise FileExistsError, fs)
    | None => create p (Dir []) fs
    end.

(** [try: mkdir(p) except OSError: if not isdir(p): raise]. *)
Definition mkdir_exist_ok (p : string) : M unit :=
  fun fs =>
    match mkdir p fs with
    | (Raise e, fs') =>
        match fs' !! p with
        | Some (Dir _) => (Ok tt, fs')
        | _ => (Raise e, fs')
        end
    | r => r
    end.

(** [try: m except FileExistsError: pass]. *)
Definition ignore_exists (m : M unit) : M unit :=
  fun fs =>
    match m fs with
    | (Raise FileExistsError, fs') => (Ok tt, fs')
    | r => r
    end.

(** [os.makedirs(p, exist_ok=True)] on a path without trailing separator:
    the missing ancestors first, then [p] itself, an existing directory
    being accepted.  [fuel] bounds the depth; the length of the path
    suffices. *)
Fixpoint makedirs_fuel (fuel : nat) (p : string) : M unit :=
  match fuel with
  | O => mkdir_exist_ok p
  | S fuel' =>
      let head := Path.dirname p in
      let tail := Path.basename p in
      (if negb (String.eqb head "") && negb (String.eqb tail "")
       then
         let* ex := path_exists head in
         if ex then ret tt else ignore_exists (makedirs_fuel fuel' head)
       else ret tt) >>
      mkdir_exist_ok p
  end.

Definition makedirs (p : string) : M unit :=
  makedirs_fuel (String.length p) p.

(** [open(p, 'w', encoding='utf-8')] followed by the write of [data]. *)
Definition write_text (p data : string) : M unit :=
  fun fs =>
    match fs !! p with
    | Some (Dir _) => (Raise IsADirectoryError, fs)
    | Some (File _) => (Ok tt, <[p := File data]> fs)
    | None => create p (File data) fs
    end.

End FS.

(** ** The libraries the program calls *)

(** A [PIL.Image.Image]: the format of the file it was opened from, if any,
    its size and its raster. *)
Record image := {
  format : option string;
  width : Z;
  height : Z;
  raster : string;
}.

(** What [datetime.fromisoformat] returns, as far as ordering goes: the
    position on the time line, and whether the value carries a UTC offset. *)
Record datetime := {
  instant : Z;
  aware : bool;
}.

(** The operations of python-frontmatter, Pillow, datetime and json that the
    program relies on.  [None] stands for a raised [Exception]. *)
Class Externals := {
  (** [frontmatter.loads(text)]: the metadata and the body. *)
  frontmatter_loads : string -> option (list (string * pyval) * string);
  (** [Image.open] on the bytes of a file. *)
  Image_open : string -> option image;
  (** The raster [Image.resize(size, LANCZOS)] computes. *)
  Image_resample : image -> Z * Z -> option string;
  (** The bytes [img.save(buffer, format=, quality=, optimize=True)]
      writes. *)
  Image_save : image -> string -> Z -> option string;
  (** [datetime.fromisoformat]. *)
  fromisoformat : string -> option datetime;
  (** The text [json.dump(obj, f, indent=2, default=serialize_date)]
      writes. *)
  json_dumps : pyval -> string;
}.

(** [Image.resize]: a new image of the requested size.  An image made by the
    library, not read from a file, has its [format] attribute set to
    [None]. *)
Definition Image_resize `{Externals} (img : image) (size : Z * Z)
  : option image :=
  data ← Image_resample img size;
  Some {| format := None; width := size.1; height := size.2; raster := data |}.

(** ** Configuration *)

Definition CONTENT_DIR : string := "content".
Definition COMPRESSED_DIR : string := "compressed".
Definition IMAGE_MAX_WIDTH : Z := 1280.
Definition IMAGE_QUALITY : Z := 80.


(** ** compress_and_encode_image *)

(** The height passed to [resize]:
    [int((IMAGE_MAX_WIDTH / img.width) * img.height)]. *)
Definition resized_height (w h : Z) : option Z :=
  Float.to_int (Float.mul_int (Float.truediv IMAGE_MAX_WIDTH w) h).

(** The size passed to [resize], if the image is resized at all. *)
Definition resize_request (img : image) : option (option (Z * Z)) :=
  if (IMAGE_MAX_WIDTH <? width img)%Z then
    h ← resized_height (width img) (height img);
    Some (Some (IMAGE_MAX_WIDTH, h))
  else Some None.

(** [img.format or 'JPEG']. *)
Definition format_or_jpeg (img : image) : string :=
  match format img with
  | Some f => if String.eqb f "" then "JPEG" else f
  | None => "JPEG"
  end.

(** The body of the [try] block on an opened image; [None] when an exception
    is raised. *)
Definition encode_image `{Externals} (img : image) : option string :=
  request ← resize_request img;
  img ← match request with
        | Some size => Image_resize img size
        | None => Some img
        end;
  let img_format := format_or_jpeg img in
  buffer ← Image_save img img_format IMAGE_QUALITY;
  let mime_type := "image/" +:+ Str.lower img_format in
  let encoded := Base64.b64encode (Bytes.of_string buffer) in
  Some ("data:" +:+ mime_type +:+ ";base64," +:+ encoded).

(** [compress_and_encode_image]: the data URI, or [None] after any
    exception ([except Exception: ... return None]). *)
Definition compress_and_encode_image `{Externals} (fs : filesys)
  (image_path : string) : option string :=
  match fs !! image_path with
  | Some (File data) => img ← Image_open data; encode_image img
  | _ => None
  end.

(** ** process_article *)

(** A summary returned by [process_article]. *)
Record entry := {
  entry_id : string;
  entry_category : string;
  entry_title : pyval;
  entry_date : pyval;
  entry_tags : pyval;
  entry_author : pyval;
}.

Definition entry_json (e : entry) : pyval :=
  VDict [ ("id", VStr (entry_id e));
          ("category", VStr (entry_category e));
          ("title", entry_title e);
          ("date", entry_date e);
          ("tags", entry_tags e);
          ("author", entry_author e) ].

(** [img_file.lower().endswith(('.png', '.jpg', '.jpeg', '.gif'))]. *)
Definition is_image_name (img_file : string) : bool :=
  let l := Str.lower img_file in
  Str.endswith l ".png" || Str.endswith l ".jpg"
  || Str.endswith l ".jpeg" || Str.endswith l ".gif".

(** One turn of the loop over [os.listdir(images_dir)]. *)
Definition add_asset `{Externals} (fs : filesys) (images_dir : string)
  (assets : gmap string string) (img_file : string) : gmap string string :=
  if is_image_name img_file then
    let img_path := Path.join images_dir img_file in
    match compress_and_encode_image fs img_path with
    | Some data_uri =>
        if String.eqb data_uri "" then assets
        else <[img_file := data_uri]> assets
    | None => assets
    end
  else assets.

Definition collect_assets `{Externals} (article_dir : string)
  : M (gmap string string) :=
  let images_dir := Path.join article_dir "images" in
  let* ex := FS.path_exists images_dir in
  if ex then
    let* files := FS.listdir images_dir in
    fun fs => (Ok (fold_left (add_asset fs images_dir) files ∅), fs)
  else ret ∅.

(** [(folder_name + raw_content).encode('utf-8')]: a folder name that is
    not UTF-8 is listed with surrogate escapes, which do not encode. *)
Definition encode_utf8 (folder_name raw_content : string) : result (list Z) :=
  if Bytes.valid_text folder_name
  then Ok (Bytes.of_string (folder_name +:+ raw_content))
  else Raise UnicodeEncodeError.

(** [metadata[k]]. *)
Definition dict_item (d : list (string * pyval)) (k : string) : result pyval :=
  match dict_get d k with
  | Some v => Ok v
  | None => Raise KeyError
  end.

Definition article_data (unique_id : string) (metadata : list (string * pyval))
  (content_md : string) : pyval :=
  VDict [ ("id", VStr unique_id);
          ("metadata", VDict metadata);
          ("content_md", VStr content_md) ].

Definition output_path (category unique_id : string) : string :=
  Path.join (Path.join COMPRESSED_DIR category) (unique_id +:+ ".json").

(** What [process_article] does once the required fields are known to be
    present. *)
Definition compile_article `{Externals} (article_dir category : string)
  (raw_content : string) (metadata : list (string * pyval)) (content : string)
  : M (option entry) :=
  let metadata := map (fun kv => (kv.1, serialize_date kv.2)) metadata in
  let folder_name := Path.basename article_dir in
  let* bytes := lift (encode_utf8 folder_name raw_content) in
  let unique_id := Str.take 12 (MD5.hexdigest bytes) in
  let* assets := collect_assets article_dir in
  let content_with_images := replace_image_paths content assets in
  let output_dir := Path.join COMPRESSED_DIR category in
  FS.makedirs output_dir >>
  FS.write_text (Path.join output_dir (unique_id +:+ ".json"))
    (json_dumps (article_data unique_id metadata content_with_images)) >>
  let* title := lift (dict_item metadata "title") in
  let* date := lift (dict_item metadata "date") in
  ret (Some {| entry_id := unique_id;
               entry_category := category;
               entry_title := title;
               entry_date := date;
               entry_tags := default (VList []) (dict_get metadata "tags");
               entry_author :=
                 default (VStr "Unknown") (dict_get metadata "author") |}).

Definition process_article `{Externals} (article_dir category : string)
  : M (option entry) :=
  let md_path := Path.join article_dir "article.md" in
  let* ex := FS.path_exists md_path in
  if negb ex then ret None
  else
    let* raw_content := FS.read_text md_path in
    match frontmatter_loads raw_content with
    | None => ret None
    | Some (metadata, content) =>
        if negb (truthy_opt (dict_get metadata "title"))
           || negb (truthy_opt (dict_get metadata "date"))
        then ret None
        else compile_article article_dir category raw_content metadata content
    end.

(** ** generate_manifests *)

(** The sort key [datetime.fromisoformat(x['date'])]. *)
Definition date_key `{Externals} (x : entry) : result datetime :=
  match entry_date x with
  | VStr s =>
      match fromisoformat s with
      | Some d => Ok d
      | None => Raise ValueError
      end
  | _ => Raise TypeError
  end.

(** A stable sort in descending key order: an element goes in front of the
    first later element whose key does not exceed its own. *)
Fixpoint insert_desc {A : Type} (key : A -> Z) (x : A) (l : list A) : list A :=
  match l with
  | [] => [x]
  | y :: l' =>
      if (key x <? key y)%Z then y :: insert_desc key x l' else x :: l
  end.

Fixpoint sort_desc {A : Type} (key : A -> Z) (l : list A) : list A :=
  match l with
  | [] => []
  | x :: l' => insert_desc key x (sort_desc key l')
  end.

(** Two datetimes compare unless exactly one of them carries an offset. *)
Definition comparable (l : list datetime) : bool :=
  match l with
  | [] => true
  | d :: l' => forallb (fun d' => Bool.eqb (aware d) (aware d')) l'
  end.

(** [articles.sort(key=..., reverse=True)]: every key is computed first;
    the comparisons raise [TypeError] when naive and aware datetimes meet;
    otherwise the list is sorted by descending key, equal keys keeping their
    order. *)
Definition sort_articles `{Externals} (articles : list entry)
  : result (list entry) :=
  result_bind (result_map (fun x => result_bind (date_key x)
                                      (fun k => Ok (k, x))) articles)
    (fun keyed =>
       if comparable (map fst keyed)
       then Ok (map snd (sort_desc (fun kx => instant (fst kx)) keyed))
       else Raise TypeError).

Definition manifest_json (articles : list entry) : pyval :=
  VList (map entry_json articles).

Definition manifest_path (name : string) : string :=
  Path.join COMPRESSED_DIR (name +:+ "_manifest.json").

Definition category_articles (category : string) (articles : list entry)
  : list entry :=
  filter (fun a => entry_category a = category) articles.

Definition generate_manifests `{Externals} (articles : list entry) : M unit :=
  let* articles := lift (sort_articles articles) in
  FS.write_text (manifest_path "full") (json_dumps (manifest_json articles)) >>
  FS.write_text (manifest_path "latest")
    (json_dumps (manifest_json (firstn 10 articles))) >>
  foldM (fun _ category =>
           FS.write_text (manifest_path category)
             (json_dumps (manifest_json (category_articles category articles))))
    ["news"; "reviews"] tt.

(** ** main *)

(** The body of the loop over [os.listdir(category_dir)]. *)
Definition visit `{Externals} (category category_dir : string)
  (articles : list entry) (subdir : string) : M (list entry) :=
  let article_dir := Path.join category_dir subdir in
  let* d := FS.isdir article_dir in
  if d then
    let* meta := process_article article_dir category in
    match meta with
    | Some e => ret (articles ++ [e])%list
    | None => ret articles
    end
  else ret articles.

(** The body of the loop over the categories. *)
Definition visit_category `{Externals} (articles : list entry)
  (category : string) : M (list entry) :=
  let category_dir := Path.join CONTENT_DIR category in
  let* ex := FS.path_exists category_dir in
  if negb ex then ret articles
  else
    let* subdirs := FS.listdir category_dir in
    foldM (visit category category_dir) subdirs articles.

(** The articles collected by the two loops of [main]. *)
Definition collect `{Externals} : M (list entry) :=
  foldM visit_category ["news"; "reviews"] [].

Definition main `{Externals} : M unit :=
  let* articles := collect in
  match articles with
  | [] => ret tt
  | _ => generate_manifests articles
  end.

(** ** Sample inputs

    Concrete documents, images and trees, with the behaviour of the libraries
    on them, used to run the program on examples. *)

Module Sample.

Definition doc_hello : string :=
"---
title: Hello
date: 2024-03-01
---
See ![pic](images/p.png) and ![old](images/gone.png)".

(** Two documents which, in the folders alpha and beta, yield the same
    identifier: the MD5 digests of the folder name followed by the document
    agree on their first twelve hexadecimal digits, 8c609e9b69c6. *)
Definition doc_alpha : string :=
"---
title: Alpha 21869449
date: 2024-01-01
---
Text".

Definition doc_beta : string :=
"---
title: Beta 2057267
date: 2024-02-01
---
Text".

Definition doc_tuesday : string :=
"---
title: Plans
date: 'next tuesday'
---
Soon".

Definition doc_untitled : string :=
"---
date: 2024-01-01
---
Body".

Definition doc_undated : string :=
"---
title: Timeless
---
Body".

Definition doc_broken : string :=
"---
title: [unclosed
---
Body".

Definition doc_review : string :=
"---
title: Review
date: 2024-02-01
tags: [film]
author: Ann
---
Fine".

Definition hello_body : string :=
  "See ![pic](images/p.png) and ![old](images/gone.png)".

Definition hello_metadata : list (string * pyval) :=
  [("title", VStr "Hello"); ("date", VDate "2024-03-01")].

(** [frontmatter.loads] on the sample documents; any other text is taken to
    carry no front matter. *)
Definition loads (raw : string) : option (list (string * pyval) * string) :=
  if String.eqb raw doc_hello then Some (hello_metadata, hello_body)
  else if String.eqb raw doc_alpha then
    Some ([("title", VStr "Alpha 21869449"); ("date", VDate "2024-01-01")],
          "Text")
  else if String.eqb raw doc_beta then
    Some ([("title", VStr "Beta 2057267"); ("date", VDate "2024-02-01")],
          "Text")
  else if String.eqb raw doc_tuesday then
    Some ([("title", VStr "Plans"); ("date", VStr "next tuesday")], "Soon")
  else if String.eqb raw doc_untitled then
    Some ([("date", VDate "2024-01-01")], "Body")
  else if String.eqb raw doc_undated then
    Some ([("title", VStr "Timeless")], "Body")
  else if String.eqb raw doc_broken then None
  else if String.eqb raw doc_review then
    Some ([("title", VStr "Review"); ("date", VDate "2024-02-01");
           ("tags", VList [VStr "film"]); ("author", VStr "Ann")], "Fine")
  else Some ([], raw).

(** Stand-ins for the bytes of three image files. *)
Definition wide_png : string := "<png 2560x1003>".
Definition small_jpeg : string := "<jpeg 800x600>".
Definition corrupt_png : string := "<not an image>".

Definition open (data : string) : option image :=
  if String.eqb data wide_png then
    Some {| format := Some "PNG"; width := 2560; height := 1003;
            raster := data |}
  else if String.eqb data small_jpeg then
    Some {| format := Some "JPEG"; width := 800; height := 600;
            raster := data |}
  else None.

Definition resample (img : image) (size : Z * Z) : option string :=
  if (0 <? size.1)%Z && (0 <? size.2)%Z then Some (raster img) else None.

Definition save (img : image) (fmt : string) (quality : Z) : option string :=
  Some (fmt +:+ ":" +:+ raster img).

Definition digit_value (c : ascii) : option Z :=
  let n := Z.of_N (Ascii.N_of_ascii c) in
  if (48 <=? n)%Z && (n <=? 57)%Z then Some (n - 48)%Z else None.

(** [datetime.fromisoformat] on texts of the form YYYY-MM-DD; the instant
    counts days in months of 31 slots, which keeps the calendar order. *)
Definition date_only (s : string) : option datetime :=
  match list_ascii_of_string s with
  | [y1; y2; y3; y4; h1; m1; m2; h2; d1; d2] =>
      if Ascii.eqb h1 "-" && Ascii.eqb h2 "-" then
        y1 ← digit_value y1; y2 ← digit_value y2;
        y3 ← digit_value y3; y4 ← digit_value y4;
        m1 ← digit_value m1; m2 ← digit_value m2;
        d1 ← digit_value d1; d2 ← digit_value d2;
        let y := (1000 * y1 + 100 * y2 + 10 * y3 + y4)%Z in
        let m := (10 * m1 + m2)%Z in
        let d := (10 * d1 + d2)%Z in
        if (1 <=? y)%Z && (1 <=? m)%Z && (m <=? 12)%Z
           && (1 <=? d)%Z && (d <=? 31)%Z
        then Some {| instant := ((y * 12 + (m - 1)) * 31 + (d - 1))%Z;
                     aware := false |}
        else None
      else None
  | _ => None
  end.

Definition quote : string := String (Ascii.ascii_of_nat 34) EmptyString.

(** A compact rendering of a value, standing in for the text of
    [json.dump]. *)
Fixpoint dumps (v : pyval) : string :=
  match v with
  | VNone => "null"
  | VBool b => if b then "true" else "false"
  | VInt n => pretty n
  | VFloat _ => "<float>"
  | VStr s => quote +:+ s +:+ quote
  | VDate iso => quote +:+ iso +:+ quote
  | VList items =>
      "[" +:+ (fix go (l : list pyval) : string :=
                 match l with
                 | [] => ""
                 | x :: l' => dumps x +:+ "," +:+ go l'
                 end) items +:+ "]"
  | VDict items =>
      "{" +:+ (fix go (l : list (string * pyval)) : string :=
                 match l with
                 | [] => ""
                 | (k, x) :: l' =>
                     quote +:+ k +:+ quote +:+ ":" +:+ dumps x +:+ "," +:+ go l'
                 end) items +:+ "}"
  end.

Definition libs : Externals := {|
  frontmatter_loads := loads;
  Image_open := open;
  Image_resample := resample;
  Image_save := save;
  fromisoformat := date_only;
  json_dumps := dumps;
|}.

(** A content tree with a valid article and its images, a file that is not
    a folder, two folders that are skipped, and one review. *)
Definition tree : filesys :=
  list_to_map
    [ ("content", Dir ["news"; "reviews"]);
      ("content/news", Dir ["hello"; "notes.txt"; "untitled"; "empty"]);
      ("content/news/notes.txt", File "todo");
      ("content/news/hello", Dir ["article.md"; "images"]);
      ("content/news/hello/article.md", File doc_hello);
      ("content/news/hello/images", Dir ["broken.png"; "p.png"; "readme.txt"]);
      ("content/news/hello/images/broken.png", File corrupt_png);
      ("content/news/hello/images/p.png", File small_jpeg);
      ("content/news/hello/images/readme.txt", File "notes");
      ("content/news/untitled", Dir ["article.md"]);
      ("content/news/untitled/article.md", File doc_untitled);
      ("content/news/empty", Dir []);
      ("content/reviews", Dir ["film"]);
      ("content/reviews/film", Dir ["article.md"]);
      ("content/reviews/film/article.md", File doc_review) ].

(** Two folders of one category that yield the same identifier. *)
Definition colliding_tree : filesys :=
  list_to_map
    [ ("content", Dir ["news"]);
      ("content/news", Dir ["alpha"; "beta"]);
      ("content/news/alpha", Dir ["article.md"]);
      ("content/news/alpha/article.md", File doc_alpha);
      ("content/news/beta", Dir ["article.md"]);
      ("content/news/beta/article.md", File doc_beta) ].

Definition alpha_entry : entry :=
  {| entry_id := "8c609e9b69c6";
     entry_category := "news";
     entry_title := VStr "Alpha 21869449";
     entry_date := VStr "2024-01-01";
     entry_tags := VList [];
     entry_author := VStr "Unknown" |}.

Definition beta_entry : entry :=
  {| entry_id := "8c609e9b69c6";
     entry_category := "news";
     entry_title := VStr "Beta 2057267";
     entry_date := VStr "2024-02-01";
     entry_tags := VList [];
     entry_author := VStr "Unknown" |}.

(** One article whose date is a quoted string that is no ISO 8601 date. *)
Definition tuesday_tree : filesys :=
  list_to_map
    [ ("content", Dir ["news"]);
      ("content/news", Dir ["plans"]);
      ("content/news/plans", Dir ["article.md"]);
      ("content/news/plans/article.md", File doc_tuesday) ].

(** The summaries of the valid articles of [tree] and [tuesday_tree]. *)
Definition hello_entry : entry :=
  {| entry_id := "5eb7fa6761a1";
     entry_category := "news";
     entry_title := VStr "Hello";
     entry_date := VStr "2024-03-01";
     entry_tags := VList [];
     entry_author := VStr "Unknown" |}.

Definition tuesday_entry : entry :=
  {| entry_id := "299a3df15360";
     entry_category := "news";
     entry_title := VStr "Plans";
     entry_date := VStr "next tuesday";
     entry_tags := VList [];
     entry_author := VStr "Unknown" |}.

(** Three summaries in encounter order: January (news), March (reviews),
    February (news). *)
Definition dated (unique_id category date : string) : entry :=
  {| entry_id := unique_id;
     entry_category := category;
     entry_title := VStr "Title";
     entry_date := VStr date;
     entry_tags := VList [];
     entry_author := VStr "Unknown" |}.


(** An output directory without manifests. *)
Definition output_tree : filesys :=
  list_to_map [ ("compressed", Dir ["news"]); ("compressed/news", Dir []) ].

End Sample.

(** ** Notions used in the statements *)

(** What the rewriting pass makes of one segment of the body: a character
    outside the references is kept; a reference keeps its alt text and takes
    the data URI filed under the file name of its path, if there is one. *)
Definition rewrite_segment (assets : gmap string string) (g : Re.segment)
  : Re.segment :=
  match g with
  | Re.Text c => Re.Text c
  | Re.Image alt path =>
      match assets !! Path.basename path with
      | Some uri => Re.Image alt uri
      | None => Re.Image alt path
      end
  end.

(** The height of a downscaled image as the specification words it:
    [round(max_width / original_width * original_height)]. *)
Definition rounded_height (w h : Z) : option Z :=
  Float.round_half_even (Float.mul_int (Float.truediv IMAGE_MAX_WIDTH w) h).

(** A float that is not negative: a zero, an infinity or a finite value with
    a clear sign bit, or a NaN. *)
Definition sign_clear (x : spec_float) : Prop :=
  match x with
  | S754_zero s | S754_infinity s | S754_finite s _ _ => s = false
  | S754_nan => True
  end.


(** A lower-case hexadecimal digit, and a text made of such digits. *)
Definition is_hex_digit (c : ascii) : bool :=
  Str.contains c "0123456789abcdef".

Fixpoint all_hex (s : string) : bool :=
  match s with
  | EmptyString => true
  | String c s' => is_hex_digit c && all_hex s'
  end.

(** The identifier the program derives from a folder name and the text read
    from [article.md]. *)
Definition article_id (folder_name raw_content : string) : string :=
  Str.take 12 (MD5.hexdigest (Bytes.of_string (folder_name +:+ raw_content))).

(** The conditions under which [process_article] skips a folder: there is
    no [article.md]; or the text read from it makes [frontmatter.loads]
    raise; or the parsed metadata has no title or an empty one (a falsy
    value), or no date (or a falsy one). *)
Definition skipped `{Externals} (fs : filesys) (article_dir : string) : Prop :=
  fs !! Path.join article_dir "article.md" = None \/
  exists data,
    fs !! Path.join article_dir "article.md" = Some (File data) /\
    Bytes.valid_text data = true /\
    match frontmatter_loads (Bytes.universal_newlines data) with
    | None => True
    | Some (metadata, _) =>
        truthy_opt (dict_get metadata "title") = false \/
        truthy_opt (dict_get metadata "date") = false
    end.

(** The entry of the asset map that one file of [images/] gives rise to. *)
Definition asset_of `{Externals} (fs : filesys) (images_dir img_file : string)
  : option string :=
  if is_image_name img_file then
    match compress_and_encode_image fs (Path.join images_dir img_file) with
    | Some data_uri => if String.eqb data_uri "" then None else Some data_uri
    | None => None
    end
  else None.

(** The instant of the parsed date of a summary (0 when the date does not
    parse, a case the statements exclude). *)
Definition instant_of `{Externals} (x : entry) : Z :=
  match date_key x with
  | Ok d => instant d
  | Raise _ => 0%Z
  end.


(** A summary as [main] collects them: of one of the two categories, with an
    identifier of twelve hexadecimal digits. *)
Definition well_formed (e : entry) : Prop :=
  entry_category e ∈ ["news"; "reviews"] /\
  String.length (entry_id e) = 12 /\
  all_hex (entry_id e) = true.

(** The file of a summary. *)
Definition entry_path (e : entry) : string :=
  output_path (entry_category e) (entry_id e).

(** The file of the summary [e] holds a compiled article with the
    identifier of [e]. *)
Definition compiled_at `{Externals} (fs : filesys) (e : entry) : Prop :=
  exists metadata content_md,
    fs !! entry_path e =
    Some (File (json_dumps (article_data (entry_id e) metadata content_md))).

(** The specification's invariant on a finished run: every summary has its
    compiled file, and different summaries have different files. *)
Definition one_file_each `{Externals} (fs : filesys) (articles : list entry)
  : Prop :=
  (forall e, e ∈ articles -> compiled_at fs e) /\
  (forall i j e1 e2,
     articles !! i = Some e1 -> articles !! j = Some e2 -> i <> j ->
     entry_path e1 <> entry_path e2).

(** ** Notions used in the further properties *)

(** The computation [m] leaves the entry at the path [q] as it is, whatever
    its outcome. *)
Definition keeps {A : Type} (q : string) (m : M A) : Prop :=
  forall fs r fs', m fs = (r, fs') -> fs' !! q = fs !! q.

(** A path outside the output tree: neither the output directory nor
    anything below it. *)
Definition outside_output (q : string) : Prop :=
  q <> COMPRESSED_DIR /\ Str.strip_prefix (COMPRESSED_DIR +:+ "/") q = None.

(** The path names a directory. *)
Definition is_dir (fs : filesys) (p : string) : Prop :=
  exists l, fs !! p = Some (Dir l).

(** The path names a regular file. *)
Definition is_file (fs : filesys) (p : string) : Prop :=
  exists data, fs !! p = Some (File data).

(** The exceptions of the operating system and of the text codecs. *)
Definition os_or_codec_error (e : exn) : bool :=
  match e with
  | FileNotFoundError | FileExistsError | IsADirectoryError
  | NotADirectoryError | UnicodeDecodeError | UnicodeEncodeError => true
  | KeyError | ValueError | TypeError => false
  end.

(** The computation [m] raises exceptions of the class [P] only. *)
Definition raises_only {A : Type} (P : exn -> bool) (m : M A) : Prop :=
  forall fs e fs', m fs = (Raise e, fs') -> P e = true.

(** A path of the source side: absolute, or below the content directory. *)
Definition in_source (q : string) : bool :=
  match Str.strip_prefix "/" q, Str.strip_prefix (CONTENT_DIR +:+ "/") q with
  | None, None => false
  | _, _ => true
  end.

(** Two file systems that hold the same on the source side. *)
Definition agree_on_source (fsA fsB : filesys) : Prop :=
  forall q, in_source q = true -> fsB !! q = fsA !! q.

(** Every directory of [fsX] is a directory of [fsB], and every regular
    file of [fsX] a regular file of [fsB] (of whatever content). *)
Definition covers (fsB fsX : filesys) : Prop :=
  forall q, (is_dir fsX q -> is_dir fsB q) /\ (is_file fsX q -> is_file fsB q).

(** The state [fsB] of a second run that started from the final state
    [fs'] of a first one, when the first run was in the state [fsA] at the
    same point: an entry is what it was at the start of the second run, or a
    file that the second run has rewritten as the first one had it. *)
Definition replayed (fs' fsA fsB : filesys) : Prop :=
  forall q,
    fsB !! q = fs' !! q \/
    exists text, fsB !! q = Some (File text) /\ fsA !! q = Some (File text).

(** A text with every line feed preceded by a carriage return, as an
    editor set to DOS line endings stores it. *)
Fixpoint crlf (s : string) : string :=
  match s with
  | EmptyString => EmptyString
  | String c s' =>
      if Ascii.eqb c Str.newline
      then String Str.carriage_return (String Str.newline (crlf s'))
      else String c (crlf s')
  end.

(** The extensions of the images the program embeds. *)
Definition image_extensions : list string := [".png"; ".jpg"; ".jpeg"; ".gif"].

(** ** Further sample inputs *)

Module Edge.

(** A document whose date is a YAML integer. *)
Definition doc_year : string :=
"---
title: Annual
date: 2024
---
Report".

Definition loads (raw : string) : option (list (string * pyval) * string) :=
  if String.eqb raw doc_year then
    Some ([("title", VStr "Annual"); ("date", VInt 2024)], "Report")
  else Sample.loads raw.

(** [datetime.fromisoformat], also on one text that carries a UTC offset. *)
Definition with_offset (s : string) : option datetime :=
  if String.eqb s "2024-01-01T00:00:00+00:00" then
    Some {| instant := 752928; aware := true |}
  else Sample.date_only s.

Definition libs : Externals := {|
  frontmatter_loads := loads;
  Image_open := Sample.open;
  Image_resample := Sample.resample;
  Image_save := Sample.save;
  fromisoformat := with_offset;
  json_dumps := Sample.dumps;
|}.

(** Bytes that are no UTF-8 text. *)
Definition not_utf8 : string := String (Ascii.ascii_of_nat 255) "abc".

(** A folder whose article.md is no text, listed before a valid article. *)
Definition undecodable_tree : filesys :=
  list_to_map
    [ ("content", Dir ["news"]);
      ("content/news", Dir ["binary"; "hello"]);
      ("content/news/binary", Dir ["article.md"]);
      ("content/news/binary/article.md", File not_utf8);
      ("content/news/hello", Dir ["article.md"]);
      ("content/news/hello/article.md", File Sample.doc_hello) ].

(** A valid article beside which images is a regular file. *)
Definition images_file_tree : filesys :=
  list_to_map
    [ ("content", Dir ["news"]);
      ("content/news", Dir ["hello"]);
      ("content/news/hello", Dir ["article.md"; "images"]);
      ("content/news/hello/article.md", File Sample.doc_hello);
      ("content/news/hello/images", File "not a folder") ].

(** A valid news article, and a regular file in the place of reviews. *)
Definition reviews_file_tree : filesys :=
  list_to_map
    [ ("content", Dir ["news"; "reviews"]);
      ("content/news", Dir ["hello"]);
      ("content/news/hello", Dir ["article.md"]);
      ("content/news/hello/article.md", File Sample.doc_hello);
      ("content/reviews", File "not a folder") ].

(** A tree none of whose entries yields a summary. *)
Definition nothing_valid_tree : filesys :=
  list_to_map
    [ ("content", Dir ["news"]);
      ("content/news", Dir ["untitled"; "notes.txt"; "empty"]);
      ("content/news/untitled", Dir ["article.md"]);
      ("content/news/untitled/article.md", File Sample.doc_untitled);
      ("content/news/notes.txt", File "todo");
      ("content/news/empty", Dir []) ].

(** A valid article followed by one whose date is the integer 2024. *)
Definition year_tree : filesys :=
  list_to_map
    [ ("content", Dir ["news"]);
      ("content/news", Dir ["hello"; "annual"]);
      ("content/news/hello", Dir ["article.md"]);
      ("content/news/hello/article.md", File Sample.doc_hello);
      ("content/news/annual", Dir ["article.md"]);
      ("content/news/annual/article.md", File doc_year) ].

(** A listing in which a stray file and a skipped folder stand between two
    valid articles of the colliding pair. *)
Definition cluttered_tree : filesys :=
  list_to_map
    [ ("content", Dir ["news"]);
      ("content/news", Dir ["alpha"; "notes.txt"; "untitled"; "beta"]);
      ("content/news/alpha", Dir ["article.md"]);
      ("content/news/alpha/article.md", File Sample.doc_alpha);
      ("content/news/notes.txt", File "todo");
      ("content/news/untitled", Dir ["article.md"]);
      ("content/news/untitled/article.md", File Sample.doc_untitled);
      ("content/news/beta", Dir ["article.md"]);
      ("content/news/beta/article.md", File Sample.doc_beta) ].

(** The summary of the article dated 2024. *)
Definition annual_entry : entry :=
  {| entry_id := "0bf62f38e769";
     entry_category := "news";
     entry_title := VStr "Annual";
     entry_date := VInt 2024;
     entry_tags := VList [];
     entry_author := VStr "Unknown" |}.

(** The summary of the review of the sample tree. *)
Definition review_entry : entry :=
  {| entry_id := "3f045dac4ee0";
     entry_category := "reviews";
     entry_title := VStr "Review";
     entry_date := VStr "2024-02-01";
     entry_tags := VList [VStr "film"];
     entry_author := VStr "Ann" |}.

(** Two summaries, one dated without and one with a UTC offset. *)
Definition mixed_entries : list entry :=
  [ Sample.dated "00000000000a" "news" "2024-01-01";
    Sample.dated "00000000000d" "news" "2024-01-01T00:00:00+00:00" ].

(** The sample tree with the document of hello stored with DOS line
    endings. *)
Definition dos_tree : filesys :=
  <["content/news/hello/article.md" := File (crlf Sample.doc_hello)]>
    Sample.tree.

(** The sample tree with a compiled article left by an earlier run. *)
Definition stale_tree : filesys :=
  <["compressed/news/0123456789ab.json" := File "{}"]>
    (<["compressed/news" := Dir ["0123456789ab.json"]]>
       (<["compressed" := Dir ["news"]]> Sample.tree)).

(** The data URI of the image p.png of the sample tree. *)
Definition p_uri : string :=
  "data:image/jpeg;base64,SlBFRzo8anBlZyA4MDB4NjAwPg==".

End Edge.

(** * Properties *)

#[local] Set Warnings "-clear-no-such-hyp".

(** ** Strings *)

Lemma append_cons c s t : String c s +:+ t = String c (s +:+ t).
Proof. reflexivity. Qed.

Lemma append_nil_l s : "" +:+ s = s.
Proof. reflexivity. Qed.

Lemma append_nil_r s : s +:+ "" = s.
Proof. induction s as [|c s IH]; [done|]. by rewrite append_cons, IH. Qed.

Lemma append_assoc s t u : (s +:+ t) +:+ u = s +:+ t +:+ u.
Proof.
  induction s as [|c s IH]; [done|]. by rewrite !append_cons, IH.
Qed.

Lemma length_append s t :
  String.length (s +:+ t) = String.length s + String.length t.
Proof.
  induction s as [|c s IH]; [done|]. rewrite append_cons. simpl. by rewrite IH.
Qed.

Lemma strip_prefix_Some p s r : Str.strip_prefix p s = Some r -> s = p +:+ r.
Proof.
  revert s. induction p as [|a p IH]; intros s Hs; simpl in Hs.
  - by inversion Hs.
  - destruct s as [|b s]; [done|].
    destruct (Ascii.eqb_spec a b) as [->|]; [|done].
    rewrite append_cons. f_equal. by apply IH.
Qed.

(** ** The matcher *)

(** A lazy group hands over the shortest extension on which the rest of the
    pattern matches, and that extension holds no newline. *)
Lemma lazy_dot_sound {R : Type} (k : string -> string -> option R) g s r :
  Re.lazy_dot k g s = Some r ->
  exists ext s',
    s = ext +:+ s' /\ k (g +:+ ext) s' = Some r /\
    Str.contains Str.newline ext = false /\
    (forall e1 e2, ext = e1 +:+ e2 -> e2 <> "" ->
                   k (g +:+ e1) (e2 +:+ s') = None).
Proof.
  assert (Hstop : forall g s, k g s = Some r ->
    exists ext s',
      s = ext +:+ s' /\ k (g +:+ ext) s' = Some r /\
      Str.contains Str.newline ext = false /\
      (forall e1 e2, ext = e1 +:+ e2 -> e2 <> "" ->
                     k (g +:+ e1) (e2 +:+ s') = None)).
  { intros g0 s0 Hk. exists "", s0. rewrite append_nil_r.
    split; [done|]. split; [done|]. split; [done|].
    intros [|a e1] e2 He Hne; [|done]. rewrite append_nil_l in He. by subst. }
  revert g. induction s as [|c s IH]; intros g H; simpl in H.
  - destruct (k g "") as [r'|] eqn:Hk; [|done].
    apply Hstop. congruence.
  - destruct (k g (String c s)) as [r'|] eqn:Hk.
    { apply Hstop. congruence. }
    destruct (Str.is_newline c) eqn:Hc; [done|].
    apply IH in H as (ext & s' & -> & Hk' & Hnl & Hmin).
    exists (String c ext), s'. rewrite append_assoc in Hk'.
    split; [done|]. split; [done|]. split.
    + simpl. unfold Str.is_newline in Hc. by rewrite Hc.
    + intros [|a e1] e2 He Hne.
      * rewrite append_nil_l in He. subst e2.
        by rewrite append_nil_r, append_cons.
      * rewrite append_cons in He. injection He as <- ->.
        specialize (Hmin e1 e2 eq_refl Hne).
        by rewrite append_assoc in Hmin.
Qed.

(** A match spells an image reference: the groups hold no newline and the
    path holds no closing parenthesis. *)
Lemma match_image_sound s alt path rest :
  Re.match_image s = Some (alt, path, rest) ->
  s = Re.image_text alt path +:+ rest /\
  Str.contains Str.newline alt = false /\
  Str.contains Str.newline path = false /\
  Str.contains ")" path = false.
Proof.
  unfold Re.match_image. intros H.
  destruct (Str.strip_prefix "![" s) as [s1|] eqn:H1; [|done].
  apply strip_prefix_Some in H1 as ->.
  apply lazy_dot_sound in H as (ext & s2 & -> & Hk & Hnl1 & _).
  unfold Re.after_alt in Hk. rewrite append_nil_l in Hk.
  destruct (Str.strip_prefix "](" s2) as [s3|] eqn:H2; [|done].
  apply strip_prefix_Some in H2 as ->.
  apply lazy_dot_sound in Hk as (ext2 & s4 & -> & Hk & Hnl2 & Hmin).
  rewrite append_nil_l in Hk.
  destruct (Str.strip_prefix ")" s4) as [s5|] eqn:H3; [|done].
  apply strip_prefix_Some in H3 as ->.
  injection Hk as <- <- <-.
  repeat split; [|done|done|].
  - unfold Re.image_text. by rewrite !append_assoc.
  - destruct (Str.contains ")" ext2) eqn:Hp; [exfalso|done].
    clear Hnl2. revert Hmin Hp. generalize (")" +:+ s5). intros s' Hmin Hp.
    assert (exists e1 e2, ext2 = e1 +:+ String ")" e2) as (e1 & e2 & ->).
    { clear Hmin. induction ext2 as [|a e IH]; [done|]. simpl in Hp.
      destruct (Ascii.eqb_spec a ")") as [->|].
      - by exists "", e.
      - destruct (IH Hp) as (e1 & e2 & ->). by exists (String a e1), e2. }
    specialize (Hmin e1 (String ")" e2) eq_refl ltac:(done)).
    rewrite append_nil_l in Hmin. by rewrite append_cons in Hmin.
Qed.

Lemma match_image_shorter s alt path rest :
  Re.match_image s = Some (alt, path, rest) ->
  String.length rest < String.length s.
Proof.
  intros (-> & _)%match_image_sound. unfold Re.image_text.
  rewrite !length_append. simpl. lia.
Qed.

(** The scan of [re.sub] and the list of segments go in step. *)
Lemma sub_fuel_segments repl n s :
  String.length s <= n ->
  Re.sub_fuel repl n s =
  foldr (fun g acc =>
           match g with
           | Re.Text c => String c acc
           | Re.Image alt path => repl alt path +:+ acc
           end) "" (Re.segments_fuel n s).
Proof.
  revert s. induction n as [|n IH]; intros s Hn; [done|].
  simpl. destruct (Re.match_image s) as [[[alt path] rest]|] eqn:Hm.
  - simpl. f_equal. apply IH. apply match_image_shorter in Hm. lia.
  - destruct s as [|c s]; [done|]. simpl. f_equal. apply IH. simpl in Hn. lia.
Qed.

Lemma segments_fuel_text n s :
  String.length s <= n -> Re.concat_text (Re.segments_fuel n s) = s.
Proof.
  revert s. induction n as [|n IH]; intros s Hn.
  - destruct s; [done|]. simpl in Hn. lia.
  - simpl. destruct (Re.match_image s) as [[[alt path] rest]|] eqn:Hm.
    + simpl. rewrite IH; [|apply match_image_shorter in Hm; lia].
      by apply match_image_sound in Hm as (-> & _).
    + destruct s as [|c s]; [done|]. simpl. rewrite append_cons, append_nil_l.
      f_equal. apply IH. simpl in Hn. lia.
Qed.


Lemma replace_match_text assets alt path :
  replace_match assets alt path =
  Re.segment_text (rewrite_segment assets (Re.Image alt path)).
Proof.
  unfold replace_match, rewrite_segment.
  by destruct (assets !! Path.basename path).
Qed.

Lemma replace_image_paths_segments content assets :
  replace_image_paths content assets =
  Re.concat_text (map (rewrite_segment assets) (Re.segments content)).
Proof.
  unfold replace_image_paths, Re.sub, Re.segments.
  rewrite sub_fuel_segments by done.
  induction (Re.segments_fuel (String.length content) content) as [|g l IH];
    [done|].
  simpl. rewrite IH. destruct g as [c|alt path].
  - simpl. by rewrite append_cons, append_nil_l.
  - by rewrite replace_match_text.
Qed.


(** C9: with an empty asset map the rewriting pass returns the body
    unchanged. *)
Theorem replace_image_paths_empty (content : string) :
  replace_image_paths content ∅ = content.
Proof.
  rewrite replace_image_paths_segments.
  rewrite <- (segments_fuel_text (String.length content) content) at 2 by done.
  fold (Re.segments content). f_equal.
  induction (Re.segments content) as [|g l IH]; [done|].
  simpl. rewrite IH. f_equal. destruct g as [c|alt path]; [done|].
  unfold rewrite_segment. by rewrite lookup_empty.
Qed.

(** ** Floats: truncation against rounding *)

Lemma binary_round_aux_sign_clear mx ex lx :
  sign_clear (binary_round_aux Float.prec Float.emax false mx ex lx).
Proof.
  unfold binary_round_aux.
  destruct (shr_fexp Float.prec Float.emax mx ex lx) as [mrs' e'].
  destruct (shr_fexp Float.prec Float.emax _ e' loc_Exact) as [mrs'' e''].
  destruct (shr_m mrs''); simpl; [done| |done].
  by destruct (e'' <=? Float.emax - Float.prec)%Z.
Qed.

Lemma of_int_sign_clear n : (0 <= n)%Z -> sign_clear (Float.of_int n).
Proof.
  intros Hn. unfold Float.of_int, binary_normalize.
  destruct n as [|p|p]; [done| |lia].
  unfold binary_round.
  destruct (shl_align _ _ _) as [mz ez]. apply binary_round_aux_sign_clear.
Qed.

Lemma SFmul_sign_clear x y :
  sign_clear x -> sign_clear y ->
  sign_clear (SFmul Float.prec Float.emax x y).
Proof.
  destruct x as [sx|sx| |sx mx ex], y as [sy|sy| |sy my ey];
    simpl; intros; subst; try done.
  apply binary_round_aux_sign_clear.
Qed.

Lemma SFdiv_sign_clear x y :
  sign_clear x -> sign_clear y ->
  sign_clear (SFdiv Float.prec Float.emax x y).
Proof.
  destruct x as [sx|sx| |sx mx ex], y as [sy|sy| |sy my ey];
    simpl; intros; subst; try done.
  destruct (SFdiv_core_binary _ _ _ _ _ _) as [[mz ez] lz].
  apply binary_round_aux_sign_clear.
Qed.

(** On a float that is not negative, [int] gives the rounded value or one
    less, and never a negative number. *)
Lemma to_int_round_half_even x t :
  sign_clear x -> Float.to_int x = Some t ->
  exists r, Float.round_half_even x = Some r /\ (0 <= t <= r)%Z /\ (r <= t + 1)%Z.
Proof.
  unfold Float.to_int, Float.round_half_even, sign_clear.
  destruct x as [s|s| |s m e]; intros Hs Ht; try done.
  - injection Ht as <-. exists 0%Z. split; [done|lia].
  - subst s. injection Ht as <-.
    destruct (0 <=? e)%Z eqn:He.
    + eexists. split; [done|].
      assert (0 <= Z.shiftl (Z.pos m) e)%Z by (apply Z.shiftl_nonneg; lia). lia.
    + assert (0 <= Z.shiftr (Z.pos m) (- e))%Z by (apply Z.shiftr_nonneg; lia).
      eexists. split; [done|].
      repeat match goal with |- context [if ?b then _ else _] => destruct b end;
        lia.
Qed.

Lemma resized_height_rounded w h t :
  (0 <= w)%Z -> (0 <= h)%Z -> resized_height w h = Some t ->
  exists r, rounded_height w h = Some r /\ (0 <= t <= r)%Z /\ (r <= t + 1)%Z.
Proof.
  intros Hw Hh. unfold resized_height, rounded_height.
  apply to_int_round_half_even.
  apply SFmul_sign_clear; [apply SFdiv_sign_clear|];
    by apply of_int_sign_clear.
Qed.

(** ** compress_and_encode_image *)

Lemma encode_image_resized `{Externals} img uri :
  (IMAGE_MAX_WIDTH < width img)%Z ->
  encode_image img = Some uri ->
  exists h data buffer,
    resized_height (width img) (height img) = Some h /\
    Image_resample img (IMAGE_MAX_WIDTH, h) = Some data /\
    Image_save {| format := None; width := IMAGE_MAX_WIDTH; height := h;
                  raster := data |} "JPEG" IMAGE_QUALITY = Some buffer /\
    uri = "data:image/jpeg;base64," +:+ Base64.b64encode (Bytes.of_string buffer).
Proof.
  intros Hw. unfold encode_image, resize_request.
  apply Z.ltb_lt in Hw. rewrite Hw.
  destruct (resized_height _ _) as [h|]; [|done]. simpl.
  unfold Image_resize.
  destruct (Image_resample img (IMAGE_MAX_WIDTH, h)) as [data|] eqn:Hrs;
    [|by simpl].
  simpl. unfold format_or_jpeg. simpl.
  destruct (Image_save _ "JPEG" IMAGE_QUALITY) as [buffer|] eqn:Hsv;
    [|by simpl].
  simpl. intros [= <-]. exists h, data, buffer.
  split; [done|]. split; [done|]. split; [done|]. reflexivity.
Qed.

Lemma encode_image_unresized `{Externals} img :
  (width img <= IMAGE_MAX_WIDTH)%Z ->
  encode_image img =
  buffer ← Image_save img (format_or_jpeg img) IMAGE_QUALITY;
  Some ("data:image/" +:+ Str.lower (format_or_jpeg img) +:+ ";base64,"
        +:+ Base64.b64encode (Bytes.of_string buffer)).
Proof.
  intros Hw. unfold encode_image, resize_request.
  apply Z.ltb_ge in Hw. rewrite Hw. simpl.
  by destruct (Image_save _ _ _).
Qed.

(** C4, as amended: an image wider than the maximum is resized to exactly
    the maximum width, with the height [int((max_width / width) * height)],
    the float product truncated toward zero, which is the rounded value or
    one less; an image that is not wider than the maximum is saved as it was
    opened. *)
Theorem wide_image_is_resized_to_truncated_height `{Externals}
  (img : image) (uri : string) :
  (0 <= height img)%Z ->
  encode_image img = Some uri ->
  if (IMAGE_MAX_WIDTH <? width img)%Z then
    exists h r data buffer,
      resized_height (width img) (height img) = Some h /\
      rounded_height (width img) (height img) = Some r /\
      (0 <= h <= r)%Z /\ (r <= h + 1)%Z /\
      Image_resample img (IMAGE_MAX_WIDTH, h) = Some data /\
      Image_save {| format := None; width := IMAGE_MAX_WIDTH; height := h;
                    raster := data |} "JPEG" IMAGE_QUALITY = Some buffer
  else
    exists buffer,
      Image_save img (format_or_jpeg img) IMAGE_QUALITY = Some buffer.
Proof.
  intros Hh Huri. destruct (IMAGE_MAX_WIDTH <? width img)%Z eqn:Hw.
  - apply Z.ltb_lt in Hw.
    destruct (encode_image_resized img uri Hw Huri)
      as (h & data & buffer & Hrh & Hrs & Hsv & _).
    destruct (resized_height_rounded (width img) (height img) h)
      as (r & Hr & Hle & Hge); [unfold IMAGE_MAX_WIDTH in Hw; lia|done|done|].
    by exists h, r, data, buffer.
  - apply Z.ltb_ge in Hw. rewrite encode_image_unresized in Huri by done.
    destruct (Image_save _ _ _) as [buffer|]; [|done]. by exists buffer.
Qed.

Lemma wide_image_is_resized_witness :
  exists h r data buffer,
    resized_height 2560 1003 = Some h /\
    rounded_height 2560 1003 = Some r /\
    (0 <= h <= r)%Z /\ (r <= h + 1)%Z /\
    Sample.resample
      {| format := Some "PNG"; width := 2560; height := 1003;
         raster := Sample.wide_png |} (IMAGE_MAX_WIDTH, h) = Some data /\
    Sample.save {| format := None; width := IMAGE_MAX_WIDTH; height := h;
                   raster := data |} "JPEG" IMAGE_QUALITY = Some buffer.
Proof.
  apply (@wide_image_is_resized_to_truncated_height Sample.libs
           {| format := Some "PNG"; width := 2560; height := 1003;
              raster := Sample.wide_png |}
           "data:image/jpeg;base64,SlBFRzo8cG5nIDI1NjB4MTAwMz4=").
  - simpl. lia.
  - vm_compute. reflexivity.
Defined.

(** C4, as the specification words it, fails: a 2560 by 1003 image is
    resized to height 501, the truncation of 501.5, where rounding
    gives 502. *)
Lemma wide_image_height_is_not_rounded :
  resize_request {| format := Some "PNG"; width := 2560; height := 1003;
                    raster := Sample.wide_png |}
  = Some (Some (1280, 501)%Z)
  /\ rounded_height 2560 1003 = Some 502%Z.
Proof. split; vm_compute; reflexivity. Qed.

(** C5: an image that is not resized is saved in the format of its file
    and labelled image/ followed by that format in lower case, the payload
    being base64; a resized image, whatever the format of its file, is saved
    with the fallback format and labelled image/jpeg, because the image that
    [resize] returns has no format. *)
Theorem original_format_is_lost_by_resizing `{Externals}
  (img : image) (uri : string) :
  encode_image img = Some uri ->
  if (IMAGE_MAX_WIDTH <? width img)%Z then
    exists h data buffer,
      Image_save {| format := None; width := IMAGE_MAX_WIDTH; height := h;
                    raster := data |} "JPEG" IMAGE_QUALITY = Some buffer /\
      uri = "data:image/jpeg;base64,"
            +:+ Base64.b64encode (Bytes.of_string buffer)
  else
    exists buffer,
      Image_save img (format_or_jpeg img) IMAGE_QUALITY = Some buffer /\
      uri = "data:image/" +:+ Str.lower (format_or_jpeg img) +:+ ";base64,"
            +:+ Base64.b64encode (Bytes.of_string buffer).
Proof.
  intros Huri. destruct (IMAGE_MAX_WIDTH <? width img)%Z eqn:Hw.
  - apply Z.ltb_lt in Hw.
    destruct (encode_image_resized img uri Hw Huri)
      as (h & data & buffer & _ & _ & Hsv & ->).
    by exists h, data, buffer.
  - apply Z.ltb_ge in Hw. rewrite encode_image_unresized in Huri by done.
    destruct (Image_save _ _ _) as [buffer|] eqn:Hsv; [|done].
    injection Huri as <-. by exists buffer.
Qed.

(** A PNG file of 2560 by 1003 pixels ends up labelled image/jpeg. *)
Lemma wide_png_is_labelled_jpeg :
  exists h data buffer,
    Sample.save {| format := None; width := IMAGE_MAX_WIDTH; height := h;
                   raster := data |} "JPEG" IMAGE_QUALITY = Some buffer /\
    "data:image/jpeg;base64,SlBFRzo8cG5nIDI1NjB4MTAwMz4=" =
    "data:image/jpeg;base64," +:+ Base64.b64encode (Bytes.of_string buffer).
Proof.
  apply (@original_format_is_lost_by_resizing Sample.libs
           {| format := Some "PNG"; width := 2560; height := 1003;
              raster := Sample.wide_png |}).
  vm_compute. reflexivity.
Defined.

(** ** The shape of an identifier *)

Lemma length_hex l : String.length (MD5.hex l) = 2 * length l.
Proof. induction l as [|b l IH]; [done|]. simpl. rewrite IH. lia. Qed.

Lemma length_le_bytes n x : length (MD5.le_bytes n x) = n.
Proof. unfold MD5.le_bytes. by rewrite length_map, length_seq. Qed.

Lemma le_bytes_range n x :
  Forall (fun b => 0 <= b < 256)%Z (MD5.le_bytes n x).
Proof.
  unfold MD5.le_bytes. apply Forall_map, Forall_forall. intros i _.
  simpl. apply Z.mod_pos_bound. lia.
Qed.

Lemma digest_shape msg :
  length (MD5.digest msg) = 16 /\
  Forall (fun b => 0 <= b < 256)%Z (MD5.digest msg).
Proof.
  unfold MD5.digest.
  destruct (MD5.blocks _ _ _) as [[[a b] c] d]. split.
  - by rewrite !length_app, !length_le_bytes.
  - repeat apply Forall_app_2; apply le_bytes_range.
Qed.

Lemma hex_digit_is_hex x : (0 <= x < 16)%Z -> is_hex_digit (MD5.hex_digit x) = true.
Proof.
  intros Hx.
  assert (x = 0 \/ x = 1 \/ x = 2 \/ x = 3 \/ x = 4 \/ x = 5 \/ x = 6 \/ x = 7
          \/ x = 8 \/ x = 9 \/ x = 10 \/ x = 11 \/ x = 12 \/ x = 13 \/ x = 14
          \/ x = 15)%Z as Hcases by lia.
  repeat (destruct Hcases as [->|Hcases]; [reflexivity|]). by subst.
Qed.

Lemma hex_all_hex l :
  Forall (fun b => 0 <= b < 256)%Z l -> all_hex (MD5.hex l) = true.
Proof.
  induction 1 as [|b l Hb _ IH]; [done|]. simpl.
  rewrite !hex_digit_is_hex, IH; [done| |].
  - apply Z.mod_pos_bound. lia.
  - split; [apply Z.div_pos; lia|apply Z.div_lt_upper_bound; lia].
Qed.

Lemma length_take n s :
  n <= String.length s -> String.length (Str.take n s) = n.
Proof.
  unfold Str.take. revert s. induction n as [|n IH]; intros s Hn.
  - by destruct s.
  - destruct s as [|c s]; simpl in *; [lia|]. rewrite IH; [done|lia].
Qed.

Lemma all_hex_take n s : all_hex s = true -> all_hex (Str.take n s) = true.
Proof.
  unfold Str.take. revert s. induction n as [|n IH]; intros s Hs.
  - by destruct s.
  - destruct s as [|c s]; [done|]. simpl in *.
    apply andb_true_iff in Hs as [-> Hs]. by rewrite IH.
Qed.

(** An identifier is twelve lower-case hexadecimal digits. *)
Lemma article_id_shape folder_name raw_content :
  String.length (article_id folder_name raw_content) = 12 /\
  all_hex (article_id folder_name raw_content) = true.
Proof.
  unfold article_id, MD5.hexdigest.
  destruct (digest_shape (Bytes.of_string (folder_name +:+ raw_content)))
    as [Hlen Hrange].
  split.
  - apply length_take. rewrite length_hex, Hlen. lia.
  - by apply all_hex_take, hex_all_hex.
Qed.

(** ** The file system operations *)

(** Destructs the first [match] (or [if]) met in the hypothesis [H]. *)
Ltac case_match_in H :=
  match type of H with
  | context [match ?x with _ => _ end] => destruct x eqn:?
  end.

Lemma bind_Ok {A B : Type} (m : M A) (k : A -> M B) fs b fs' :
  bind m k fs = (Ok b, fs') ->
  exists a fs1, m fs = (Ok a, fs1) /\ k a fs1 = (Ok b, fs').
Proof.
  unfold bind. destruct (m fs) as [[a|e] fs1]; [|done]. by exists a, fs1.
Qed.

Lemma bind_eq {A B : Type} (m : M A) (k : A -> M B) fs a fs1 :
  m fs = (Ok a, fs1) -> bind m k fs = k a fs1.
Proof. unfold bind. by intros ->. Qed.

Lemma create_files p n fs r fs' q data :
  FS.create p n fs = (r, fs') ->
  q <> p -> fs !! q = Some (File data) -> fs' !! q = Some (File data).
Proof.
  unfold FS.create. intros H Hq Hfile.
  destruct (String.eqb (Path.dirname p) "").
  - injection H as _ <-. by rewrite lookup_insert_ne.
  - destruct (fs !! Path.dirname p) as [[d|l]|] eqn:Hparent;
      injection H as _ <-; try done.
    rewrite lookup_insert_ne by done.
    rewrite lookup_insert_ne; [done|]. intros <-. congruence.
Qed.

Lemma create_written p n fs fs' :
  FS.create p n fs = (Ok tt, fs') -> fs' !! p = Some n.
Proof.
  unfold FS.create. intros H.
  destruct (String.eqb (Path.dirname p) "").
  - injection H as <-. apply lookup_insert_eq.
  - destruct (fs !! Path.dirname p) as [[d|l]|]; try done.
    injection H as <-. apply lookup_insert_eq.
Qed.

Lemma mkdir_files p fs r fs' q data :
  FS.mkdir p fs = (r, fs') ->
  fs !! q = Some (File data) -> fs' !! q = Some (File data).
Proof.
  unfold FS.mkdir. intros H Hfile.
  destruct (fs !! p) eqn:Hp.
  - by injection H as _ <-.
  - eapply create_files; [done| |done]. intros ->. congruence.
Qed.

Lemma mkdir_exist_ok_files p fs r fs' q data :
  FS.mkdir_exist_ok p fs = (r, fs') ->
  fs !! q = Some (File data) -> fs' !! q = Some (File data).
Proof.
  unfold FS.mkdir_exist_ok. intros H Hfile.
  destruct (FS.mkdir p fs) as [r1 fs1] eqn:H1.
  assert (fs1 !! q = Some (File data)) by by eapply mkdir_files.
  repeat case_match_in H; by simplify_eq.
Qed.

Lemma makedirs_fuel_files n p fs r fs' q data :
  FS.makedirs_fuel n p fs = (r, fs') ->
  fs !! q = Some (File data) -> fs' !! q = Some (File data).
Proof.
  revert p fs r fs'. induction n as [|n IH]; intros p fs r fs' H Hfile.
  - by eapply mkdir_exist_ok_files.
  - simpl in H. unfold bind at 1 in H.
    match type of H with
    | context [?m fs] =>
        assert (Hparents : forall r1 fs1, m fs = (r1, fs1) ->
                                          fs1 !! q = Some (File data));
        [|destruct (m fs) as [[[]|e] fs1] eqn:H1]
    end.
    + intros r1 fs1 H1. destruct (_ && _).
      * unfold bind, FS.path_exists, FS.ignore_exists, ret in H1.
        destruct (bool_decide _); [by simplify_eq|].
        destruct (FS.makedirs_fuel n (Path.dirname p) fs) as [r2 fs2] eqn:H2.
        assert (fs2 !! q = Some (File data)) by by eapply IH.
        repeat case_match_in H1; by simplify_eq.
      * unfold ret in H1. by simplify_eq.
    + eapply mkdir_exist_ok_files; [done|]. by eapply Hparents.
    + injection H as _ <-. by eapply Hparents.
Qed.

Lemma write_text_files p text fs r fs' q data :
  FS.write_text p text fs = (r, fs') ->
  q <> p -> fs !! q = Some (File data) -> fs' !! q = Some (File data).
Proof.
  unfold FS.write_text. intros H Hq Hfile.
  destruct (fs !! p) as [[d|l]|] eqn:Hp.
  - injection H as _ <-. by rewrite lookup_insert_ne.
  - by injection H as _ <-.
  - by eapply create_files.
Qed.

Lemma write_text_written p text fs fs' :
  FS.write_text p text fs = (Ok tt, fs') -> fs' !! p = Some (File text).
Proof.
  unfold FS.write_text. intros H.
  destruct (fs !! p) as [[d|l]|] eqn:Hp.
  - injection H as <-. apply lookup_insert_eq.
  - done.
  - by eapply create_written.
Qed.


(** Conversely, the operations add no regular file except the one that
    [write_text] writes. *)
Lemma create_no_new_file p n fs r fs' q data :
  FS.create p n fs = (r, fs') ->
  q <> p -> fs' !! q = Some (File data) -> fs !! q = Some (File data).
Proof.
  unfold FS.create. intros Hc Hq Hfile.
  destruct (String.eqb (Path.dirname p) "").
  - injection Hc as _ <-. by rewrite lookup_insert_ne in Hfile.
  - destruct (fs !! Path.dirname p) as [[d|l]|] eqn:Hparent;
      injection Hc as _ <-; try done.
    rewrite lookup_insert_ne in Hfile by done.
    destruct (decide (Path.dirname p = q)) as [<-|Hne].
    + by rewrite lookup_insert_eq in Hfile.
    + by rewrite lookup_insert_ne in Hfile.
Qed.

Lemma mkdir_no_new_file p fs r fs' q data :
  FS.mkdir p fs = (r, fs') ->
  fs' !! q = Some (File data) -> fs !! q = Some (File data).
Proof.
  unfold FS.mkdir. intros Hm Hfile.
  destruct (fs !! p) eqn:Hp; [by injection Hm as _ <-|].
  destruct (decide (q = p)) as [->|Hne]; [|by eapply create_no_new_file].
  exfalso. unfold FS.create in Hm.
  repeat case_match_in Hm; simplify_eq;
    rewrite ?lookup_insert_eq in Hfile; congruence.
Qed.

Lemma mkdir_exist_ok_no_new_file p fs r fs' q data :
  FS.mkdir_exist_ok p fs = (r, fs') ->
  fs' !! q = Some (File data) -> fs !! q = Some (File data).
Proof.
  unfold FS.mkdir_exist_ok. intros Hm Hfile.
  destruct (FS.mkdir p fs) as [r1 fs1] eqn:H1.
  eapply mkdir_no_new_file; [done|].
  repeat case_match_in Hm; by simplify_eq.
Qed.

Lemma makedirs_fuel_no_new_file n p fs r fs' q data :
  FS.makedirs_fuel n p fs = (r, fs') ->
  fs' !! q = Some (File data) -> fs !! q = Some (File data).
Proof.
  revert p fs r fs'. induction n as [|n IH]; intros p fs r fs' Hm Hfile.
  - by eapply mkdir_exist_ok_no_new_file.
  - simpl in Hm. unfold bind at 1 in Hm.
    match type of Hm with
    | context [?m fs] =>
        assert (Hparents : forall r1 fs1, m fs = (r1, fs1) ->
                  fs1 !! q = Some (File data) -> fs !! q = Some (File data));
        [|destruct (m fs) as [[[]|e] fs1] eqn:H1]
    end.
    + intros r1 fs1 H1 Hf1. destruct (_ && _).
      * unfold bind, FS.path_exists, FS.ignore_exists, ret in H1.
        destruct (bool_decide _); [by simplify_eq|].
        destruct (FS.makedirs_fuel n (Path.dirname p) fs) as [r2 fs2] eqn:H2.
        eapply IH; [done|].
        repeat case_match_in H1; by simplify_eq.
      * unfold ret in H1. by simplify_eq.
    + eapply Hparents; [done|]. by eapply mkdir_exist_ok_no_new_file.
    + injection Hm as _ <-. by eapply Hparents.
Qed.

Lemma write_text_no_new_file p text fs r fs' q data :
  FS.write_text p text fs = (r, fs') ->
  q <> p -> fs' !! q = Some (File data) -> fs !! q = Some (File data).
Proof.
  unfold FS.write_text. intros Hw Hq Hfile.
  destruct (fs !! p) as [[d|l]|] eqn:Hp.
  - injection Hw as _ <-. by rewrite lookup_insert_ne in Hfile.
  - by injection Hw as _ <-.
  - by eapply create_no_new_file.
Qed.

(** ** process_article *)

Lemma collect_assets_state `{Externals} article_dir fs r fs' :
  collect_assets article_dir fs = (r, fs') -> fs' = fs.
Proof.
  unfold collect_assets, bind, FS.path_exists, FS.listdir, ret. intros Hc.
  cbv beta zeta in Hc.
  destruct (bool_decide _); cbv beta in Hc; [|by simplify_eq].
  destruct (fs !! Path.join article_dir "images") as [[d|l]|];
    by simplify_eq.
Qed.

(** What a successful compilation did. *)
Lemma compile_article_Some `{Externals}
  article_dir category raw_content metadata content fs e fs' :
  compile_article article_dir category raw_content metadata content fs
  = (Ok (Some e), fs') ->
  let unique_id := article_id (Path.basename article_dir) raw_content in
  let metadata' := map (fun kv => (kv.1, serialize_date kv.2)) metadata in
  exists assets fs1 title date,
    Bytes.valid_text (Path.basename article_dir) = true /\
    collect_assets article_dir fs = (Ok assets, fs) /\
    FS.makedirs (Path.join COMPRESSED_DIR category) fs = (Ok tt, fs1) /\
    FS.write_text (output_path category unique_id)
      (json_dumps (article_data unique_id metadata'
                     (replace_image_paths content assets))) fs1 = (Ok tt, fs') /\
    dict_get metadata' "title" = Some title /\
    dict_get metadata' "date" = Some date /\
    e = {| entry_id := unique_id;
           entry_category := category;
           entry_title := title;
           entry_date := date;
           entry_tags := default (VList []) (dict_get metadata' "tags");
           entry_author :=
             default (VStr "Unknown") (dict_get metadata' "author") |}.
Proof.
  intros H0 unique_id metadata'. revert H0.
  unfold compile_article, encode_utf8. fold metadata'.
  destruct (Bytes.valid_text (Path.basename article_dir)) eqn:Hvalid;
    [|by unfold bind, lift].
  unfold bind at 1, lift at 1. fold unique_id. unfold bind at 1.
  destruct (collect_assets article_dir fs) as [[assets|?] fs0] eqn:Hassets;
    [|done].
  assert (fs0 = fs) as -> by by eapply collect_assets_state.
  unfold bind at 1.
  destruct (FS.makedirs _ fs) as [[[]|?] fs1] eqn:Hmk; [|done].
  unfold bind at 1. fold (output_path category unique_id).
  destruct (FS.write_text _ _ fs1) as [[[]|?] fs2] eqn:Hwr; [|done].
  unfold bind, lift, dict_item, ret.
  destruct (dict_get metadata' "title") as [title|] eqn:Ht; [|done].
  destruct (dict_get metadata' "date") as [date|] eqn:Hd; [|done].
  intros [= <- <-]. by exists assets, fs1, title, date.
Qed.

(** What a call that returned a summary went through. *)
Lemma process_article_Some `{Externals} article_dir category fs e fs' :
  process_article article_dir category fs = (Ok (Some e), fs') ->
  exists data metadata content,
    fs !! Path.join article_dir "article.md" = Some (File data) /\
    Bytes.valid_text data = true /\
    frontmatter_loads (Bytes.universal_newlines data) = Some (metadata, content) /\
    truthy_opt (dict_get metadata "title") = true /\
    truthy_opt (dict_get metadata "date") = true /\
    compile_article article_dir category (Bytes.universal_newlines data)
      metadata content fs = (Ok (Some e), fs').
Proof.
  unfold process_article.
  intros (ex & fs1 & Hex & Hp)%bind_Ok.
  unfold FS.path_exists in Hex. injection Hex as Hex Hfs. subst ex fs1.
  destruct (bool_decide _); [|done]. simpl in Hp.
  apply bind_Ok in Hp as (raw & fs1 & Hread & Hp).
  unfold FS.read_text in Hread.
  destruct (fs !! Path.join article_dir "article.md") as [[data|l]|];
    [|done|done].
  destruct (Bytes.valid_text data) eqn:Hvalid; [|done].
  injection Hread as Hraw Hfs. subst raw fs1.
  destruct (frontmatter_loads _) as [[metadata content]|] eqn:Hloads; [|done].
  destruct (truthy_opt (dict_get metadata "title")) eqn:Ht; [|done].
  destruct (truthy_opt (dict_get metadata "date")) eqn:Hd; [|done].
  by exists data, metadata, content.
Qed.

Lemma dict_get_serialized metadata k :
  dict_get (map (fun kv => (kv.1, serialize_date kv.2)) metadata) k
  = serialize_date <$> dict_get metadata k.
Proof.
  induction metadata as [|[k' v] d IH]; [done|]. simpl.
  by destruct (String.eqb k' k).
Qed.


Lemma process_article_skipped `{Externals} fs article_dir category :
  skipped fs article_dir ->
  process_article article_dir category fs = (Ok None, fs).
Proof.
  intros Hskip. unfold process_article.
  rewrite (bind_eq _ _ fs (bool_decide (is_Some
             (fs !! Path.join article_dir "article.md"))) fs) by done.
  destruct Hskip as [Hmd|(data & Hmd & Hvalid & Hskip)]; rewrite Hmd.
  - by rewrite bool_decide_eq_false_2 by by intros [].
  - rewrite bool_decide_eq_true_2 by done. simpl.
    rewrite (bind_eq _ _ fs (Bytes.universal_newlines data) fs)
      by (unfold FS.read_text; by rewrite Hmd, Hvalid).
    destruct (frontmatter_loads _) as [[metadata content]|]; [|done].
    by destruct Hskip as [->| ->]; [|rewrite orb_true_r].
Qed.

(** C6: a folder without [article.md], or whose front matter does not
    parse, or whose metadata lacks a non-empty title or a date, yields no
    summary and leaves the file system as it was, without raising; the loop
    over the folders of the category goes on with the remaining folders
    exactly as if the folder were not listed. *)
Theorem skipped_article_is_left_out `{Externals}
  (fs : filesys) (category category_dir subdir : string)
  (articles : list entry) (rest : list string) :
  skipped fs (Path.join category_dir subdir) ->
  process_article (Path.join category_dir subdir) category fs = (Ok None, fs) /\
  visit category category_dir articles subdir fs = (Ok articles, fs) /\
  foldM (visit category category_dir) (subdir :: rest) articles fs =
  foldM (visit category category_dir) rest articles fs.
Proof.
  intros Hskip.
  pose proof (process_article_skipped fs _ category Hskip) as Hp.
  assert (Hvisit : visit category category_dir articles subdir fs
                   = (Ok articles, fs)).
  { unfold visit, FS.isdir, bind.
    destruct (fs !! Path.join category_dir subdir) as [[d|l]|]; [done| |done].
    by rewrite Hp. }
  repeat split; [done..|].
  simpl. by rewrite (bind_eq _ _ _ _ _ Hvisit).
Qed.

(** ** The asset map *)

Lemma add_asset_asset_of `{Externals} fs images_dir assets img_file :
  add_asset fs images_dir assets img_file =
  match asset_of fs images_dir img_file with
  | Some uri => <[img_file := uri]> assets
  | None => assets
  end.
Proof.
  unfold add_asset, asset_of.
  destruct (is_image_name img_file); [|done].
  destruct (compress_and_encode_image _ _) as [uri|]; [|done].
  by destruct (String.eqb uri "").
Qed.

Lemma fold_add_asset `{Externals} fs images_dir files assets f :
  fold_left (add_asset fs images_dir) files assets !! f =
  match (if decide (f ∈ files) then asset_of fs images_dir f else None) with
  | Some uri => Some uri
  | None => assets !! f
  end.
Proof.
  revert assets. induction files as [|g files IH]; intros assets; [done|].
  simpl. rewrite IH, add_asset_asset_of.
  destruct (decide (f = g)) as [->|Hne].
  - rewrite (decide_True (P := g ∈ g :: files)) by apply list_elem_of_here.
    destruct (asset_of fs images_dir g) as [uri|] eqn:Hg.
    + rewrite lookup_insert_eq. by destruct (decide (g ∈ files)).
    + by destruct (decide (g ∈ files)).
  - assert ((match asset_of fs images_dir g with
             | Some uri => <[g:=uri]> assets
             | None => assets
             end) !! f = assets !! f) as ->.
    { destruct (asset_of fs images_dir g); [|done].
      by rewrite lookup_insert_ne. }
    destruct (decide (f ∈ files)) as [Hin|Hnin].
    + by rewrite decide_True by by apply list_elem_of_further.
    + rewrite decide_False; [done|]. by intros [?|?]%elem_of_cons.
Qed.

Lemma collect_assets_listed `{Externals} fs article_dir files :
  fs !! Path.join article_dir "images" = Some (Dir files) ->
  collect_assets article_dir fs =
  (Ok (fold_left (add_asset fs (Path.join article_dir "images")) files ∅), fs).
Proof.
  intros Hdir. unfold collect_assets. cbv zeta.
  rewrite (bind_eq _ _ fs true fs).
  2: { unfold FS.path_exists. rewrite Hdir.
       by rewrite bool_decide_eq_true_2 by done. }
  by rewrite (bind_eq _ _ fs files fs) by (unfold FS.listdir; by rewrite Hdir).
Qed.

(** C7: the loop over [images/] never raises: it returns an asset map and
    leaves the files as they are; the map holds exactly the data URIs of the
    listed image files that could be compressed, whatever became of the
    others; an image that cannot be opened, resized or saved yields no data
    URI; with one corrupt and one valid image the map holds the valid one
    only. *)
Theorem image_failures_are_left_out `{Externals}
  (fs : filesys) (article_dir : string) (files : list string) :
  fs !! Path.join article_dir "images" = Some (Dir files) ->
  let images_dir := Path.join article_dir "images" in
  exists assets,
    collect_assets article_dir fs = (Ok assets, fs) /\
    (forall img_file uri,
       assets !! img_file = Some uri <->
       img_file ∈ files /\ is_image_name img_file = true /\ uri <> "" /\
       compress_and_encode_image fs (Path.join images_dir img_file)
       = Some uri) /\
    (forall p data,
       fs !! p = Some (File data) ->
       Image_open data = None \/
       (exists img, Image_open data = Some img /\ encode_image img = None) ->
       compress_and_encode_image fs p = None) /\
    (forall img,
       match resize_request img with
       | None => True
       | Some (Some size) =>
           Image_resample img size = None \/
           (exists data,
              Image_resample img size = Some data /\
              Image_save {| format := None; width := size.1; height := size.2;
                            raster := data |} "JPEG" IMAGE_QUALITY = None)
       | Some None => Image_save img (format_or_jpeg img) IMAGE_QUALITY = None
       end ->
       encode_image img = None) /\
    (forall bad good uri,
       files = [bad; good] -> bad <> good ->
       compress_and_encode_image fs (Path.join images_dir bad) = None ->
       is_image_name good = true -> uri <> "" ->
       compress_and_encode_image fs (Path.join images_dir good) = Some uri ->
       assets = {[ good := uri ]}).
Proof.
  intros Hdir images_dir.
  exists (fold_left (add_asset fs images_dir) files ∅).
  split; [by apply collect_assets_listed|].
  assert (Hlookup : forall img_file uri,
    fold_left (add_asset fs images_dir) files ∅ !! img_file = Some uri <->
    img_file ∈ files /\ is_image_name img_file = true /\ uri <> "" /\
    compress_and_encode_image fs (Path.join images_dir img_file) = Some uri).
  { intros f uri. rewrite fold_add_asset, lookup_empty. unfold asset_of.
    destruct (decide (f ∈ files)) as [Hin|Hnin]; [|naive_solver].
    destruct (is_image_name f); [|naive_solver].
    destruct (compress_and_encode_image fs _) as [u|]; [|naive_solver].
    destruct (String.eqb_spec u ""); naive_solver. }
  split; [done|]. split; [|split].
  - intros p data Hp Hfail. unfold compress_and_encode_image. rewrite Hp.
    by destruct Hfail as [->|(img & -> & Hn)].
  - intros img Hfail. unfold encode_image.
    destruct (resize_request img) as [[size|]|]; simpl; [| |done].
    + unfold Image_resize.
      destruct Hfail as [->|(data & -> & Hsv)]; [done|]. simpl.
      unfold format_or_jpeg. simpl. by rewrite Hsv.
    + by rewrite Hfail.
  - intros bad good uri -> Hne Hbad Hgood Huri Hok.
    apply map_eq. intros f. apply option_eq. intros u.
    rewrite Hlookup, lookup_singleton_Some.
    split.
    + intros (Hin & _ & _ & Hc).
      apply elem_of_cons in Hin as [->|Hin]; [congruence|].
      apply list_elem_of_singleton in Hin as ->. split; congruence.
    + intros [<- <-]. repeat split; try done. set_solver.
Qed.

(** ** The stable descending sort *)

Section Sort.
Context {A : Type} (key : A -> Z).

Lemma insert_desc_perm x l : insert_desc key x l ≡ₚ x :: l.
Proof.
  induction l as [|y l IH]; [done|]. simpl.
  destruct (key x <? key y)%Z; [|done].
  rewrite IH. apply Permutation_swap.
Qed.

Lemma sort_desc_perm l : sort_desc key l ≡ₚ l.
Proof.
  induction l as [|x l IH]; [done|]. simpl.
  by rewrite insert_desc_perm, IH.
Qed.





End Sort.

Lemma insert_desc_map {A B : Type} (f : A -> B) (key1 : A -> Z) (key2 : B -> Z)
  x l :
  (forall a, key1 a = key2 (f a)) ->
  map f (insert_desc key1 x l) = insert_desc key2 (f x) (map f l).
Proof.
  intros Hkey. induction l as [|y l IH]; [done|]. simpl.
  rewrite <- !Hkey. destruct (key1 x <? key1 y)%Z; [|done].
  simpl. by rewrite IH.
Qed.

Lemma sort_desc_ext {A : Type} (key1 key2 : A -> Z) l :
  Forall (fun a => key1 a = key2 a) l ->
  sort_desc key1 l = sort_desc key2 l.
Proof.
  induction 1 as [|x l Hx Hl IH]; [done|]. simpl. rewrite IH.
  assert (Hs : Forall (fun a => key1 a = key2 a) (sort_desc key2 l)).
  { by rewrite sort_desc_perm. }
  clear IH Hl. induction Hs as [|y s Hy Hs IH]; [done|]. simpl.
  rewrite Hx, Hy. destruct (key2 x <? key2 y)%Z; [|done]. by rewrite IH.
Qed.

Lemma sort_desc_map {A B : Type} (f : A -> B) (key1 : A -> Z) (key2 : B -> Z) l :
  (forall a, key1 a = key2 (f a)) ->
  map f (sort_desc key1 l) = sort_desc key2 (map f l).
Proof.
  intros Hkey. induction l as [|x l IH]; [done|]. simpl.
  by rewrite (insert_desc_map f key1 key2), IH.
Qed.

(** ** sort_articles *)

Lemma result_map_Ok {A B : Type} (f : A -> result B) l l' :
  result_map f l = Ok l' -> Forall2 (fun x y => f x = Ok y) l l'.
Proof.
  revert l'. induction l as [|x l IH]; intros l'; simpl.
  - intros [= <-]. constructor.
  - destruct (f x) as [y|] eqn:Hx; [|done]. simpl.
    destruct (result_map f l) as [ys|]; [|done]. simpl.
    intros [= <-]. constructor; [done|]. by apply IH.
Qed.

Lemma result_map_total {A B : Type} (f : A -> result B) l :
  Forall (fun x => exists y, f x = Ok y) l -> exists l', result_map f l = Ok l'.
Proof.
  induction 1 as [|x l [y Hy] _ [l' IH]]; [by exists []|].
  exists (y :: l'). simpl. by rewrite Hy, IH.
Qed.

(** A sort that succeeds returns the summaries in descending order of
    parsed date, as the stable sort arranges them. *)
Lemma sort_articles_Ok `{Externals} articles sorted :
  sort_articles articles = Ok sorted ->
  sorted = sort_desc instant_of articles /\
  Forall (fun x => exists d, date_key x = Ok d) articles.
Proof.
  unfold sort_articles.
  destruct (result_map _ articles) as [keyed|] eqn:Hkeyed; [|done]. simpl.
  destruct (comparable _); [|done]. intros [= <-].
  apply result_map_Ok in Hkeyed.
  assert (Hsnd : map snd keyed = articles /\
                 Forall (fun kx => instant kx.1 = instant_of kx.2) keyed /\
                 Forall (fun x => exists d, date_key x = Ok d) articles).
  { induction Hkeyed as [|x [k x'] l l' Hx _ IH]; [done|].
    destruct IH as (IH1 & IH2 & IH3).
    destruct (date_key x) as [d|] eqn:Hd; [|done]. injection Hx as <- <-.
    simpl. rewrite IH1. repeat split; constructor; try done.
    - simpl. unfold instant_of. by rewrite Hd.
    - by exists d. }
  destruct Hsnd as (Hsnd & Hinst & Hall). split; [|done].
  rewrite (sort_desc_ext _ (fun kx => instant_of kx.2)) by done.
  rewrite (sort_desc_map snd _ instant_of) by done. by rewrite Hsnd.
Qed.

Lemma sort_articles_total `{Externals} articles :
  Forall (fun x => exists d, date_key x = Ok d) articles ->
  (forall x y dx dy, x ∈ articles -> y ∈ articles ->
     date_key x = Ok dx -> date_key y = Ok dy -> aware dx = aware dy) ->
  sort_articles articles = Ok (sort_desc instant_of articles).
Proof.
  intros Hall Haware.
  destruct (sort_articles articles) as [sorted|e] eqn:Hs.
  { by apply sort_articles_Ok in Hs as [-> _]. }
  exfalso. revert Hs. unfold sort_articles.
  destruct (result_map_total
              (fun x => result_bind (date_key x) (fun k => Ok (k, x))) articles)
    as [keyed Hkeyed].
  { eapply Forall_impl; [exact Hall|]. intros x [d Hd]. exists (d, x).
    by rewrite Hd. }
  rewrite Hkeyed. simpl.
  apply result_map_Ok in Hkeyed.
  assert (Hk : Forall (fun kx => kx.2 ∈ articles /\ date_key kx.2 = Ok kx.1)
                 keyed).
  { clear Hall Haware.
    induction Hkeyed as [|x [k x'] l l' Hx _ IH]; [done|].
    destruct (date_key x) as [d|] eqn:Hd; [|done]. injection Hx as <- <-.
    constructor; [split; [left|done]|].
    eapply Forall_impl; [exact IH|]. intros kx [? ?]. split; [by right|done]. }
  assert (comparable (map fst keyed) = true) as ->; [|done].
  destruct Hk as [|[k x] keyed' [Hx Hdx] Hk]; [done|]. simpl.
  apply forallb_forall. intros d' Hin%list_elem_of_In.
  apply list_elem_of_fmap in Hin as ([k' x'] & -> & Hin).
  rewrite Forall_forall in Hk. destruct (Hk _ Hin) as [Hx' Hdx'].
  simpl in *. rewrite (Haware x x' k k') by done. by destruct (aware k').
Qed.

(** ** generate_manifests *)

(** A write into an existing directory, at a path that is no directory,
    succeeds and touches the file and the listing of its directory only. *)
Lemma write_text_ok p text fs :
  Path.dirname p <> "" -> Path.dirname p <> p ->
  (exists l, fs !! Path.dirname p = Some (Dir l)) ->
  (forall l, fs !! p <> Some (Dir l)) ->
  exists fs',
    FS.write_text p text fs = (Ok tt, fs') /\
    fs' !! p = Some (File text) /\
    (exists l, fs' !! Path.dirname p = Some (Dir l)) /\
    (forall q, q <> p -> q <> Path.dirname p -> fs' !! q = fs !! q).
Proof.
  intros Hne Hself [l Hparent] Hfile. unfold FS.write_text, FS.create.
  destruct (fs !! p) as [[d|l']|] eqn:Hp.
  - eexists. split; [done|]. rewrite lookup_insert_eq. split; [done|].
    split; [|by intros; rewrite lookup_insert_ne].
    exists l. by rewrite lookup_insert_ne.
  - by destruct (Hfile l').
  - apply String.eqb_neq in Hne. rewrite Hne, Hparent.
    eexists. split; [done|]. rewrite lookup_insert_eq. split; [done|].
    split.
    + eexists. rewrite lookup_insert_ne by done. by rewrite lookup_insert_eq.
    + intros q Hq1 Hq2. by rewrite !lookup_insert_ne.
Qed.

Lemma generate_manifests_raise `{Externals} articles fs e :
  sort_articles articles = Raise e ->
  generate_manifests articles fs = (Raise e, fs).
Proof.
  intros Hs. unfold generate_manifests, lift. unfold bind at 1. by rewrite Hs.
Qed.


(** ** The paths of the output tree *)

Lemma take_append s t : Str.take (String.length s) (s +:+ t) = s.
Proof.
  unfold Str.take. induction s as [|c s IH].
  - by destruct t.
  - rewrite append_cons. simpl. by rewrite IH.
Qed.

Lemma category_cases (category : string) :
  category ∈ ["news"; "reviews"] -> category = "news" \/ category = "reviews".
Proof.
  intros [->|Hc]%elem_of_cons; [by left|].
  apply list_elem_of_singleton in Hc as ->. by right.
Qed.

Lemma output_path_shape category unique_id :
  category ∈ ["news"; "reviews"] ->
  String.length unique_id = 12 -> all_hex unique_id = true ->
  output_path category unique_id
  = "compressed/" +:+ category +:+ "/" +:+ unique_id +:+ ".json".
Proof.
  intros Hcat Hlen Hhex. unfold output_path.
  destruct unique_id as [|c s]; [done|].
  simpl in Hhex. apply andb_true_iff in Hhex as [Hc _].
  assert (Ascii.eqb c Path.sep = false) as Hsep.
  { destruct (Ascii.eqb_spec c Path.sep) as [->|]; [done|done]. }
  apply category_cases in Hcat as [->| ->].
  - change (Path.join COMPRESSED_DIR "news") with "compressed/news".
    unfold Path.join. rewrite append_cons, Hsep. reflexivity.
  - change (Path.join COMPRESSED_DIR "reviews") with "compressed/reviews".
    unfold Path.join. rewrite append_cons, Hsep. reflexivity.
Qed.

Lemma entry_path_shape e :
  well_formed e ->
  entry_path e
  = "compressed/" +:+ entry_category e +:+ "/" +:+ entry_id e +:+ ".json".
Proof. intros (? & ? & ?). by apply output_path_shape. Qed.

(** Different summaries of well-formed identity have different files. *)
Lemma entry_path_inj e1 e2 :
  well_formed e1 -> well_formed e2 -> entry_path e1 = entry_path e2 ->
  entry_category e1 = entry_category e2 /\ entry_id e1 = entry_id e2.
Proof.
  intros Hw1 Hw2. rewrite !entry_path_shape by done.
  destruct Hw1 as (Hc1 & Hl1 & _), Hw2 as (Hc2 & Hl2 & _).
  assert (Hid : forall c i1 i2,
            String.length i1 = 12 -> String.length i2 = 12 ->
            c +:+ "/" +:+ i1 +:+ ".json" = c +:+ "/" +:+ i2 +:+ ".json" ->
            i1 = i2).
  { intros c i1 i2 H1 H2 Heq. apply (inj (String.append c)) in Heq.
    apply (inj (String.append "/")) in Heq.
    rewrite <- (take_append i1 ".json"), <- (take_append i2 ".json").
    by rewrite H1, H2, Heq. }
  apply category_cases in Hc1 as [->| ->];
    apply category_cases in Hc2 as [->| ->]; intros Heq.
  - split; [done|]. apply (inj (String.append "compressed/")) in Heq. eauto.
  - by apply (f_equal (String.get 11)) in Heq.
  - by apply (f_equal (String.get 11)) in Heq.
  - split; [done|]. apply (inj (String.append "compressed/")) in Heq. eauto.
Qed.

(** No compiled article is stored under the name of a manifest. *)
Lemma entry_path_not_manifest e name :
  well_formed e -> name ∈ ["full"; "latest"; "news"; "reviews"] ->
  entry_path e <> manifest_path name.
Proof.
  intros Hw Hname. rewrite entry_path_shape by done.
  destruct Hw as (Hc & _ & _).
  apply category_cases in Hc as [->| ->];
    repeat (apply elem_of_cons in Hname as [->|Hname]);
    try (by apply elem_of_nil in Hname); intros Heq.
  all: first [ by apply (f_equal (String.get 11)) in Heq
             | by apply (f_equal (String.get 15)) in Heq
             | by apply (f_equal (String.get 18)) in Heq ].
Qed.

(** ** The run *)

Lemma compile_article_not_None `{Externals}
  article_dir category raw_content metadata content fs fs' :
  compile_article article_dir category raw_content metadata content fs
  <> (Ok None, fs').
Proof.
  unfold compile_article. intros Hc.
  apply bind_Ok in Hc as (bytes & fs1 & _ & Hc).
  apply bind_Ok in Hc as (assets & fs2 & _ & Hc).
  apply bind_Ok in Hc as ([] & fs3 & _ & Hc).
  apply bind_Ok in Hc as ([] & fs4 & _ & Hc).
  apply bind_Ok in Hc as (title & fs5 & _ & Hc).
  by apply bind_Ok in Hc as (date & fs6 & _ & Hc).
Qed.

(** A call that returns no summary leaves the file system as it was. *)
Lemma process_article_None `{Externals} article_dir category fs fs' :
  process_article article_dir category fs = (Ok None, fs') -> fs' = fs.
Proof.
  unfold process_article.
  intros (ex & fs1 & Hex & Hp)%bind_Ok.
  unfold FS.path_exists in Hex. injection Hex as Hex Hfs. subst ex fs1.
  destruct (bool_decide _); simpl in Hp; [|by injection Hp].
  apply bind_Ok in Hp as (raw & fs1 & Hread & Hp).
  assert (fs1 = fs) as ->.
  { unfold FS.read_text in Hread.
    repeat case_match_in Hread; by simplify_eq. }
  destruct (frontmatter_loads raw) as [[metadata content]|];
    [|by injection Hp].
  destruct (_ || _); [by injection Hp|].
  by apply compile_article_not_None in Hp.
Qed.

(** A call that returns a summary has written its file and kept every other
    regular file. *)
Lemma process_article_step `{Externals} article_dir category fs e fs' :
  category ∈ ["news"; "reviews"] ->
  process_article article_dir category fs = (Ok (Some e), fs') ->
  well_formed e /\ compiled_at fs' e /\
  (forall q data, q <> entry_path e ->
     fs !! q = Some (File data) -> fs' !! q = Some (File data)).
Proof.
  intros Hcat (data & metadata & content & _ & _ & _ & _ & _ & Hc)%process_article_Some.
  apply compile_article_Some in Hc
    as (assets & fs1 & title & date & _ & _ & Hmk & Hwr & _ & _ & ->).
  destruct (article_id_shape (Path.basename article_dir)
              (Bytes.universal_newlines data)) as [Hlen Hhex].
  split; [done|]. split.
  - eexists _, _. unfold entry_path. simpl. by eapply write_text_written.
  - intros q d Hq Hfile. unfold entry_path in Hq. simpl in Hq.
    eapply write_text_files; [done..|].
    by eapply makedirs_fuel_files.
Qed.

Lemma compiled_at_step `{Externals} fs fs' e e0 :
  well_formed e -> well_formed e0 ->
  compiled_at fs' e ->
  (forall q data, q <> entry_path e ->
     fs !! q = Some (File data) -> fs' !! q = Some (File data)) ->
  compiled_at fs e0 -> compiled_at fs' e0.
Proof.
  intros Hw Hw0 (m & c & He) Hframe (m0 & c0 & He0).
  destruct (decide (entry_path e0 = entry_path e)) as [Heq|Hne].
  - apply entry_path_inj in Heq as [Hcat Hid]; [|done..].
    exists m, c. unfold entry_path in *. by rewrite Hcat, Hid.
  - exists m0, c0. by apply Hframe.
Qed.

(** What holds of the summaries collected so far. *)
Lemma visit_invariant `{Externals}
  category category_dir articles subdir fs articles' fs' :
  category ∈ ["news"; "reviews"] ->
  visit category category_dir articles subdir fs = (Ok articles', fs') ->
  Forall (fun e => well_formed e /\ compiled_at fs e) articles ->
  Forall (fun e => well_formed e /\ compiled_at fs' e) articles'.
Proof.
  intros Hcat Hv Hinv. unfold visit in Hv.
  apply bind_Ok in Hv as (d & fs1 & Hd & Hv).
  unfold FS.isdir in Hd. injection Hd as Hd Hfs. subst d fs1.
  destruct (match fs !! _ with Some (Dir _) => true | _ => false end);
    [|by injection Hv as <- <-].
  apply bind_Ok in Hv as ([e|] & fs1 & Hp & Hv); injection Hv as <- <-.
  - apply (process_article_step _ _ _ _ _ Hcat) in Hp as (Hw & Hc & Hframe).
    apply Forall_app. split; [|by apply Forall_singleton].
    eapply Forall_impl; [exact Hinv|]. intros e0 [Hw0 Hc0].
    split; [done|]. exact (compiled_at_step fs fs1 e e0 Hw Hw0 Hc Hframe Hc0).
  - by apply process_article_None in Hp as ->.
Qed.

Lemma visits_invariant `{Externals}
  category category_dir subdirs articles fs articles' fs' :
  category ∈ ["news"; "reviews"] ->
  foldM (visit category category_dir) subdirs articles fs = (Ok articles', fs') ->
  Forall (fun e => well_formed e /\ compiled_at fs e) articles ->
  Forall (fun e => well_formed e /\ compiled_at fs' e) articles'.
Proof.
  intros Hcat. revert articles fs.
  induction subdirs as [|subdir subdirs IH]; intros articles fs Hf Hinv; simpl in Hf.
  - by injection Hf as <- <-.
  - apply bind_Ok in Hf as (articles1 & fs1 & Hv & Hf).
    eapply IH; [done|]. by eapply visit_invariant.
Qed.

Lemma visit_category_invariant `{Externals} articles category fs articles' fs' :
  category ∈ ["news"; "reviews"] ->
  visit_category articles category fs = (Ok articles', fs') ->
  Forall (fun e => well_formed e /\ compiled_at fs e) articles ->
  Forall (fun e => well_formed e /\ compiled_at fs' e) articles'.
Proof.
  intros Hcat Hv Hinv. unfold visit_category in Hv.
  apply bind_Ok in Hv as (ex & fs1 & Hex & Hv).
  unfold FS.path_exists in Hex. injection Hex as Hex Hfs. subst ex fs1.
  destruct (negb _); [by injection Hv as <- <-|].
  apply bind_Ok in Hv as (subdirs & fs1 & Hl & Hv).
  assert (fs1 = fs) as ->.
  { unfold FS.listdir in Hl. repeat case_match_in Hl; by simplify_eq. }
  by eapply visits_invariant.
Qed.

Lemma collect_invariant `{Externals} fs articles fs' :
  collect fs = (Ok articles, fs') ->
  Forall (fun e => well_formed e /\ compiled_at fs' e) articles.
Proof.
  unfold collect. simpl. intros Hc.
  apply bind_Ok in Hc as (articles1 & fs1 & H1 & Hc).
  apply bind_Ok in Hc as (articles2 & fs2 & H2 & Hc).
  injection Hc as <- <-.
  eapply visit_category_invariant; [|done|]; [set_solver|].
  eapply visit_category_invariant; [|done|]; [set_solver|]. constructor.
Qed.

(** The only regular files a collection adds are compiled articles. *)
Lemma process_article_no_new_file `{Externals}
  article_dir category fs e fs' q data :
  category ∈ ["news"; "reviews"] ->
  process_article article_dir category fs = (Ok (Some e), fs') ->
  q <> entry_path e ->
  fs' !! q = Some (File data) -> fs !! q = Some (File data).
Proof.
  intros Hcat (d & metadata & content & _ & _ & _ & _ & _ & Hc)%process_article_Some.
  apply compile_article_Some in Hc
    as (assets & fs1 & title & date & _ & _ & Hmk & Hwr & _ & _ & ->).
  unfold entry_path. simpl. intros Hq Hfile.
  eapply makedirs_fuel_no_new_file; [done|].
  by eapply write_text_no_new_file.
Qed.

Lemma visits_no_new_file `{Externals}
  category category_dir subdirs articles fs articles' fs' q data :
  category ∈ ["news"; "reviews"] ->
  (forall e, well_formed e -> q <> entry_path e) ->
  foldM (visit category category_dir) subdirs articles fs = (Ok articles', fs') ->
  fs' !! q = Some (File data) -> fs !! q = Some (File data).
Proof.
  intros Hcat Hq. revert articles fs.
  induction subdirs as [|subdir subdirs IH]; intros articles fs Hf Hfile;
    simpl in Hf.
  - by injection Hf as _ <-.
  - apply bind_Ok in Hf as (articles1 & fs1 & Hv & Hf).
    specialize (IH _ _ Hf Hfile). unfold visit in Hv.
    apply bind_Ok in Hv as (d & fs0 & Hd & Hv).
    unfold FS.isdir in Hd. injection Hd as Hd Hfs. subst d fs0.
    destruct (match fs !! _ with Some (Dir _) => true | _ => false end);
      [|by injection Hv as _ <-].
    apply bind_Ok in Hv as ([e|] & fs2 & Hp & Hv); injection Hv as _ <-.
    + eapply process_article_no_new_file; [done..| |done].
      apply Hq. by eapply process_article_step.
    + by apply process_article_None in Hp as ->.
Qed.

Lemma visit_category_no_new_file `{Externals}
  articles category fs articles' fs' q data :
  category ∈ ["news"; "reviews"] ->
  (forall e, well_formed e -> q <> entry_path e) ->
  visit_category articles category fs = (Ok articles', fs') ->
  fs' !! q = Some (File data) -> fs !! q = Some (File data).
Proof.
  intros Hcat Hq Hv Hfile. unfold visit_category in Hv.
  apply bind_Ok in Hv as (ex & fs1 & Hex & Hv).
  unfold FS.path_exists in Hex. injection Hex as Hex Hfs. subst ex fs1.
  destruct (negb _); [by injection Hv as _ <-|].
  apply bind_Ok in Hv as (subdirs & fs1 & Hl & Hv).
  assert (fs1 = fs) as ->.
  { unfold FS.listdir in Hl. repeat case_match_in Hl; by simplify_eq. }
  by eapply visits_no_new_file.
Qed.

Lemma collect_no_new_file `{Externals} fs articles fs' q data :
  (forall e, well_formed e -> q <> entry_path e) ->
  collect fs = (Ok articles, fs') ->
  fs' !! q = Some (File data) -> fs !! q = Some (File data).
Proof.
  unfold collect. simpl. intros Hq Hc Hfile.
  apply bind_Ok in Hc as (articles1 & fs1 & H1 & Hc).
  apply bind_Ok in Hc as (articles2 & fs2 & H2 & Hc).
  injection Hc as _ <-.
  eapply visit_category_no_new_file; [|done..|]; [set_solver|].
  eapply visit_category_no_new_file; [|done..]. set_solver.
Qed.

(** Manifest generation only writes the four manifests. *)
Lemma generate_manifests_files `{Externals} articles fs r fs' q data :
  generate_manifests articles fs = (r, fs') ->
  (forall name, name ∈ ["full"; "latest"; "news"; "reviews"] ->
                q <> manifest_path name) ->
  fs !! q = Some (File data) -> fs' !! q = Some (File data).
Proof.
  intros Hg Hq Hfile. unfold generate_manifests in Hg.
  unfold bind at 1, lift at 1 in Hg.
  destruct (sort_articles articles) as [sorted|e]; [|by injection Hg as _ <-].
  unfold bind at 1 in Hg.
  destruct (FS.write_text _ _ fs) as [r1 fs1] eqn:H1.
  assert (fs1 !! q = Some (File data)) as Hf1.
  { eapply write_text_files; [done| |done]. apply Hq. set_solver. }
  destruct r1 as [[]|e]; [|by injection Hg as _ <-].
  unfold bind at 1 in Hg.
  destruct (FS.write_text _ _ fs1) as [r2 fs2] eqn:H2.
  assert (fs2 !! q = Some (File data)) as Hf2.
  { eapply write_text_files; [done| |done]. apply Hq. set_solver. }
  destruct r2 as [[]|e]; [|by injection Hg as _ <-].
  simpl in Hg. unfold bind at 1 in Hg.
  destruct (FS.write_text _ _ fs2) as [r3 fs3] eqn:H3.
  assert (fs3 !! q = Some (File data)) as Hf3.
  { eapply write_text_files; [done| |done]. apply Hq. set_solver. }
  destruct r3 as [[]|e]; [|by injection Hg as _ <-].
  unfold bind at 1 in Hg.
  destruct (FS.write_text _ _ fs3) as [r4 fs4] eqn:H4.
  assert (fs4 !! q = Some (File data)) as Hf4.
  { eapply write_text_files; [done| |done]. apply Hq. set_solver. }
  destruct r4 as [[]|e]; by injection Hg as _ <-.
Qed.

(** C8, as amended: after a complete run every collected summary, hence
    every manifest entry, has a file at compressed/<category>/<id>.json that
    holds a compiled article with its identifier, and two summaries share a
    file only if they agree on category and identifier. *)
Theorem every_entry_has_a_compiled_file `{Externals} (fs fs' : filesys) :
  main fs = (Ok tt, fs') ->
  exists articles fs1,
    collect fs = (Ok articles, fs1) /\
    (forall e, e ∈ articles ->
       exists metadata content_md,
         fs' !! output_path (entry_category e) (entry_id e) =
         Some (File (json_dumps
                       (article_data (entry_id e) metadata content_md)))) /\
    (forall e1 e2, e1 ∈ articles -> e2 ∈ articles ->
       output_path (entry_category e1) (entry_id e1)
       = output_path (entry_category e2) (entry_id e2) ->
       entry_category e1 = entry_category e2 /\ entry_id e1 = entry_id e2).
Proof.
  unfold main. intros (articles & fs1 & Hc & Hm)%bind_Ok.
  exists articles, fs1. split; [done|].
  pose proof (collect_invariant _ _ _ Hc) as Hinv.
  rewrite Forall_forall in Hinv. split.
  - intros e He. destruct (Hinv e He) as [Hw (m & c & Hfile)].
    exists m, c. destruct articles as [|a l]; [by apply elem_of_nil in He|].
    eapply generate_manifests_files; [done| |done].
    intros name Hname. by apply entry_path_not_manifest.
  - intros e1 e2 He1 He2. apply entry_path_inj; by apply Hinv.
Qed.

Lemma date_keys_raise `{Externals} (articles : list entry) (e : entry) :
  e ∈ articles -> date_key e = Raise ValueError ->
  (forall x, x ∈ articles -> exists t, entry_date x = VStr t) ->
  result_map (fun x => result_bind (date_key x) (fun k => Ok (k, x))) articles
  = Raise ValueError.
Proof.
  intros He Hkey. induction articles as [|x l IH]; intros Hstr.
  - by apply elem_of_nil in He.
  - simpl. destruct (Hstr x) as [t Ht]; [by left|].
    unfold date_key at 1. rewrite Ht.
    destruct (fromisoformat t) as [d|] eqn:Hd; [|done]. simpl.
    rewrite IH; [done| |].
    + apply elem_of_cons in He as [->|He]; [|done].
      unfold date_key in Hkey. by rewrite Ht, Hd in Hkey.
    + intros y Hy. apply Hstr. by right.
Qed.

(** C10: when the run has collected an article, compiled and on disk,
    whose date is a string that [datetime.fromisoformat] rejects (the dates
    of the collected articles being strings), manifest generation raises
    [ValueError] while computing the sort keys, before any manifest is
    written, and the exception ends the run: a manifest file found on disk
    afterwards was there before the run. *)
Theorem unparseable_date_aborts_manifests `{Externals}
  (s : string) (fs fs1 : filesys) (articles : list entry) (e : entry) :
  fromisoformat s = None ->
  collect fs = (Ok articles, fs1) ->
  e ∈ articles -> entry_date e = VStr s ->
  (forall x, x ∈ articles -> exists t, entry_date x = VStr t) ->
  (exists metadata content_md,
     fs1 !! output_path (entry_category e) (entry_id e) =
     Some (File (json_dumps (article_data (entry_id e) metadata content_md)))) /\
  generate_manifests articles fs1 = (Raise ValueError, fs1) /\
  main fs = (Raise ValueError, fs1) /\
  (forall name data,
     name ∈ ["full"; "latest"; "news"; "reviews"] ->
     fs1 !! manifest_path name = Some (File data) ->
     fs !! manifest_path name = Some (File data)).
Proof.
  intros Hs Hc He Hdate Hstr.
  assert (Hg : generate_manifests articles fs1 = (Raise ValueError, fs1)).
  { apply generate_manifests_raise. unfold sort_articles.
    rewrite (date_keys_raise articles e); [done|done| |done].
    unfold date_key. by rewrite Hdate, Hs. }
  split; [|split; [done|split]].
  - pose proof (collect_invariant _ _ _ Hc) as Hinv.
    rewrite Forall_forall in Hinv. by destruct (Hinv e He) as [_ ?].
  - unfold main. rewrite (bind_eq _ _ _ _ _ Hc).
    destruct articles; [by apply elem_of_nil in He|done].
  - intros name data Hname. eapply collect_no_new_file; [|done].
    intros e0 Hw Heq. by eapply entry_path_not_manifest.
Qed.

(** ** Fuel

    The functions defined with a bound on their number of steps do not
    depend on the bound once it reaches the size of their input. *)

Lemma sub_fuel_enough repl n m s :
  String.length s <= n -> String.length s <= m ->
  Re.sub_fuel repl n s = Re.sub_fuel repl m s.
Proof.
  revert m s. induction n as [|n IH]; intros m s Hn Hm.
  - destruct s; [|simpl in Hn; lia]. by destruct m.
  - destruct m as [|m]; [destruct s; [done|simpl in Hm; lia]|].
    simpl. destruct (Re.match_image s) as [[[alt path] rest]|] eqn:Hmatch.
    + apply match_image_shorter in Hmatch. f_equal. apply IH; lia.
    + destruct s as [|c s]; [done|]. simpl in *. f_equal. apply IH; lia.
Qed.

Lemma blocks_enough n m st l :
  length l <= n -> length l <= m ->
  MD5.blocks n st l = MD5.blocks m st l.
Proof.
  revert m st l. induction n as [|n IH]; intros m st l Hn Hm.
  - destruct l; [|simpl in Hn; lia]. by destruct m.
  - destruct m as [|m]; [destruct l; [done|simpl in Hm; lia]|].
    simpl. destruct l as [|b l]; [done|].
    apply IH; rewrite length_skipn; simpl in *; lia.
Qed.

Lemma no_sep_no_head p :
  Str.contains Path.sep p = false -> Path.head_upto_last_sep p = [].
Proof.
  destruct p as [|c p]; [done|]. simpl.
  by intros ->.
Qed.

Lemma length_head_basename p :
  length (Path.head_upto_last_sep p) + String.length (Path.basename p)
  = String.length p.
Proof.
  induction p as [|c p IH]; [done|].
  unfold Path.basename. simpl. fold (Path.basename p).
  destruct (Str.contains Path.sep p) eqn:Hp.
  - rewrite orb_true_r. simpl. lia.
  - rewrite orb_false_r. destruct (Ascii.eqb c Path.sep); [|done].
    simpl. by rewrite no_sep_no_head.
Qed.

Lemma length_string_of_list l :
  String.length (string_of_list_ascii l) = length l.
Proof. induction l as [|c l IH]; [done|]. simpl. by rewrite IH. Qed.

Lemma length_rstrip_sep l : length (Path.rstrip_sep l) <= length l.
Proof.
  induction l as [|c l IH]; [done|]. simpl.
  destruct (Ascii.eqb c Path.sep); simpl; lia.
Qed.

(** The directory part of a path with a non-empty last component is
    shorter than the path. *)
Lemma dirname_shorter p :
  Path.basename p <> "" -> String.length (Path.dirname p) < String.length p.
Proof.
  intros Hbase.
  assert (0 < String.length (Path.basename p)).
  { destruct (Path.basename p); [done|simpl; lia]. }
  pose proof (length_head_basename p) as Hlen.
  assert (String.length (Path.dirname p) <= length (Path.head_upto_last_sep p));
    [|lia].
  unfold Path.dirname.
  pose proof (length_rstrip_sep (rev (Path.head_upto_last_sep p))) as Hstrip.
  rewrite length_rev in Hstrip.
  destruct (Path.rstrip_sep (rev (Path.head_upto_last_sep p))) as [|c r] eqn:Hr.
  - by rewrite length_string_of_list.
  - by rewrite length_string_of_list, length_rev.
Qed.

Lemma makedirs_fuel_enough n m p fs :
  String.length p <= n -> String.length p <= m ->
  FS.makedirs_fuel n p fs = FS.makedirs_fuel m p fs.
Proof.
  assert (Hempty : forall k fs,
            FS.makedirs_fuel k "" fs = FS.mkdir_exist_ok "" fs).
  { intros [|k] fs0; [done|]. simpl. unfold bind, ret.
    by destruct (FS.mkdir_exist_ok "" fs0) as [[[]|] ?]. }
  revert m p fs. induction n as [|n IH]; intros m p fs Hn Hm.
  - destruct p; [|simpl in Hn; lia]. by rewrite !Hempty.
  - destruct m as [|m].
    { destruct p; [|simpl in Hm; lia]. by rewrite !Hempty. }
    simpl. destruct (String.eqb_spec (Path.basename p) "") as [Hb|Hb].
    { by rewrite andb_false_r. }
    destruct (negb (String.eqb (Path.dirname p) "")); [|done]. simpl.
    pose proof (dirname_shorter p Hb).
    unfold bind, FS.path_exists, FS.ignore_exists.
    destruct (bool_decide (is_Some (fs !! Path.dirname p))); [done|].
    by rewrite (IH m (Path.dirname p) fs) by lia.
Qed.

(** ** What the operations leave alone *)

Lemma keeps_ret {A : Type} q (a : A) : keeps q (ret a).
Proof. intros fs r fs' Hm. by injection Hm as _ <-. Qed.

Lemma keeps_lift {A : Type} q (x : result A) : keeps q (lift x).
Proof. intros fs r fs' Hm. by injection Hm as _ <-. Qed.

Lemma keeps_bind {A B : Type} q (m : M A) (k : A -> M B) :
  keeps q m -> (forall a, keeps q (k a)) -> keeps q (bind m k).
Proof.
  intros Hm Hk fs r fs' Hb. unfold bind in Hb.
  destruct (m fs) as [[a|e] fs1] eqn:H1.
  - rewrite (Hk a _ _ _ Hb). by eapply Hm.
  - injection Hb as _ <-. by eapply Hm.
Qed.

Lemma keeps_foldM {A B : Type} q (f : B -> A -> M B) l b :
  (forall b a, a ∈ l -> keeps q (f b a)) -> keeps q (foldM f l b).
Proof.
  revert b. induction l as [|a l IH]; intros b Hf; simpl.
  - apply keeps_ret.
  - apply keeps_bind; [apply Hf; by left|].
    intros b'. apply IH. intros b0 a0 Ha0. apply Hf. by right.
Qed.

Lemma keeps_path_exists q p : keeps q (FS.path_exists p).
Proof. intros fs r fs' Hm. by injection Hm as _ <-. Qed.

Lemma keeps_isdir q p : keeps q (FS.isdir p).
Proof. intros fs r fs' Hm. by injection Hm as _ <-. Qed.

Lemma keeps_listdir q p : keeps q (FS.listdir p).
Proof.
  intros fs r fs' Hm. unfold FS.listdir in Hm.
  repeat case_match_in Hm; by simplify_eq.
Qed.

Lemma keeps_read_text q p : keeps q (FS.read_text p).
Proof.
  intros fs r fs' Hm. unfold FS.read_text in Hm.
  repeat case_match_in Hm; by simplify_eq.
Qed.

Lemma keeps_create q p n :
  q <> p -> (Path.dirname p <> "" -> q <> Path.dirname p) -> keeps q (FS.create p n).
Proof.
  intros Hp Hd fs r fs' Hm. unfold FS.create in Hm.
  destruct (String.eqb_spec (Path.dirname p) "") as [Heq|Hne].
  - injection Hm as _ <-. by rewrite lookup_insert_ne.
  - repeat case_match_in Hm; simplify_eq; try done.
    rewrite !lookup_insert_ne; [done| |done]. intros Heq. by apply Hd.
Qed.

Lemma keeps_mkdir q p :
  q <> p -> (Path.dirname p <> "" -> q <> Path.dirname p) -> keeps q (FS.mkdir p).
Proof.
  intros Hp Hd fs r fs' Hm. unfold FS.mkdir in Hm.
  destruct (fs !! p); [by injection Hm as _ <-|].
  exact (keeps_create q p _ Hp Hd _ _ _ Hm).
Qed.

Lemma keeps_mkdir_exist_ok q p :
  q <> p -> (Path.dirname p <> "" -> q <> Path.dirname p) -> keeps q (FS.mkdir_exist_ok p).
Proof.
  intros Hp Hd fs r fs' Hm. unfold FS.mkdir_exist_ok in Hm.
  destruct (FS.mkdir p fs) as [r1 fs1] eqn:H1.
  rewrite <- (keeps_mkdir q p Hp Hd _ _ _ H1).
  repeat case_match_in Hm; by simplify_eq.
Qed.

Lemma keeps_ignore_exists q m : keeps q m -> keeps q (FS.ignore_exists m).
Proof.
  intros Hk fs r fs' Hm. unfold FS.ignore_exists in Hm.
  destruct (m fs) as [r1 fs1] eqn:H1. rewrite <- (Hk _ _ _ H1).
  repeat case_match_in Hm; by simplify_eq.
Qed.

Lemma keeps_write_text q p text :
  q <> p -> (Path.dirname p <> "" -> q <> Path.dirname p) -> keeps q (FS.write_text p text).
Proof.
  intros Hp Hd fs r fs' Hm. unfold FS.write_text in Hm.
  destruct (fs !! p) as [[d|l]|] eqn:Hfs.
  - injection Hm as _ <-. by rewrite lookup_insert_ne.
  - by injection Hm as _ <-.
  - exact (keeps_create q p _ Hp Hd _ _ _ Hm).
Qed.

(** [os.makedirs] on an output directory: the output root first, if it is
    missing, then the directory of the category. *)
Lemma makedirs_output_dir category fs :
  category ∈ ["news"; "reviews"] ->
  FS.makedirs (Path.join COMPRESSED_DIR category) fs =
  ((let* ex := FS.path_exists COMPRESSED_DIR in
    if ex then ret tt else FS.ignore_exists (FS.mkdir_exist_ok COMPRESSED_DIR)) >>
   FS.mkdir_exist_ok (Path.join COMPRESSED_DIR category)) fs.
Proof. by intros [->| ->]%category_cases. Qed.

Lemma dirname_output_dir category :
  category ∈ ["news"; "reviews"] ->
  Path.dirname (Path.join COMPRESSED_DIR category) = COMPRESSED_DIR.
Proof. by intros [->| ->]%category_cases. Qed.

Lemma keeps_makedirs_output_dir q category :
  category ∈ ["news"; "reviews"] ->
  q <> COMPRESSED_DIR -> q <> Path.join COMPRESSED_DIR category ->
  keeps q (FS.makedirs (Path.join COMPRESSED_DIR category)).
Proof.
  intros Hcat Hroot Hdir fs r fs'. rewrite makedirs_output_dir by done.
  revert fs r fs'. apply keeps_bind.
  - apply keeps_bind; [apply keeps_path_exists|]. intros [].
    + apply keeps_ret.
    + apply keeps_ignore_exists. by apply keeps_mkdir_exist_ok.
  - intros _. apply keeps_mkdir_exist_ok; [done|].
    by rewrite dirname_output_dir.
Qed.

(** The separator occurs in none of the characters of an identifier. *)
Lemma contains_append c s t :
  Str.contains c (s +:+ t) = Str.contains c s || Str.contains c t.
Proof.
  induction s as [|a s IH]; [done|]. rewrite append_cons. simpl.
  by rewrite IH, orb_assoc.
Qed.

Lemma all_hex_no_sep s : all_hex s = true -> Str.contains Path.sep s = false.
Proof.
  induction s as [|c s IH]; [done|]. simpl.
  intros [Hc Hs]%andb_true_iff. rewrite (IH Hs), orb_false_r.
  destruct (Ascii.eqb_spec c Path.sep) as [->|]; done.
Qed.

(** The directory part of a path whose last component holds no separator. *)
Lemma head_upto_last_sep_child d f :
  Str.contains Path.sep f = false ->
  Path.head_upto_last_sep (d +:+ "/" +:+ f)
  = list_ascii_of_string (d +:+ "/").
Proof.
  intros Hf. induction d as [|c d IH].
  - change (Path.head_upto_last_sep (String "/" f) = ["/"%char]).
    simpl. by rewrite (no_sep_no_head f Hf).
  - rewrite !(append_cons c d). simpl. rewrite IH, contains_append. simpl.
    by rewrite !orb_true_r.
Qed.

Lemma dirname_output_path category unique_id :
  category ∈ ["news"; "reviews"] ->
  String.length unique_id = 12 -> all_hex unique_id = true ->
  Path.dirname (output_path category unique_id)
  = Path.join COMPRESSED_DIR category.
Proof.
  intros Hcat Hlen Hhex. rewrite output_path_shape by done.
  assert (Hf : Str.contains Path.sep (unique_id +:+ ".json") = false).
  { rewrite contains_append, all_hex_no_sep by done. done. }
  apply category_cases in Hcat as [->| ->].
  - change ("compressed/" +:+ "news" +:+ "/" +:+ unique_id +:+ ".json")
      with ("compressed/news" +:+ "/" +:+ unique_id +:+ ".json").
    unfold Path.dirname. by rewrite head_upto_last_sep_child.
  - change ("compressed/" +:+ "reviews" +:+ "/" +:+ unique_id +:+ ".json")
      with ("compressed/reviews" +:+ "/" +:+ unique_id +:+ ".json").
    unfold Path.dirname. by rewrite head_upto_last_sep_child.
Qed.

Lemma digest_prefix_shape bytes :
  String.length (Str.take 12 (MD5.hexdigest bytes)) = 12 /\
  all_hex (Str.take 12 (MD5.hexdigest bytes)) = true.
Proof.
  unfold MD5.hexdigest. destruct (digest_shape bytes) as [Hlen Hrange]. split.
  - apply length_take. rewrite length_hex, Hlen. lia.
  - by apply all_hex_take, hex_all_hex.
Qed.

Lemma keeps_collect_assets `{Externals} q article_dir :
  keeps q (collect_assets article_dir).
Proof.
  intros fs r fs' Hm. by rewrite (collect_assets_state _ _ _ _ Hm).
Qed.

(** [process_article] touches the output root, the directory of the
    category and the file of the article, whatever its outcome. *)
Lemma keeps_process_article `{Externals} q article_dir category :
  category ∈ ["news"; "reviews"] ->
  q <> COMPRESSED_DIR -> q <> Path.join COMPRESSED_DIR category ->
  (forall unique_id, String.length unique_id = 12 -> all_hex unique_id = true ->
                     q <> output_path category unique_id) ->
  keeps q (process_article article_dir category).
Proof.
  intros Hcat Hroot Hdir Hfile. unfold process_article.
  apply keeps_bind; [apply keeps_path_exists|]. intros ex.
  destruct (negb ex); [apply keeps_ret|].
  apply keeps_bind; [apply keeps_read_text|]. intros raw.
  destruct (frontmatter_loads raw) as [[metadata content]|]; [|apply keeps_ret].
  destruct (_ || _); [apply keeps_ret|].
  unfold compile_article.
  apply keeps_bind; [apply keeps_lift|]. intros bytes.
  apply keeps_bind; [apply keeps_collect_assets|]. intros assets.
  apply keeps_bind; [by apply keeps_makedirs_output_dir|]. intros _.
  destruct (digest_prefix_shape bytes) as [Hlen Hhex].
  apply keeps_bind.
  { fold (output_path category (Str.take 12 (MD5.hexdigest bytes))).
    apply keeps_write_text; [by apply Hfile|].
    by rewrite dirname_output_path. }
  intros _. apply keeps_bind; [apply keeps_lift|]. intros title.
  apply keeps_bind; [apply keeps_lift|]. intros date. apply keeps_ret.
Qed.

(** ** The run and the source tree *)

Lemma outside_output_dir q category :
  outside_output q -> category ∈ ["news"; "reviews"] ->
  q <> Path.join COMPRESSED_DIR category.
Proof.
  intros [_ Hq] [->| ->]%category_cases ->; by vm_compute in Hq.
Qed.

Lemma outside_output_path q category unique_id :
  outside_output q -> category ∈ ["news"; "reviews"] ->
  String.length unique_id = 12 -> all_hex unique_id = true ->
  q <> output_path category unique_id.
Proof.
  intros [_ Hq] Hcat Hlen Hhex ->. rewrite output_path_shape in Hq by done.
  change (COMPRESSED_DIR +:+ "/") with "compressed/" in Hq.
  assert (Hp : forall p s, Str.strip_prefix p (p +:+ s) = Some s).
  { intros p s. induction p as [|c p IH]; [done|].
    rewrite append_cons. simpl. by rewrite Ascii.eqb_refl. }
  by rewrite Hp in Hq.
Qed.

Lemma outside_output_manifest q name :
  outside_output q -> name ∈ ["full"; "latest"; "news"; "reviews"] ->
  q <> manifest_path name.
Proof.
  intros [_ Hq] Hname ->.
  repeat (apply elem_of_cons in Hname as [->|Hname]);
    try (by apply elem_of_nil in Hname); by vm_compute in Hq.
Qed.

Lemma keeps_visit `{Externals} q category category_dir articles subdir :
  category ∈ ["news"; "reviews"] ->
  q <> COMPRESSED_DIR -> q <> Path.join COMPRESSED_DIR category ->
  (forall unique_id, String.length unique_id = 12 -> all_hex unique_id = true ->
                     q <> output_path category unique_id) ->
  keeps q (visit category category_dir articles subdir).
Proof.
  intros Hcat Hroot Hdir Hfile. unfold visit.
  apply keeps_bind; [apply keeps_isdir|]. intros [|]; [|apply keeps_ret].
  apply keeps_bind; [by apply keeps_process_article|].
  intros [e|]; apply keeps_ret.
Qed.

Lemma keeps_visit_category `{Externals} q articles category :
  category ∈ ["news"; "reviews"] ->
  q <> COMPRESSED_DIR -> q <> Path.join COMPRESSED_DIR category ->
  (forall unique_id, String.length unique_id = 12 -> all_hex unique_id = true ->
                     q <> output_path category unique_id) ->
  keeps q (visit_category articles category).
Proof.
  intros Hcat Hroot Hdir Hfile. unfold visit_category.
  apply keeps_bind; [apply keeps_path_exists|]. intros ex.
  destruct (negb ex); [apply keeps_ret|].
  apply keeps_bind; [apply keeps_listdir|]. intros subdirs.
  apply keeps_foldM. intros b a _. by apply keeps_visit.
Qed.

(** The collection touches the output root, the directories of the two
    categories and the files of compiled articles. *)
Lemma keeps_collect `{Externals} q :
  q <> COMPRESSED_DIR ->
  (forall category, category ∈ ["news"; "reviews"] ->
     q <> Path.join COMPRESSED_DIR category /\
     forall unique_id, String.length unique_id = 12 ->
                       all_hex unique_id = true ->
                       q <> output_path category unique_id) ->
  keeps q collect.
Proof.
  intros Hroot Hq. unfold collect. apply keeps_foldM.
  intros b category Hcat. destruct (Hq category Hcat) as [Hdir Hfile].
  by apply keeps_visit_category.
Qed.

Lemma keeps_generate_manifests `{Externals} q articles :
  q <> COMPRESSED_DIR ->
  (forall name, name ∈ ["full"; "latest"; "news"; "reviews"] ->
                q <> manifest_path name) ->
  keeps q (generate_manifests articles).
Proof.
  intros Hroot Hq. unfold generate_manifests.
  apply keeps_bind; [apply keeps_lift|]. intros sorted.
  apply keeps_bind.
  { apply keeps_write_text; [apply Hq; set_solver|done]. }
  intros _. apply keeps_bind.
  { apply keeps_write_text; [apply Hq; set_solver|done]. }
  intros _. apply keeps_foldM. intros _ category Hcat.
  apply keeps_write_text.
  - apply Hq. set_solver.
  - by apply category_cases in Hcat as [->| ->].
Qed.

Lemma keeps_main `{Externals} q : outside_output q -> keeps q main.
Proof.
  intros Hq. unfold main. apply keeps_bind.
  - apply keeps_collect; [apply Hq|]. intros category Hcat. split.
    + by apply outside_output_dir.
    + intros unique_id Hlen Hhex. by apply outside_output_path.
  - intros [|e articles]; [apply keeps_ret|].
    apply keeps_generate_manifests; [apply Hq|].
    intros name Hname. by apply outside_output_manifest.
Qed.

(** X1: whatever the outcome of a run (completed or ended by an exception),
    every path that is neither the output directory nor below it names
    after the run what it named before: the same file with the same bytes,
    the same directory with the same listing, or nothing. *)
Theorem run_leaves_the_source_tree_alone `{Externals}
  (fs fs' : filesys) (r : result unit) (q : string) :
  main fs = (r, fs') ->
  q <> COMPRESSED_DIR ->
  Str.strip_prefix "compressed/" q = None ->
  fs' !! q = fs !! q.
Proof.
  intros Hm Hroot Hq. by apply (keeps_main q (conj Hroot Hq) fs r fs').
Qed.

(** ** Runs without articles, and categories that are no directories *)

Lemma visit_grows `{Externals}
  category category_dir articles subdir fs articles' fs' :
  visit category category_dir articles subdir fs = (Ok articles', fs') ->
  (articles' = articles /\ fs' = fs) \/
  (exists e, articles' = (articles ++ [e])%list /\
     process_article (Path.join category_dir subdir) category fs
     = (Ok (Some e), fs')).
Proof.
  unfold visit. intros (d & fs1 & Hd & Hv)%bind_Ok.
  unfold FS.isdir in Hd. injection Hd as Hd Hfs. subst d fs1.
  destruct (match fs !! _ with Some (Dir _) => true | _ => false end);
    [|injection Hv as <- <-; by left].
  apply bind_Ok in Hv as ([e|] & fs1 & Hp & Hv); injection Hv as <- <-.
  - right. by exists e.
  - left. by apply process_article_None in Hp as ->.
Qed.

Lemma visits_grow `{Externals}
  category category_dir subdirs articles fs articles' fs' :
  foldM (visit category category_dir) subdirs articles fs = (Ok articles', fs') ->
  exists more, articles' = (articles ++ more)%list /\ (more = [] -> fs' = fs).
Proof.
  revert articles fs.
  induction subdirs as [|subdir subdirs IH]; intros articles fs Hf; simpl in Hf.
  - injection Hf as <- <-. exists []. by rewrite app_nil_r.
  - apply bind_Ok in Hf as (articles1 & fs1 & Hv & Hf).
    apply IH in Hf as (more & -> & Hfs).
    apply visit_grows in Hv as [[-> ->]|(e & -> & _)].
    + by exists more.
    + exists (e :: more). split; [by rewrite <- app_assoc|done].
Qed.

Lemma visit_category_grows `{Externals} articles category fs articles' fs' :
  visit_category articles category fs = (Ok articles', fs') ->
  exists more, articles' = (articles ++ more)%list /\ (more = [] -> fs' = fs).
Proof.
  unfold visit_category. intros (ex & fs1 & Hex & Hv)%bind_Ok.
  unfold FS.path_exists in Hex. injection Hex as Hex Hfs. subst ex fs1.
  destruct (negb _).
  { injection Hv as <- <-. exists []. by rewrite app_nil_r. }
  apply bind_Ok in Hv as (subdirs & fs1 & Hl & Hv).
  assert (fs1 = fs) as ->.
  { unfold FS.listdir in Hl. repeat case_match_in Hl; by simplify_eq. }
  by eapply visits_grow.
Qed.

(** X2: when the two loops of [main] end without having collected a
    summary (every folder was skipped, or there was none), the run ends
    normally and the file system is exactly what it was: no directory is
    created and no manifest is written, not even an empty one. *)
Theorem run_without_articles_changes_nothing `{Externals}
  (fs fs1 : filesys) :
  collect fs = (Ok [], fs1) ->
  fs1 = fs /\ main fs = (Ok tt, fs).
Proof.
  intros Hc. assert (fs1 = fs) as ->; [|split; [done|]].
  - unfold collect in Hc. simpl in Hc.
    apply bind_Ok in Hc as (articles1 & fs2 & H1 & Hc).
    apply bind_Ok in Hc as (articles2 & fs3 & H2 & Hc).
    injection Hc as -> ->.
    apply visit_category_grows in H2 as (more2 & Heq2 & Hfs2).
    apply visit_category_grows in H1 as (more1 & Heq1 & Hfs1).
    simpl in Heq1. subst articles1. symmetry in Heq2.
    apply app_eq_nil in Heq2 as [-> ->]. rewrite Hfs2, Hfs1; done.
  - unfold main. by rewrite (bind_eq _ _ _ _ _ Hc).
Qed.

(** X3: a category path that exists but is a regular file ends the run:
    [os.path.exists] lets it pass and [os.listdir] raises
    [NotADirectoryError], which nothing catches.  When reviews is such a
    file, the articles of news have been compiled by then, and the run ends
    without any manifest being written or updated. *)
Theorem category_that_is_a_file_ends_the_run `{Externals}
  (fs fs1 : filesys) (data : string) (articles : list entry) :
  fs !! Path.join CONTENT_DIR "reviews" = Some (File data) ->
  visit_category [] "news" fs = (Ok articles, fs1) ->
  main fs = (Raise NotADirectoryError, fs1) /\
  forall name, name ∈ ["full"; "latest"; "news"; "reviews"] ->
               fs1 !! manifest_path name = fs !! manifest_path name.
Proof.
  intros Hfile Hnews.
  assert (Hkeep : forall q,
            q <> COMPRESSED_DIR -> q <> "compressed/news" ->
            (forall unique_id, String.length unique_id = 12 ->
               all_hex unique_id = true -> q <> output_path "news" unique_id) ->
            fs1 !! q = fs !! q).
  { intros q Hq1 Hq2 Hq3.
    apply (keeps_visit_category q [] "news") in Hnews; try done.
    set_solver. }
  split.
  - unfold main, collect. simpl. unfold bind at 1 2.
    rewrite Hnews. unfold bind at 1.
    assert (Hf1 : fs1 !! Path.join CONTENT_DIR "reviews" = Some (File data)).
    { rewrite <- Hfile. apply Hkeep; [done|done|].
      intros unique_id Hlen Hhex. apply outside_output_path; try done.
      set_solver. }
    unfold visit_category, bind, FS.path_exists, FS.listdir. rewrite Hf1.
    rewrite bool_decide_eq_true_2 by done. simpl. by rewrite Hf1.
  - intros name Hname. apply Hkeep.
    + repeat (apply elem_of_cons in Hname as [->|Hname]);
        try (by apply elem_of_nil in Hname); done.
    + repeat (apply elem_of_cons in Hname as [->|Hname]);
        try (by apply elem_of_nil in Hname); done.
    + intros unique_id Hlen Hhex Heq.
      apply (entry_path_not_manifest
               {| entry_id := unique_id; entry_category := "news";
                  entry_title := VNone; entry_date := VNone;
                  entry_tags := VNone; entry_author := VNone |} name);
        [|done|done].
      repeat split; [set_solver|done|done].
Qed.

(** ** The output directory after a collection *)

Lemma create_dirs p n fs r fs' q :
  FS.create p n fs = (r, fs') -> fs !! p = None ->
  is_dir fs q -> is_dir fs' q.
Proof.
  unfold FS.create. intros Hc Hp [l Hq].
  assert (q <> p) as Hne by (intros ->; congruence).
  destruct (String.eqb (Path.dirname p) "").
  - injection Hc as _ <-. exists l. by rewrite lookup_insert_ne.
  - destruct (fs !! Path.dirname p) as [[d|l']|] eqn:Hparent;
      injection Hc as _ <-; try by exists l.
    unfold is_dir. rewrite lookup_insert_ne by done.
    destruct (decide (Path.dirname p = q)) as [<-|Hne'].
    + eexists. by rewrite lookup_insert_eq.
    + exists l. by rewrite lookup_insert_ne.
Qed.

Lemma mkdir_exist_ok_dirs p fs r fs' q :
  FS.mkdir_exist_ok p fs = (r, fs') -> is_dir fs q -> is_dir fs' q.
Proof.
  unfold FS.mkdir_exist_ok, FS.mkdir. intros Hm Hq.
  destruct (fs !! p) as [n|] eqn:Hp.
  - rewrite Hp in Hm. destruct n; by simplify_eq.
  - destruct (FS.create p (Dir []) fs) as [r1 fs1] eqn:Hc.
    assert (is_dir fs1 q) by by eapply create_dirs.
    repeat case_match_in Hm; by simplify_eq.
Qed.

Lemma write_text_dirs p text fs r fs' q :
  FS.write_text p text fs = (r, fs') -> is_dir fs q -> is_dir fs' q.
Proof.
  unfold FS.write_text. intros Hw Hq.
  destruct (fs !! p) as [[d|l]|] eqn:Hp.
  - injection Hw as _ <-. destruct Hq as [l Hq]. exists l.
    rewrite lookup_insert_ne; [done|]. intros ->. congruence.
  - by injection Hw as _ <-.
  - by eapply create_dirs.
Qed.

(** Once [os.makedirs] has succeeded on the directory of a category, the
    output root is a directory, unless a regular file was in its place. *)
Lemma makedirs_output_root category fs fs' :
  category ∈ ["news"; "reviews"] ->
  FS.makedirs (Path.join COMPRESSED_DIR category) fs = (Ok tt, fs') ->
  (forall data, fs !! COMPRESSED_DIR <> Some (File data)) ->
  is_dir fs' COMPRESSED_DIR.
Proof.
  intros Hcat Hm Hroot. rewrite makedirs_output_dir in Hm by done.
  apply bind_Ok in Hm as ([] & fs1 & H1 & Hm).
  eapply mkdir_exist_ok_dirs; [done|].
  apply bind_Ok in H1 as (ex & fs0 & Hex & H1).
  unfold FS.path_exists in Hex. injection Hex as Hex Hfs. subst ex fs0.
  destruct (fs !! COMPRESSED_DIR) as [[data|l]|] eqn:Hc.
  - by destruct (Hroot data).
  - rewrite bool_decide_eq_true_2 in H1 by done. injection H1 as <-.
    by exists l.
  - rewrite bool_decide_eq_false_2 in H1 by by intros [].
    unfold FS.ignore_exists, FS.mkdir_exist_ok, FS.mkdir in H1.
    rewrite Hc in H1. change (FS.create COMPRESSED_DIR (Dir []) fs)
      with (Ok (), <[COMPRESSED_DIR := Dir []]> fs) in H1.
    injection H1 as <-. exists []. by rewrite lookup_insert_eq.
Qed.

Lemma process_article_output_root `{Externals} article_dir category fs e fs' :
  category ∈ ["news"; "reviews"] ->
  process_article article_dir category fs = (Ok (Some e), fs') ->
  (forall data, fs !! COMPRESSED_DIR <> Some (File data)) ->
  is_dir fs' COMPRESSED_DIR.
Proof.
  intros Hcat (d & metadata & content & _ & _ & _ & _ & _ & Hc)%process_article_Some
    Hroot.
  apply compile_article_Some in Hc
    as (assets & fs1 & title & date & _ & _ & Hmk & Hwr & _ & _ & _).
  eapply write_text_dirs; [done|]. by eapply makedirs_output_root.
Qed.

Lemma is_dir_not_file fs p : is_dir fs p -> forall data, fs !! p <> Some (File data).
Proof. intros [l Hl] data. congruence. Qed.

Lemma visits_output_root `{Externals}
  category category_dir subdirs articles fs articles' fs' :
  category ∈ ["news"; "reviews"] ->
  foldM (visit category category_dir) subdirs articles fs = (Ok articles', fs') ->
  (forall data, fs !! COMPRESSED_DIR <> Some (File data)) ->
  (articles <> [] -> is_dir fs COMPRESSED_DIR) ->
  (forall data, fs' !! COMPRESSED_DIR <> Some (File data)) /\
  (articles' <> [] -> is_dir fs' COMPRESSED_DIR).
Proof.
  intros Hcat. revert articles fs.
  induction subdirs as [|subdir subdirs IH]; intros articles fs Hf Hroot Hdir;
    simpl in Hf.
  - by injection Hf as <- <-.
  - apply bind_Ok in Hf as (articles1 & fs1 & Hv & Hf).
    apply visit_grows in Hv as [[-> ->]|(e & -> & Hp)]; [by eapply IH|].
    pose proof (process_article_output_root _ _ _ _ _ Hcat Hp Hroot) as Hd.
    eapply IH; [done|by apply is_dir_not_file|done].
Qed.

Lemma visit_category_output_root `{Externals}
  articles category fs articles' fs' :
  category ∈ ["news"; "reviews"] ->
  visit_category articles category fs = (Ok articles', fs') ->
  (forall data, fs !! COMPRESSED_DIR <> Some (File data)) ->
  (articles <> [] -> is_dir fs COMPRESSED_DIR) ->
  (forall data, fs' !! COMPRESSED_DIR <> Some (File data)) /\
  (articles' <> [] -> is_dir fs' COMPRESSED_DIR).
Proof.
  intros Hcat Hv Hroot Hdir. unfold visit_category in Hv.
  apply bind_Ok in Hv as (ex & fs1 & Hex & Hv).
  unfold FS.path_exists in Hex. injection Hex as Hex Hfs. subst ex fs1.
  destruct (negb _); [by injection Hv as <- <-|].
  apply bind_Ok in Hv as (subdirs & fs1 & Hl & Hv).
  assert (fs1 = fs) as ->.
  { unfold FS.listdir in Hl. repeat case_match_in Hl; by simplify_eq. }
  by eapply visits_output_root.
Qed.

Lemma collect_output_root `{Externals} fs articles fs' :
  collect fs = (Ok articles, fs') ->
  (forall data, fs !! COMPRESSED_DIR <> Some (File data)) ->
  articles <> [] -> is_dir fs' COMPRESSED_DIR.
Proof.
  unfold collect. simpl. intros Hc Hroot Hne.
  apply bind_Ok in Hc as (articles1 & fs1 & H1 & Hc).
  apply bind_Ok in Hc as (articles2 & fs2 & H2 & Hc).
  injection Hc as <- <-.
  eapply visit_category_output_root in H1 as [Hroot1 Hdir1];
    [|set_solver|done|done].
  eapply visit_category_output_root in H2 as [Hroot2 Hdir2];
    [|set_solver|done|done].
  by apply Hdir2.
Qed.

(** The collection leaves the places of the manifests alone. *)
Lemma collect_keeps_manifests `{Externals} fs r fs' name :
  collect fs = (r, fs') -> name ∈ ["full"; "latest"; "news"; "reviews"] ->
  fs' !! manifest_path name = fs !! manifest_path name.
Proof.
  intros Hc Hname. eapply keeps_collect; [| |done].
  - repeat (apply elem_of_cons in Hname as [->|Hname]);
      try (by apply elem_of_nil in Hname); done.
  - intros category Hcat. split.
    + apply category_cases in Hcat as [->| ->];
        repeat (apply elem_of_cons in Hname as [->|Hname]);
        try (by apply elem_of_nil in Hname); done.
    + intros unique_id Hlen Hhex Heq.
      by apply (entry_path_not_manifest
                  {| entry_id := unique_id; entry_category := category;
                     entry_title := VNone; entry_date := VNone;
                     entry_tags := VNone; entry_author := VNone |} name).
Qed.

(** Four writes into an existing output directory where no directory
    stands in the place of a manifest. *)
Lemma generate_manifests_writes `{Externals} articles sorted fs :
  sort_articles articles = Ok sorted ->
  is_dir fs COMPRESSED_DIR ->
  (forall name l, name ∈ ["full"; "latest"; "news"; "reviews"] ->
                  fs !! manifest_path name <> Some (Dir l)) ->
  exists fs',
    generate_manifests articles fs = (Ok tt, fs') /\
    fs' !! manifest_path "full"
      = Some (File (json_dumps (manifest_json sorted))) /\
    fs' !! manifest_path "latest"
      = Some (File (json_dumps (manifest_json (firstn 10 sorted)))) /\
    (forall category, category ∈ ["news"; "reviews"] ->
       fs' !! manifest_path category
       = Some (File (json_dumps (manifest_json
                 (category_articles category sorted))))).
Proof.
  intros Hsort Hdir Hfiles. unfold generate_manifests.
  rewrite (bind_eq _ _ fs sorted fs) by (unfold lift; by rewrite Hsort).
  cbn [foldM].
  assert (Hfull := fun l => Hfiles "full" l ltac:(set_solver)).
  assert (Hlatest := fun l => Hfiles "latest" l ltac:(set_solver)).
  assert (Hnews := fun l => Hfiles "news" l ltac:(set_solver)).
  assert (Hreviews := fun l => Hfiles "reviews" l ltac:(set_solver)).
  change (manifest_path "full") with "compressed/full_manifest.json" in *.
  change (manifest_path "latest") with "compressed/latest_manifest.json" in *.
  change (manifest_path "news") with "compressed/news_manifest.json" in *.
  change (manifest_path "reviews") with "compressed/reviews_manifest.json" in *.
  unfold is_dir in Hdir. change COMPRESSED_DIR with "compressed" in Hdir.
  destruct (write_text_ok "compressed/full_manifest.json"
              (json_dumps (manifest_json sorted)) fs)
    as (fs1 & Hw1 & Hf1 & Hd1 & Hframe1); [done..|].
  destruct (write_text_ok "compressed/latest_manifest.json"
              (json_dumps (manifest_json (firstn 10 sorted))) fs1)
    as (fs2 & Hw2 & Hf2 & Hd2 & Hframe2); [done|done|done| |].
  { intros l. by rewrite Hframe1. }
  destruct (write_text_ok "compressed/news_manifest.json"
              (json_dumps (manifest_json (category_articles "news" sorted))) fs2)
    as (fs3 & Hw3 & Hf3 & Hd3 & Hframe3); [done|done|done| |].
  { intros l. by rewrite Hframe2, Hframe1. }
  destruct (write_text_ok "compressed/reviews_manifest.json"
              (json_dumps (manifest_json (category_articles "reviews" sorted)))
              fs3)
    as (fs4 & Hw4 & Hf4 & Hd4 & Hframe4); [done|done|done| |].
  { intros l. by rewrite Hframe3, Hframe2, Hframe1. }
  exists fs4.
  rewrite (bind_eq _ _ _ _ _ Hw1), (bind_eq _ _ _ _ _ Hw2),
    (bind_eq _ _ _ _ _ Hw3), (bind_eq _ _ _ _ _ Hw4).
  split; [done|].
  split; [by rewrite Hframe4, Hframe3, Hframe2|].
  split; [by rewrite Hframe4, Hframe3|].
  intros category [->| ->]%category_cases.
  - change (manifest_path "news") with "compressed/news_manifest.json".
    by rewrite Hframe4.
  - done.
Qed.

(** X4: a run that has collected at least one summary always reaches the
    end when the dates of the summaries parse and compare: the collection
    itself has made the output directory, so that, unless a regular file
    stood in the place of the output directory or a directory in the place of
    a manifest before the run, the four manifests are written and [main]
    returns normally. *)
Theorem run_with_articles_writes_the_manifests `{Externals}
  (fs fs1 : filesys) (articles : list entry) :
  collect fs = (Ok articles, fs1) ->
  articles <> [] ->
  (forall data, fs !! COMPRESSED_DIR <> Some (File data)) ->
  (forall name l, name ∈ ["full"; "latest"; "news"; "reviews"] ->
                  fs !! manifest_path name <> Some (Dir l)) ->
  Forall (fun x => exists d, date_key x = Ok d) articles ->
  (forall x y dx dy, x ∈ articles -> y ∈ articles ->
     date_key x = Ok dx -> date_key y = Ok dy -> aware dx = aware dy) ->
  exists fs',
    main fs = (Ok tt, fs') /\
    fs' !! manifest_path "full"
      = Some (File (json_dumps (manifest_json (sort_desc instant_of articles)))) /\
    fs' !! manifest_path "latest"
      = Some (File (json_dumps (manifest_json
                (firstn 10 (sort_desc instant_of articles))))) /\
    (forall category, category ∈ ["news"; "reviews"] ->
       fs' !! manifest_path category
       = Some (File (json_dumps (manifest_json
                 (category_articles category
                    (sort_desc instant_of articles)))))).
Proof.
  intros Hc Hne Hroot Hfiles Hparse Haware.
  pose proof (sort_articles_total articles Hparse Haware) as Hsort.
  destruct (generate_manifests_writes articles _ fs1 Hsort)
    as (fs' & Hg & Hlook).
  - by eapply collect_output_root.
  - intros name l Hname. rewrite (collect_keeps_manifests _ _ _ _ Hc Hname).
    by apply Hfiles.
  - exists fs'. split; [|done]. unfold main.
    rewrite (bind_eq _ _ _ _ _ Hc). by destruct articles.
Qed.

(** ** More on process_article *)

(** X5: what a call of [process_article] that returns a summary has written
    and returned: the file at compressed/<category>/<id>.json holds the
    identifier, the parsed metadata with every top-level date turned into its
    ISO text, and the body after the rewriting of its image references with
    the asset map of the folder; the summary carries the category it was
    called with and the title, date, tags and author of the metadata as
    written, with an empty list and 'Unknown' for absent tags and author. *)
Theorem summary_agrees_with_compiled_file `{Externals}
  (article_dir category : string) (fs fs' : filesys) (e : entry) :
  process_article article_dir category fs = (Ok (Some e), fs') ->
  exists data metadata content assets,
    fs !! Path.join article_dir "article.md" = Some (File data) /\
    frontmatter_loads (Bytes.universal_newlines data)
      = Some (metadata, content) /\
    collect_assets article_dir fs = (Ok assets, fs) /\
    fs' !! output_path category (entry_id e) =
      Some (File (json_dumps
                    (article_data (entry_id e)
                       (map (fun kv => (kv.1, serialize_date kv.2)) metadata)
                       (replace_image_paths content assets)))) /\
    entry_category e = category /\
    Some (entry_title e) = serialize_date <$> dict_get metadata "title" /\
    Some (entry_date e) = serialize_date <$> dict_get metadata "date" /\
    entry_tags e
      = default (VList []) (serialize_date <$> dict_get metadata "tags") /\
    entry_author e
      = default (VStr "Unknown")
          (serialize_date <$> dict_get metadata "author").
Proof.
  intros (data & metadata & content & Hmd & _ & Hl & _ & _ & Hc)%process_article_Some.
  apply compile_article_Some in Hc
    as (assets & fs1 & title & date & _ & Ha & _ & Hwr & Ht & Hd & ->).
  exists data, metadata, content, assets. simpl.
  rewrite <- !dict_get_serialized, Ht, Hd.
  repeat split; try done. by eapply write_text_written.
Qed.

(** X6: an article.md that exists but cannot be read as UTF-8 text, or
    that is a directory, is not skipped: the read is outside the [try] block,
    so [process_article] raises ([UnicodeDecodeError], [IsADirectoryError])
    without having written anything, and the loop of [main] ends there: the
    remaining folders are not visited. *)
Theorem unreadable_article_ends_the_run `{Externals}
  (fs : filesys) (category category_dir subdir : string)
  (articles : list entry) (rest : list string) (n : node) :
  is_dir fs (Path.join category_dir subdir) ->
  fs !! Path.join (Path.join category_dir subdir) "article.md" = Some n ->
  match n with File data => Bytes.valid_text data = false | Dir _ => True end ->
  exists e,
    e = match n with
        | File _ => UnicodeDecodeError
        | Dir _ => IsADirectoryError
        end /\
    process_article (Path.join category_dir subdir) category fs = (Raise e, fs) /\
    foldM (visit category category_dir) (subdir :: rest) articles fs
    = (Raise e, fs).
Proof.
  intros [l Hdir] Hmd Hn. eexists. split; [done|].
  assert (Hp : process_article (Path.join category_dir subdir) category fs
               = (Raise match n with
                        | File _ => UnicodeDecodeError
                        | Dir _ => IsADirectoryError
                        end, fs)).
  { unfold process_article.
    rewrite (bind_eq _ _ fs true fs)
      by (unfold FS.path_exists; rewrite Hmd;
          by rewrite bool_decide_eq_true_2 by done).
    cbn [negb]. unfold bind, FS.read_text. rewrite Hmd.
    destruct n as [data|l']; [by rewrite Hn|done]. }
  split; [done|].
  simpl. unfold bind at 1. unfold visit, bind, FS.isdir.
  by rewrite Hdir, Hp.
Qed.

(** X7: when images in the folder of a valid article is a regular file,
    [os.path.exists] lets it pass and [os.listdir] raises
    [NotADirectoryError], which nothing catches: [process_article] raises
    before the output directory is made or anything is written. *)
Theorem images_that_is_a_file_raises `{Externals}
  (fs : filesys) (article_dir category data content other : string)
  (metadata : list (string * pyval)) :
  fs !! Path.join article_dir "article.md" = Some (File data) ->
  Bytes.valid_text data = true ->
  frontmatter_loads (Bytes.universal_newlines data) = Some (metadata, content) ->
  truthy_opt (dict_get metadata "title") = true ->
  truthy_opt (dict_get metadata "date") = true ->
  Bytes.valid_text (Path.basename article_dir) = true ->
  fs !! Path.join article_dir "images" = Some (File other) ->
  process_article article_dir category fs = (Raise NotADirectoryError, fs).
Proof.
  intros Hmd Hvalid Hloads Ht Hd Hname Himg.
  unfold process_article.
  rewrite (bind_eq _ _ fs true fs)
    by (unfold FS.path_exists; rewrite Hmd;
        by rewrite bool_decide_eq_true_2 by done).
  simpl.
  rewrite (bind_eq _ _ fs (Bytes.universal_newlines data) fs)
    by (unfold FS.read_text; by rewrite Hmd, Hvalid).
  rewrite Hloads, Ht, Hd. simpl.
  unfold compile_article, encode_utf8. rewrite Hname.
  unfold bind at 1, lift at 1. unfold bind at 1.
  unfold collect_assets, bind at 1, FS.path_exists. rewrite Himg.
  rewrite bool_decide_eq_true_2 by done.
  unfold bind, FS.listdir. by rewrite Himg.
Qed.

(** ** The exceptions of process_article *)

Lemma raises_only_ret {A : Type} P (a : A) : raises_only P (ret a).
Proof. by intros fs e fs' Hm. Qed.

Lemma raises_only_bind {A B : Type} P (m : M A) (k : A -> M B) :
  raises_only P m -> (forall a, raises_only P (k a)) ->
  raises_only P (bind m k).
Proof.
  intros Hm Hk fs e fs' Hb. unfold bind in Hb.
  destruct (m fs) as [[a|e1] fs1] eqn:H1.
  - by eapply Hk.
  - injection Hb as <- <-. by eapply Hm.
Qed.

Lemma raises_only_create p n : raises_only os_or_codec_error (FS.create p n).
Proof.
  intros fs e fs' Hm. unfold FS.create in Hm.
  repeat case_match_in Hm; by simplify_eq.
Qed.

Lemma raises_only_mkdir_exist_ok p :
  raises_only os_or_codec_error (FS.mkdir_exist_ok p).
Proof.
  intros fs e fs' Hm. unfold FS.mkdir_exist_ok, FS.mkdir in Hm.
  destruct (fs !! p) as [n|] eqn:Hp.
  - rewrite Hp in Hm. destruct n; by simplify_eq.
  - destruct (FS.create p (Dir []) fs) as [[[]|e1] fs1] eqn:Hc; [done|].
    apply raises_only_create in Hc.
    repeat case_match_in Hm; by simplify_eq.
Qed.

Lemma raises_only_ignore_exists m :
  raises_only os_or_codec_error m ->
  raises_only os_or_codec_error (FS.ignore_exists m).
Proof.
  intros Hr fs e fs' Hm. unfold FS.ignore_exists in Hm.
  destruct (m fs) as [[[]|e1] fs1] eqn:H1; [done|].
  apply Hr in H1. destruct e1; by simplify_eq.
Qed.

Lemma raises_only_makedirs_fuel n p :
  raises_only os_or_codec_error (FS.makedirs_fuel n p).
Proof.
  revert p. induction n as [|n IH]; intros p; simpl.
  - apply raises_only_mkdir_exist_ok.
  - apply raises_only_bind; [|intros _; apply raises_only_mkdir_exist_ok].
    destruct (_ && _); [|apply raises_only_ret].
    apply raises_only_bind; [by intros fs e fs' Hm|].
    intros []; [apply raises_only_ret|]. apply raises_only_ignore_exists, IH.
Qed.

Lemma raises_only_write_text p text :
  raises_only os_or_codec_error (FS.write_text p text).
Proof.
  intros fs e fs' Hm. unfold FS.write_text in Hm.
  destruct (fs !! p) as [[d|l]|]; [done|by simplify_eq|].
  by eapply raises_only_create.
Qed.

Lemma raises_only_read_text p :
  raises_only os_or_codec_error (FS.read_text p).
Proof.
  intros fs e fs' Hm. unfold FS.read_text in Hm.
  repeat case_match_in Hm; by simplify_eq.
Qed.

Lemma raises_only_collect_assets `{Externals} article_dir :
  raises_only os_or_codec_error (collect_assets article_dir).
Proof.
  intros fs e fs' Hm.
  unfold collect_assets, bind, FS.path_exists, FS.listdir, ret in Hm.
  cbv beta zeta in Hm.
  destruct (bool_decide _); cbv beta in Hm; [|done].
  destruct (fs !! Path.join article_dir "images") as [[d|l]|];
    by simplify_eq.
Qed.

Lemma truthy_opt_serialized metadata k :
  truthy_opt (dict_get metadata k) = true ->
  exists v, dict_get (map (fun kv => (kv.1, serialize_date kv.2)) metadata) k
            = Some v.
Proof.
  rewrite dict_get_serialized. destruct (dict_get metadata k); [|done].
  by eexists.
Qed.

(** X8: the lookups of the title and the date at the end of
    [process_article] cannot fail, the validation having found both keys
    and the normalisation of the dates having kept them: whatever the
    folder and the file system, the outcome of [process_article] is not a
    [KeyError]. *)
Theorem process_article_never_raises_KeyError `{Externals}
  (article_dir category : string) (fs : filesys) :
  exists r fs',
    process_article article_dir category fs = (r, fs') /\
    r <> Raise KeyError.
Proof.
  destruct (process_article article_dir category fs) as [r fs'] eqn:Hp.
  exists r, fs'. split; [done|]. intros ->.
  assert (os_or_codec_error KeyError = true) as He; [|done].
  revert Hp. generalize KeyError. intros e Hp.
  revert fs e fs' Hp. change (raises_only os_or_codec_error
                                (process_article article_dir category)).
  unfold process_article.
  apply raises_only_bind; [by intros fs e fs' Hm|]. intros ex.
  destruct (negb ex); [apply raises_only_ret|].
  apply raises_only_bind; [apply raises_only_read_text|]. intros raw.
  destruct (frontmatter_loads raw) as [[metadata content]|];
    [|apply raises_only_ret].
  destruct (truthy_opt (dict_get metadata "title")) eqn:Ht;
    [|apply raises_only_ret].
  destruct (truthy_opt (dict_get metadata "date")) eqn:Hd;
    [|apply raises_only_ret].
  simpl. unfold compile_article.
  apply truthy_opt_serialized in Ht as [title Ht].
  apply truthy_opt_serialized in Hd as [date Hd].
  apply raises_only_bind.
  { intros fs e fs' Hm. unfold lift, encode_utf8 in Hm.
    destruct (Bytes.valid_text _); by simplify_eq. }
  intros bytes.
  apply raises_only_bind; [apply raises_only_collect_assets|]. intros assets.
  apply raises_only_bind; [apply raises_only_makedirs_fuel|]. intros _.
  apply raises_only_bind; [apply raises_only_write_text|]. intros _.
  unfold dict_item. rewrite Ht, Hd.
  apply raises_only_bind; [by intros fs e fs' Hm|]. intros title'.
  apply raises_only_bind; [by intros fs e fs' Hm|]. intros date'.
  apply raises_only_ret.
Qed.

(** ** serialize_date and the metadata *)

(** X9: the normalisation of the metadata keeps the keys and their order,
    turns every top-level date object into its ISO 8601 text and leaves every
    other value as it is (a date inside a list or a nested mapping is not
    reached); no top-level value is a date object afterwards, and a second
    normalisation changes nothing. *)
Theorem metadata_dates_become_text (metadata : list (string * pyval)) :
  map fst (map (fun kv => (kv.1, serialize_date kv.2)) metadata)
  = map fst metadata /\
  (forall k,
     dict_get (map (fun kv => (kv.1, serialize_date kv.2)) metadata) k
     = match dict_get metadata k with
       | Some (VDate iso) => Some (VStr iso)
       | other => other
       end) /\
  Forall (fun kv => forall iso, kv.2 <> VDate iso)
    (map (fun kv => (kv.1, serialize_date kv.2)) metadata) /\
  map (fun kv => (kv.1, serialize_date kv.2))
    (map (fun kv => (kv.1, serialize_date kv.2)) metadata)
  = map (fun kv => (kv.1, serialize_date kv.2)) metadata.
Proof.
  split; [|split; [|split]].
  - rewrite map_map. by apply map_ext.
  - intros k. rewrite dict_get_serialized.
    by destruct (dict_get metadata k) as [[]|].
  - apply Forall_map, Forall_forall. intros [k v] _ iso. by destruct v.
  - rewrite map_map. apply map_ext. intros [k v]. by destruct v.
Qed.

(** ** The data URI of an image *)

Lemma format_or_jpeg_nonempty img : format_or_jpeg img <> "".
Proof.
  unfold format_or_jpeg. destruct (format img) as [f|]; [|done].
  by destruct (String.eqb_spec f "").
Qed.

Lemma encode_image_shape `{Externals} img uri :
  encode_image img = Some uri ->
  exists fmt buffer,
    fmt <> "" /\
    uri = "data:image/" +:+ Str.lower fmt +:+ ";base64,"
          +:+ Base64.b64encode (Bytes.of_string buffer).
Proof.
  unfold encode_image. intros He.
  destruct (resize_request img) as [request|]; [|done]. simpl in He.
  destruct (match request with
            | Some size => Image_resize img size
            | None => Some img
            end) as [img'|]; [|done].
  simpl in He.
  destruct (Image_save img' (format_or_jpeg img') IMAGE_QUALITY) as [buffer|];
    [|done].
  simpl in He. injection He as <-.
  exists (format_or_jpeg img'), buffer.
  split; [apply format_or_jpeg_nonempty|reflexivity].
Qed.

(** X10: a data URI returned by [compress_and_encode_image] is never the
    empty string: it is data:image/ followed by the lower-cased name of a
    non-empty format, ;base64, and the Base64 text of the saved bytes.  The
    truth test on it in the loop over images/ therefore never drops an image
    that was compressed: the file name is filed in the asset map. *)
Theorem data_uri_is_never_empty `{Externals}
  (fs : filesys) (image_path uri : string) :
  compress_and_encode_image fs image_path = Some uri ->
  uri <> "" /\
  (exists fmt buffer,
     fmt <> "" /\
     uri = "data:image/" +:+ Str.lower fmt +:+ ";base64,"
           +:+ Base64.b64encode (Bytes.of_string buffer)) /\
  (forall images_dir img_file assets,
     image_path = Path.join images_dir img_file ->
     is_image_name img_file = true ->
     add_asset fs images_dir assets img_file = <[img_file := uri]> assets).
Proof.
  intros Hc.
  assert (Hshape : exists fmt buffer,
            fmt <> "" /\
            uri = "data:image/" +:+ Str.lower fmt +:+ ";base64,"
                  +:+ Base64.b64encode (Bytes.of_string buffer)).
  { unfold compress_and_encode_image in Hc.
    destruct (fs !! image_path) as [[data|l]|]; [|done|done].
    destruct (Image_open data) as [img|]; [|done].
    by eapply encode_image_shape. }
  assert (Hne : uri <> "").
  { destruct Hshape as (fmt & buffer & _ & ->). done. }
  split; [done|]. split; [done|].
  intros images_dir img_file assets -> Himg. unfold add_asset.
  rewrite Himg, Hc. by destruct (String.eqb_spec uri "").
Qed.

(** ** The scan of replace_image_paths *)

Lemma lazy_dot_stop {R : Type} (k : string -> string -> option R) g s r :
  k g s = Some r -> Re.lazy_dot k g s = Some r.
Proof. intros Hk. destruct s; simpl; by rewrite Hk. Qed.

(** The lazy group takes [ext] when what follows the group matches after
    [ext] and after no shorter text. *)
Lemma lazy_dot_complete {R : Type} (k : string -> string -> option R)
  g ext s' r :
  Str.contains Str.newline ext = false ->
  (forall e1 e2, ext = e1 +:+ e2 -> e2 <> "" ->
                 k (g +:+ e1) (e2 +:+ s') = None) ->
  k (g +:+ ext) s' = Some r ->
  Re.lazy_dot k g (ext +:+ s') = Some r.
Proof.
  revert g. induction ext as [|c ext IH]; intros g Hnl Hmin Hk.
  - rewrite append_nil_r in Hk. by apply lazy_dot_stop.
  - rewrite append_cons. simpl.
    pose proof (Hmin "" (String c ext) eq_refl ltac:(done)) as H0.
    rewrite append_nil_r, append_cons in H0. rewrite H0.
    simpl in Hnl. apply orb_false_iff in Hnl as [Hc Hnl].
    unfold Str.is_newline. rewrite Hc.
    apply IH; [done| |].
    + intros e1 e2 -> He2. rewrite append_assoc. simpl.
      by apply (Hmin (String c e1) e2).
    + by rewrite append_assoc.
Qed.

Lemma strip_prefix_append p s : Str.strip_prefix p (p +:+ s) = Some s.
Proof.
  induction p as [|c p IH]; [done|].
  rewrite append_cons. simpl. by rewrite Ascii.eqb_refl.
Qed.

(** A suffix of a text without the character [c] does not start with it. *)
Lemma strip_prefix_absent c ext e1 e2 t s :
  Str.contains c ext = false -> ext = e1 +:+ e2 -> e2 <> "" ->
  Str.strip_prefix (String c t) (e2 +:+ s) = None.
Proof.
  intros Hc -> He2. rewrite contains_append in Hc.
  apply orb_false_iff in Hc as [_ Hc].
  destruct e2 as [|a e2]; [done|]. rewrite append_cons. simpl in *.
  apply orb_false_iff in Hc as [Ha _].
  rewrite Ascii.eqb_sym. by rewrite Ha.
Qed.

Lemma match_image_complete alt path rest :
  Str.contains "]" alt = false ->
  Str.contains Str.newline alt = false ->
  Str.contains ")" path = false ->
  Str.contains Str.newline path = false ->
  Re.match_image (Re.image_text alt path +:+ rest) = Some (alt, path, rest).
Proof.
  intros Halt Hnl Hpath Hnl'. unfold Re.match_image, Re.image_text.
  rewrite !append_assoc, strip_prefix_append.
  apply lazy_dot_complete; [done| |].
  - intros e1 e2 Heq He2. unfold Re.after_alt.
    by rewrite (strip_prefix_absent "]" alt e1 e2 "(").
  - rewrite append_nil_l. unfold Re.after_alt.
    rewrite strip_prefix_append.
    apply lazy_dot_complete; [done| |].
    + intros e1 e2 Heq He2.
      by rewrite (strip_prefix_absent ")" path e1 e2 "").
    + rewrite append_nil_l. by rewrite strip_prefix_append.
Qed.

(** X11: how the rewriting pass walks through a body.  A reference
    ![alt](path) standing at the head of the text, whose alt text holds no
    closing bracket and no newline and whose path holds no closing
    parenthesis and no newline, is replaced as a whole, the data URI filed
    under the file name of the path taking the place of the path when there
    is one, and the pass goes on after the reference; a character other than
    the exclamation mark is copied, and the pass goes on after it. *)
Theorem replace_image_paths_walks_through_the_body
  (assets : gmap string string) (alt path rest : string) :
  Str.contains "]" alt = false ->
  Str.contains Str.newline alt = false ->
  Str.contains ")" path = false ->
  Str.contains Str.newline path = false ->
  replace_image_paths (Re.image_text alt path +:+ rest) assets
  = "![" +:+ alt +:+ "]("
    +:+ default path (assets !! Path.basename path) +:+ ")"
    +:+ replace_image_paths rest assets /\
  (forall c s, c <> "!"%char ->
     replace_image_paths (String c s) assets
     = String c (replace_image_paths s assets)).
Proof.
  intros Halt Hnl Hpath Hnl'. split.
  - pose proof (match_image_complete alt path rest Halt Hnl Hpath Hnl') as Hm.
    unfold replace_image_paths, Re.sub.
    destruct (String.length (Re.image_text alt path +:+ rest)) as [|n] eqn:Hlen.
    { by rewrite length_append in Hlen. }
    simpl. rewrite Hm.
    rewrite (sub_fuel_enough _ n (String.length rest) rest).
    + unfold replace_match. by rewrite !append_assoc.
    + apply match_image_shorter in Hm. lia.
    + done.
  - intros c s Hc. unfold replace_image_paths, Re.sub. simpl.
    assert (Re.match_image (String c s) = None) as ->; [|done].
    unfold Re.match_image. cbn [Str.strip_prefix].
    destruct (Ascii.eqb_spec "!" c) as [Heq|_]; [by destruct Hc|done].
Qed.

(** ** Dates that stop the manifests *)

Lemma date_keys_first_failure `{Externals} before x after e :
  Forall (fun y => exists d, date_key y = Ok d) before ->
  date_key x = Raise e ->
  result_map (fun x => result_bind (date_key x) (fun k => Ok (k, x)))
    (before ++ x :: after)
  = Raise e.
Proof.
  intros Hbefore Hx. induction Hbefore as [|y l [d Hy] _ IH]; simpl.
  - by rewrite Hx.
  - by rewrite Hy, IH.
Qed.

(** X12: the validation of the date only tests its truth value, and the
    sort of [generate_manifests] computes the keys in list order.  So the
    first collected summary whose date is not an ISO 8601 text decides how
    the run ends: [TypeError] when that date is no text at all (a number, a
    list, a mapping, true), [ValueError] when it is a text that does not
    parse; [main] ends with that exception after the collection, and
    nothing is written by the manifest generation. *)
Theorem first_bad_date_ends_the_run `{Externals}
  (fs fs1 : filesys) (before after : list entry) (x : entry) :
  collect fs = (Ok (before ++ x :: after)%list, fs1) ->
  Forall (fun y => exists d, date_key y = Ok d) before ->
  (forall d, date_key x <> Ok d) ->
  exists e,
    e = match entry_date x with
        | VStr _ => ValueError
        | _ => TypeError
        end /\
    generate_manifests (before ++ x :: after) fs1 = (Raise e, fs1) /\
    main fs = (Raise e, fs1).
Proof.
  intros Hc Hbefore Hx. eexists. split; [done|].
  assert (Hkey : date_key x = Raise match entry_date x with
                                    | VStr _ => ValueError
                                    | _ => TypeError
                                    end).
  { unfold date_key in *. destruct (entry_date x); try done.
    destruct (fromisoformat s) as [d|]; [by destruct (Hx d)|done]. }
  assert (Hg : generate_manifests (before ++ x :: after) fs1
               = (Raise match entry_date x with
                        | VStr _ => ValueError
                        | _ => TypeError
                        end, fs1)).
  { apply generate_manifests_raise. unfold sort_articles.
    by rewrite (date_keys_first_failure before x after _ Hbefore Hkey). }
  split; [done|]. unfold main. rewrite (bind_eq _ _ _ _ _ Hc).
  by destruct before.
Qed.

Lemma comparable_aware l d1 d2 :
  comparable l = true -> d1 ∈ l -> d2 ∈ l -> aware d1 = aware d2.
Proof.
  destruct l as [|d l]; [by intros _ ?%elem_of_nil|]. simpl.
  rewrite forallb_forall. intros Hall H1 H2.
  assert (Hd : forall d', d' ∈ d :: l -> aware d = aware d').
  { intros d' [->|Hin]%elem_of_cons; [done|].
    apply Bool.eqb_prop, Hall. by apply list_elem_of_In. }
  by rewrite <- (Hd d1 H1), <- (Hd d2 H2).
Qed.

(** X13: when the dates of the summaries all parse but one carries a UTC
    offset and another does not, the sort cannot compare them: manifest
    generation raises [TypeError] and writes nothing. *)
Theorem mixed_offsets_stop_the_manifests `{Externals}
  (articles : list entry) (fs : filesys) (x y : entry) (dx dy : datetime) :
  Forall (fun a => exists d, date_key a = Ok d) articles ->
  x ∈ articles -> y ∈ articles ->
  date_key x = Ok dx -> date_key y = Ok dy ->
  aware dx <> aware dy ->
  generate_manifests articles fs = (Raise TypeError, fs).
Proof.
  intros Hall Hx Hy Hdx Hdy Hne. apply generate_manifests_raise.
  unfold sort_articles.
  destruct (result_map_total
              (fun x => result_bind (date_key x) (fun k => Ok (k, x)))
              articles) as [keyed Hkeyed].
  { eapply Forall_impl; [exact Hall|]. intros a [d Hd].
    exists (d, a). by rewrite Hd. }
  rewrite Hkeyed. simpl.
  destruct (comparable (map fst keyed)) eqn:Hcmp; [|done].
  exfalso. apply Hne.
  apply result_map_Ok in Hkeyed.
  assert (Hin : forall a d, a ∈ articles -> date_key a = Ok d ->
                            d ∈ map fst keyed).
  { intros a d Ha Hd.
    apply list_elem_of_lookup in Ha as [i Hi].
    destruct (Forall2_lookup_l _ _ _ _ _ Hkeyed Hi) as ([d' a'] & Hi' & Hk).
    rewrite Hd in Hk. simpl in Hk. injection Hk as <- <-.
    apply list_elem_of_fmap. exists (d, a). split; [done|].
    by eapply list_elem_of_lookup_2. }
  exact (comparable_aware _ dx dy Hcmp (Hin x dx Hx Hdx) (Hin y dy Hy Hdy)).
Qed.

(** ** The summaries by category *)

Lemma visits_category `{Externals}
  category category_dir subdirs articles fs articles' fs' :
  foldM (visit category category_dir) subdirs articles fs = (Ok articles', fs') ->
  exists more, articles' = (articles ++ more)%list /\
               Forall (fun e => entry_category e = category) more.
Proof.
  revert articles fs.
  induction subdirs as [|subdir subdirs IH]; intros articles fs Hf; simpl in Hf.
  - injection Hf as <- <-. exists []. by rewrite app_nil_r.
  - apply bind_Ok in Hf as (articles1 & fs1 & Hv & Hf).
    apply IH in Hf as (more & -> & Hmore).
    apply visit_grows in Hv as [[-> ->]|(e & -> & Hp)]; [by exists more|].
    exists (e :: more). split; [by rewrite <- app_assoc|].
    constructor; [|done].
    apply process_article_Some in Hp
      as (data & metadata & content & _ & _ & _ & _ & _ & Hc).
    by apply compile_article_Some in Hc
      as (assets & fs0 & title & date & _ & _ & _ & _ & _ & _ & ->).
Qed.

Lemma visit_category_category `{Externals} articles category fs articles' fs' :
  visit_category articles category fs = (Ok articles', fs') ->
  exists more, articles' = (articles ++ more)%list /\
               Forall (fun e => entry_category e = category) more.
Proof.
  unfold visit_category. intros (ex & fs1 & Hex & Hv)%bind_Ok.
  destruct (negb ex).
  { injection Hv as <- <-. exists []. by rewrite app_nil_r. }
  apply bind_Ok in Hv as (subdirs & fs2 & Hl & Hv).
  by eapply visits_category.
Qed.

Lemma filter_all {A : Type} (P : A -> Prop) `{forall x, Decision (P x)} l :
  Forall P l -> filter P l = l.
Proof.
  induction 1 as [|x l Hx _ IH]; [done|].
  by rewrite filter_cons_True, IH.
Qed.

Lemma filter_none {A : Type} (P : A -> Prop) `{forall x, Decision (P x)} l :
  Forall (fun x => ~ P x) l -> filter P l = [].
Proof.
  induction 1 as [|x l Hx _ IH]; [done|].
  by rewrite filter_cons_False, IH.
Qed.

Lemma filter_ext_elem {A : Type} (P Q : A -> Prop)
  `{forall x, Decision (P x)} `{forall x, Decision (Q x)} (l : list A) :
  (forall x, x ∈ l -> P x <-> Q x) -> filter P l = filter Q l.
Proof.
  induction l as [|x l IH]; intros Hpq; [done|].
  assert (Hx : P x <-> Q x) by (apply Hpq; by left).
  assert (Hl : filter P l = filter Q l).
  { apply IH. intros y Hy. apply Hpq. by right. }
  destruct (decide (P x)) as [Hp|Hp].
  - rewrite !filter_cons_True by tauto. by rewrite Hl.
  - rewrite !filter_cons_False by tauto. done.
Qed.

(** X14: the collected summaries are those of news, in the order in which
    the folders were listed, followed by those of reviews; every summary
    belongs to exactly one of the two categories, so that the two category
    manifests split the full manifest between them, whatever order the sort
    has given it. *)
Theorem category_manifests_split_the_full_manifest `{Externals}
  (fs fs1 : filesys) (articles sorted : list entry) :
  collect fs = (Ok articles, fs1) ->
  sorted ≡ₚ articles ->
  articles = (category_articles "news" articles
              ++ category_articles "reviews" articles)%list /\
  (category_articles "news" sorted ++ category_articles "reviews" sorted)%list
    ≡ₚ sorted /\
  (forall e, e ∈ sorted ->
     (e ∈ category_articles "news" sorted /\
      e ∉ category_articles "reviews" sorted) \/
     (e ∈ category_articles "reviews" sorted /\
      e ∉ category_articles "news" sorted)).
Proof.
  intros Hc Hperm. unfold collect in Hc. simpl in Hc.
  apply bind_Ok in Hc as (articles1 & fs2 & H1 & Hc).
  apply bind_Ok in Hc as (articles2 & fs3 & H2 & Hc).
  injection Hc as <- <-.
  apply visit_category_category in H1 as (news & -> & Hnews).
  apply visit_category_category in H2 as (reviews & -> & Hreviews).
  simpl in *. unfold category_articles.
  assert (Hnr : Forall (fun e => ~ entry_category e = "news") reviews).
  { eapply Forall_impl; [exact Hreviews|]. by intros e ->. }
  assert (Hrn : Forall (fun e => ~ entry_category e = "reviews") news).
  { eapply Forall_impl; [exact Hnews|]. by intros e ->. }
  split; [|split].
  - rewrite !filter_app.
    rewrite (filter_all _ news Hnews), (filter_none _ reviews Hnr).
    rewrite (filter_none _ news Hrn), (filter_all _ reviews Hreviews).
    by rewrite app_nil_r.
  - assert (Heq : filter (fun a => entry_category a = "reviews") sorted
                  = filter (fun a => ~ entry_category a = "news") sorted).
    { apply filter_ext_elem. intros e He. rewrite Hperm in He.
      apply elem_of_app in He as [He|He].
      - rewrite Forall_forall in Hnews. by rewrite (Hnews e He).
      - rewrite Forall_forall in Hreviews. by rewrite (Hreviews e He). }
    rewrite Heq. apply filter_app_complement.
  - intros e He. rewrite !list_elem_of_filter.
    pose proof He as He'. rewrite Hperm in He'.
    apply elem_of_app in He' as [Hin|Hin].
    + rewrite Forall_forall in Hnews. left. rewrite (Hnews e Hin).
      split; [done|]. by intros [? _].
    + rewrite Forall_forall in Hreviews. right. rewrite (Hreviews e Hin).
      split; [done|]. by intros [? _].
Qed.

(** ** Entries of a category folder that yield nothing *)

Lemma strip_prefix_append_l p a x r :
  Str.strip_prefix p a = Some r -> Str.strip_prefix p (a +:+ x) = Some (r +:+ x).
Proof.
  revert a. induction p as [|c p IH]; intros a Ha; simpl in *.
  - by injection Ha as ->.
  - destruct a as [|b a]; [done|]. rewrite append_cons.
    destruct (Ascii.eqb c b); [by apply IH|done].
Qed.

Lemma in_source_append a x : in_source a = true -> in_source (a +:+ x) = true.
Proof.
  unfold in_source. intros Ha.
  destruct (Str.strip_prefix "/" a) as [r|] eqn:H1.
  { by rewrite (strip_prefix_append_l _ _ x _ H1). }
  destruct (Str.strip_prefix (CONTENT_DIR +:+ "/") a) as [r|] eqn:H2; [|done].
  rewrite (strip_prefix_append_l _ _ x _ H2).
  by destruct (Str.strip_prefix "/" (a +:+ x)).
Qed.

Lemma in_source_join a b : in_source a = true -> in_source (Path.join a b) = true.
Proof.
  intros Ha. unfold Path.join. destruct b as [|c b].
  - destruct (_ || _); [done|by apply in_source_append].
  - destruct (Ascii.eqb_spec c Path.sep) as [->|_]; [done|].
    destruct (_ || _); by apply in_source_append.
Qed.

Lemma in_source_outside q : in_source q = true -> outside_output q.
Proof.
  unfold in_source. intros Hq. split.
  - by intros ->.
  - destruct (Str.strip_prefix "/" q) as [r|] eqn:H1.
    { apply strip_prefix_Some in H1 as ->. done. }
    destruct (Str.strip_prefix (CONTENT_DIR +:+ "/") q) as [r|] eqn:H2; [|done].
    apply strip_prefix_Some in H2 as ->. done.
Qed.

Lemma in_source_category category :
  category ∈ ["news"; "reviews"] ->
  in_source (Path.join CONTENT_DIR category) = true.
Proof. by intros [->| ->]%category_cases. Qed.

(** The visits leave the source side alone. *)
Lemma keeps_visit_source `{Externals} q category category_dir articles subdir :
  category ∈ ["news"; "reviews"] -> in_source q = true ->
  keeps q (visit category category_dir articles subdir).
Proof.
  intros Hcat Hq%in_source_outside. apply keeps_visit; [done|apply Hq|..].
  - by apply outside_output_dir.
  - intros unique_id Hlen Hhex. by apply outside_output_path.
Qed.

Lemma visit_ignored `{Externals} category category_dir articles subdir fs :
  (forall l, fs !! Path.join category_dir subdir <> Some (Dir l)) \/
  skipped fs (Path.join category_dir subdir) ->
  visit category category_dir articles subdir fs = (Ok articles, fs).
Proof.
  intros Hi. unfold visit, FS.isdir, bind.
  destruct (fs !! Path.join category_dir subdir) as [[d|l]|] eqn:Hq;
    [done| |done].
  destruct Hi as [Hi|Hi]; [by destruct (Hi l)|].
  by rewrite (process_article_skipped fs _ category Hi).
Qed.

Lemma bind_ext {A B : Type} (m : M A) (k1 k2 : A -> M B) fs :
  (forall a fs1, m fs = (Ok a, fs1) -> k1 a fs1 = k2 a fs1) ->
  bind m k1 fs = bind m k2 fs.
Proof.
  intros Hk. unfold bind. destruct (m fs) as [[a|e] fs1]; [by apply Hk|done].
Qed.

(** X15: in the loop of [main] over the listing of a category folder, an
    entry that is no directory (a stray file), or a folder that is skipped
    (no article.md, front matter that does not parse, title or date missing
    or empty), has no influence on the run wherever it stands in the
    listing: summaries, files written and exceptions are those of the
    listing without that entry. *)
Theorem ignored_entry_has_no_influence `{Externals}
  (fs : filesys) (category subdir : string)
  (before after : list string) (articles : list entry) :
  category ∈ ["news"; "reviews"] ->
  (forall l,
     fs !! Path.join (Path.join CONTENT_DIR category) subdir <> Some (Dir l)) \/
  skipped fs (Path.join (Path.join CONTENT_DIR category) subdir) ->
  foldM (visit category (Path.join CONTENT_DIR category))
    (before ++ subdir :: after) articles fs
  = foldM (visit category (Path.join CONTENT_DIR category))
      (before ++ after) articles fs.
Proof.
  intros Hcat. set (category_dir := Path.join CONTENT_DIR category).
  set (q1 := Path.join category_dir subdir).
  set (q2 := Path.join q1 "article.md").
  assert (Hq1 : in_source q1 = true).
  { by apply in_source_join, in_source_category. }
  assert (Hq2 : in_source q2 = true) by by apply in_source_join.
  revert articles fs.
  induction before as [|b before IH]; intros articles fs Hi.
  - simpl. by rewrite (bind_eq _ _ _ _ _ (visit_ignored _ _ _ _ _ Hi)).
  - simpl. apply bind_ext. intros articles1 fs1 Hv. apply IH.
    pose proof (keeps_visit_source q1 _ _ _ _ Hcat Hq1 _ _ _ Hv) as H1.
    pose proof (keeps_visit_source q2 _ _ _ _ Hcat Hq2 _ _ _ Hv) as H2.
    fold q1 in Hi. fold q1. unfold skipped in *. fold q2 in Hi. fold q2.
    by rewrite H1, H2.
Qed.

(** ** A second run *)

Lemma covers_refl fs : covers fs fs.
Proof. by intros q. Qed.

Lemma covers_trans fs1 fs2 fs3 : covers fs1 fs2 -> covers fs2 fs3 -> covers fs1 fs3.
Proof. intros H12 H23 q. destruct (H12 q), (H23 q). split; auto. Qed.

Lemma mkdir_exist_ok_covers p fs r fs' :
  FS.mkdir_exist_ok p fs = (r, fs') -> covers fs' fs.
Proof.
  intros Hm q. split.
  - by eapply mkdir_exist_ok_dirs.
  - intros [data Hq]. exists data. by eapply mkdir_exist_ok_files.
Qed.

Lemma write_text_covers p text fs r fs' :
  FS.write_text p text fs = (r, fs') -> covers fs' fs.
Proof.
  intros Hw q. split; [by eapply write_text_dirs|].
  intros [data Hq]. destruct (decide (q = p)) as [->|Hne].
  - unfold FS.write_text in Hw. rewrite Hq in Hw. injection Hw as _ <-.
    eexists. by rewrite lookup_insert_eq.
  - exists data. by eapply write_text_files.
Qed.

Lemma mkdir_exist_ok_made p fs fs' :
  FS.mkdir_exist_ok p fs = (Ok tt, fs') -> is_dir fs' p.
Proof.
  unfold FS.mkdir_exist_ok, FS.mkdir. intros Hm.
  destruct (fs !! p) as [[data|l]|] eqn:Hp.
  - by rewrite Hp in Hm.
  - rewrite Hp in Hm. injection Hm as <-. by exists l.
  - destruct (FS.create p (Dir []) fs) as [[[]|e] fs1] eqn:Hc.
    + injection Hm as <-. exists []. by eapply create_written.
    + destruct (fs1 !! p) as [[data|l]|] eqn:Hp1; try done.
      injection Hm as <-. by exists l.
Qed.

(** What a successful [os.makedirs] on an output directory has made. *)
Lemma makedirs_output_made category fs fs' :
  category ∈ ["news"; "reviews"] ->
  FS.makedirs (Path.join COMPRESSED_DIR category) fs = (Ok tt, fs') ->
  covers fs' fs /\
  is_Some (fs' !! COMPRESSED_DIR) /\
  is_dir fs' (Path.join COMPRESSED_DIR category).
Proof.
  intros Hcat Hm. rewrite makedirs_output_dir in Hm by done.
  apply bind_Ok in Hm as ([] & fs1 & H1 & Hm).
  apply bind_Ok in H1 as (ex & fs0 & Hex & H1).
  unfold FS.path_exists in Hex. injection Hex as Hex Hfs. subst ex fs0.
  pose proof (mkdir_exist_ok_covers _ _ _ _ Hm) as Hcov.
  assert (Hroot : covers fs1 fs /\ is_Some (fs1 !! COMPRESSED_DIR)).
  { destruct (fs !! COMPRESSED_DIR) as [n|] eqn:Hc.
    - rewrite bool_decide_eq_true_2 in H1 by done. injection H1 as <-.
      split; [apply covers_refl|by rewrite Hc].
    - rewrite bool_decide_eq_false_2 in H1 by by intros [].
      unfold FS.ignore_exists in H1.
      destruct (FS.mkdir_exist_ok COMPRESSED_DIR fs) as [r2 fs2] eqn:H2.
      pose proof (mkdir_exist_ok_covers _ _ _ _ H2) as Hcov2.
      unfold FS.mkdir_exist_ok, FS.mkdir in H2. rewrite Hc in H2.
      change (FS.create COMPRESSED_DIR (Dir []) fs)
        with (Ok (), <[COMPRESSED_DIR := Dir []]> fs) in H2.
      injection H2 as <- <-. injection H1 as <-.
      split; [done|]. by rewrite lookup_insert_eq. }
  destruct Hroot as [Hcov1 [n Hn]].
  split; [by eapply covers_trans|]. split; [|by eapply mkdir_exist_ok_made].
  destruct n as [data|l].
  - destruct (proj2 (Hcov COMPRESSED_DIR)) as [data' ->]; [by exists data|done].
  - destruct (proj1 (Hcov COMPRESSED_DIR)) as [l' ->]; [by exists l|done].
Qed.

Lemma makedirs_existing category fs :
  category ∈ ["news"; "reviews"] ->
  is_Some (fs !! COMPRESSED_DIR) ->
  is_dir fs (Path.join COMPRESSED_DIR category) ->
  FS.makedirs (Path.join COMPRESSED_DIR category) fs = (Ok tt, fs).
Proof.
  intros Hcat Hroot [l Hdir]. rewrite makedirs_output_dir by done.
  unfold bind, FS.path_exists. rewrite bool_decide_eq_true_2 by done.
  unfold ret, FS.mkdir_exist_ok, FS.mkdir. by rewrite Hdir, Hdir.
Qed.

Lemma write_text_existing p text fs :
  is_file fs p -> FS.write_text p text fs = (Ok tt, <[p := File text]> fs).
Proof. intros [data Hp]. unfold FS.write_text. by rewrite Hp. Qed.

Lemma write_text_same p text fs :
  fs !! p = Some (File text) -> FS.write_text p text fs = (Ok tt, fs).
Proof.
  intros Hp. rewrite write_text_existing by by exists text.
  by rewrite insert_id.
Qed.

(** A call of [process_article] that returned normally has removed
    nothing. *)
Lemma process_article_covers `{Externals} article_dir category fs meta fs' :
  category ∈ ["news"; "reviews"] ->
  process_article article_dir category fs = (Ok meta, fs') -> covers fs' fs.
Proof.
  intros Hcat Hp. destruct meta as [e|].
  - apply process_article_Some in Hp
      as (data & metadata & content & _ & _ & _ & _ & _ & Hc).
    apply compile_article_Some in Hc
      as (assets & fs1 & title & date & _ & _ & Hmk & Hwr & _ & _ & _).
    eapply covers_trans; [by eapply write_text_covers|].
    by apply (makedirs_output_made category).
  - apply process_article_None in Hp as ->. apply covers_refl.
Qed.

Lemma visits_covers `{Externals}
  category category_dir subdirs articles fs articles' fs' :
  category ∈ ["news"; "reviews"] ->
  foldM (visit category category_dir) subdirs articles fs = (Ok articles', fs') ->
  covers fs' fs.
Proof.
  intros Hcat. revert articles fs.
  induction subdirs as [|subdir subdirs IH]; intros articles fs Hf; simpl in Hf.
  - injection Hf as _ <-. apply covers_refl.
  - apply bind_Ok in Hf as (articles1 & fs1 & Hv & Hf).
    eapply covers_trans; [by eapply IH|].
    apply visit_grows in Hv as [[_ ->]|(e & _ & Hp)]; [apply covers_refl|].
    by eapply process_article_covers.
Qed.

Lemma visit_category_covers `{Externals} articles category fs articles' fs' :
  category ∈ ["news"; "reviews"] ->
  visit_category articles category fs = (Ok articles', fs') -> covers fs' fs.
Proof.
  intros Hcat Hv. unfold visit_category in Hv.
  apply bind_Ok in Hv as (ex & fs1 & Hex & Hv).
  unfold FS.path_exists in Hex. injection Hex as Hex Hfs. subst ex fs1.
  destruct (negb _); [injection Hv as _ <-; apply covers_refl|].
  apply bind_Ok in Hv as (subdirs & fs1 & Hl & Hv).
  assert (fs1 = fs) as ->.
  { unfold FS.listdir in Hl. repeat case_match_in Hl; by simplify_eq. }
  by eapply visits_covers.
Qed.

Lemma generate_manifests_covers `{Externals} articles fs fs' :
  generate_manifests articles fs = (Ok tt, fs') -> covers fs' fs.
Proof.
  unfold generate_manifests. intros Hg.
  apply bind_Ok in Hg as (sorted & fs0 & Hs & Hg).
  unfold lift in Hs. injection Hs as _ <-.
  apply bind_Ok in Hg as ([] & fs1 & H1 & Hg).
  apply bind_Ok in Hg as ([] & fs2 & H2 & Hg).
  simpl in Hg.
  apply bind_Ok in Hg as ([] & fs3 & H3 & Hg).
  apply bind_Ok in Hg as ([] & fs4 & H4 & Hg).
  injection Hg as <-.
  eapply covers_trans; [by eapply write_text_covers|].
  eapply covers_trans; [by eapply write_text_covers|].
  eapply covers_trans; [by eapply write_text_covers|].
  by eapply write_text_covers.
Qed.

(** What a manifest generation that returned normally has written. *)
Lemma generate_manifests_Ok `{Externals} articles fs fs' :
  generate_manifests articles fs = (Ok tt, fs') ->
  exists sorted,
    sort_articles articles = Ok sorted /\
    fs' !! manifest_path "full"
      = Some (File (json_dumps (manifest_json sorted))) /\
    fs' !! manifest_path "latest"
      = Some (File (json_dumps (manifest_json (firstn 10 sorted)))) /\
    fs' !! manifest_path "news"
      = Some (File (json_dumps (manifest_json
                (category_articles "news" sorted)))) /\
    fs' !! manifest_path "reviews"
      = Some (File (json_dumps (manifest_json
                (category_articles "reviews" sorted)))).
Proof.
  unfold generate_manifests. intros Hg.
  apply bind_Ok in Hg as (sorted & fs0 & Hs & Hg).
  unfold lift in Hs. injection Hs as Hs <-.
  apply bind_Ok in Hg as ([] & fs1 & H1 & Hg).
  apply bind_Ok in Hg as ([] & fs2 & H2 & Hg).
  simpl in Hg.
  apply bind_Ok in Hg as ([] & fs3 & H3 & Hg).
  apply bind_Ok in Hg as ([] & fs4 & H4 & Hg).
  injection Hg as <-. exists sorted. split; [done|].
  pose proof (write_text_written _ _ _ _ H1) as Hf1.
  pose proof (write_text_written _ _ _ _ H2) as Hf2.
  pose proof (write_text_written _ _ _ _ H3) as Hf3.
  pose proof (write_text_written _ _ _ _ H4) as Hf4.
  assert (Hk : forall p q text fsa r fsb,
            FS.write_text p text fsa = (r, fsb) ->
            q <> p -> q <> Path.dirname p -> fsb !! q = fsa !! q).
  { intros p q text fsa r fsb Hw Hp Hd.
    by apply (keeps_write_text q p text Hp (fun _ => Hd) fsa r fsb). }
  repeat split.
  - rewrite (Hk _ (manifest_path "full") _ _ _ _ H4) by done.
    rewrite (Hk _ (manifest_path "full") _ _ _ _ H3) by done.
    by rewrite (Hk _ (manifest_path "full") _ _ _ _ H2) by done.
  - rewrite (Hk _ (manifest_path "latest") _ _ _ _ H4) by done.
    by rewrite (Hk _ (manifest_path "latest") _ _ _ _ H3) by done.
  - by rewrite (Hk _ (manifest_path "news") _ _ _ _ H4) by done.
  - done.
Qed.

(** The asset map depends on the source side only. *)
Lemma add_asset_agree `{Externals} images_dir fsA fsB assets img_file :
  in_source images_dir = true -> agree_on_source fsA fsB ->
  add_asset fsB images_dir assets img_file
  = add_asset fsA images_dir assets img_file.
Proof.
  intros Hsrc Hagree. unfold add_asset, compress_and_encode_image.
  by rewrite (Hagree _ (in_source_join images_dir img_file Hsrc)).
Qed.

Lemma collect_assets_agree `{Externals} article_dir fsA fsB r :
  in_source article_dir = true -> agree_on_source fsA fsB ->
  collect_assets article_dir fsA = (r, fsA) ->
  collect_assets article_dir fsB = (r, fsB).
Proof.
  intros Hsrc Hagree HA.
  assert (Himg : in_source (Path.join article_dir "images") = true)
    by by apply in_source_join.
  pose proof (Hagree _ Himg) as HB.
  destruct (fsA !! Path.join article_dir "images") as [[d|files]|] eqn:Hl.
  - revert HA. unfold collect_assets, bind, FS.path_exists, FS.listdir.
    cbv zeta. rewrite Hl, HB.
    rewrite !bool_decide_eq_true_2 by done. rewrite Hl, HB.
    by intros [= <-].
  - rewrite (collect_assets_listed fsA article_dir files Hl) in HA.
    rewrite (collect_assets_listed fsB article_dir files HB).
    injection HA as <-. f_equal. f_equal.
    clear Hl HB. generalize (∅ : gmap string string).
    induction files as [|f files IH]; intros assets; [done|]. simpl.
    rewrite IH. by rewrite (add_asset_agree _ fsA fsB _ _ Himg Hagree).
  - revert HA. unfold collect_assets, bind, FS.path_exists, FS.listdir.
    cbv zeta. rewrite Hl, HB.
    rewrite !bool_decide_eq_false_2 by by intros [].
    by intros [= <-].
Qed.

Lemma process_article_None_skipped `{Externals} article_dir category fs fs' :
  process_article article_dir category fs = (Ok None, fs') ->
  skipped fs article_dir.
Proof.
  unfold process_article, skipped.
  intros (ex & fs1 & Hex & Hp)%bind_Ok.
  unfold FS.path_exists in Hex. injection Hex as Hex Hfs. subst ex fs1.
  destruct (fs !! Path.join article_dir "article.md") as [n|] eqn:Hmd;
    [|by left].
  rewrite bool_decide_eq_true_2 in Hp by done. simpl in Hp.
  apply bind_Ok in Hp as (raw & fs1 & Hread & Hp).
  unfold FS.read_text in Hread. rewrite Hmd in Hread.
  destruct n as [data|l]; [|done].
  destruct (Bytes.valid_text data) eqn:Hvalid; [|done].
  injection Hread as <- <-. right. exists data. split; [done|]. split; [done|].
  destruct (frontmatter_loads _) as [[metadata content]|]; [|done].
  destruct (truthy_opt (dict_get metadata "title")); [|by left].
  destruct (truthy_opt (dict_get metadata "date")); [|by right].
  by apply compile_article_not_None in Hp.
Qed.

(** What a well-formed summary is stored under is no source path. *)
Lemma in_source_not_output q category unique_id :
  in_source q = true -> category ∈ ["news"; "reviews"] ->
  String.length unique_id = 12 -> all_hex unique_id = true ->
  q <> output_path category unique_id.
Proof. intros Hq%in_source_outside. by apply outside_output_path. Qed.

(** [process_article] in the second run, where the first run returned
    normally: the same result, and the same file written again. *)
Lemma process_article_again `{Externals}
  article_dir category fsA fsB meta fsA' :
  category ∈ ["news"; "reviews"] -> in_source article_dir = true ->
  agree_on_source fsA fsB ->
  process_article article_dir category fsA = (Ok meta, fsA') ->
  covers fsB fsA' ->
  match meta with
  | None => process_article article_dir category fsB = (Ok None, fsB)
  | Some e =>
      exists text,
        fsA' !! entry_path e = Some (File text) /\
        process_article article_dir category fsB
        = (Ok (Some e), <[entry_path e := File text]> fsB)
  end.
Proof.
  intros Hcat Hsrc Hagree Hp Hcov.
  assert (Hmdsrc : in_source (Path.join article_dir "article.md") = true)
    by by apply in_source_join.
  destruct meta as [e|].
  - apply process_article_Some in Hp
      as (data & metadata & content & Hmd & Hvalid & Hloads & Ht & Hd & Hc).
    apply compile_article_Some in Hc
      as (assets & fs1 & title & date & Hname & Ha & Hmk & Hwr & Htitle & Hdate
          & ->).
    set (unique_id := article_id (Path.basename article_dir)
                        (Bytes.universal_newlines data)) in *.
    set (text := json_dumps (article_data unique_id
                   (map (fun kv => (kv.1, serialize_date kv.2)) metadata)
                   (replace_image_paths content assets))) in *.
    exists text. unfold entry_path. simpl.
    split; [by eapply write_text_written|].
    destruct (makedirs_output_made category fsA fs1 Hcat Hmk)
      as (_ & Hroot & Hdir).
    pose proof (write_text_covers _ _ _ _ _ Hwr) as Hcov1.
    assert (HrootB : is_Some (fsB !! COMPRESSED_DIR)).
    { destruct Hroot as [[d|l] Hn].
      - destruct (proj2 (Hcov COMPRESSED_DIR)) as [d' ->]; [|done].
        apply (proj2 (Hcov1 COMPRESSED_DIR)). by exists d.
      - destruct (proj1 (Hcov COMPRESSED_DIR)) as [l' ->]; [|done].
        apply (proj1 (Hcov1 COMPRESSED_DIR)). by exists l. }
    assert (HdirB : is_dir fsB (Path.join COMPRESSED_DIR category)).
    { apply (proj1 (Hcov _)), (proj1 (Hcov1 _)), Hdir. }
    assert (HfileB : is_file fsB (output_path category unique_id)).
    { apply (proj2 (Hcov _)). exists text. by eapply write_text_written. }
    unfold process_article.
    rewrite (bind_eq _ _ fsB true fsB)
      by (unfold FS.path_exists; rewrite (Hagree _ Hmdsrc), Hmd;
          by rewrite bool_decide_eq_true_2 by done).
    cbn [negb].
    rewrite (bind_eq _ _ fsB (Bytes.universal_newlines data) fsB)
      by (unfold FS.read_text; by rewrite (Hagree _ Hmdsrc), Hmd, Hvalid).
    rewrite Hloads, Ht, Hd. cbn [negb orb].
    unfold compile_article, encode_utf8. rewrite Hname.
    unfold bind at 1, lift at 1.
    fold unique_id.
    rewrite (bind_eq _ _ fsB assets fsB)
      by by apply (collect_assets_agree article_dir fsA fsB).
    rewrite (bind_eq _ _ fsB tt fsB) by by apply makedirs_existing.
    fold (output_path category unique_id). fold text.
    rewrite (bind_eq _ _ _ _ _ (write_text_existing _ text fsB HfileB)).
    unfold dict_item. rewrite Htitle, Hdate. reflexivity.
  - apply process_article_None_skipped in Hp.
    apply process_article_skipped.
    unfold skipped in *. by rewrite (Hagree _ Hmdsrc).
Qed.

Lemma replayed_covers fs' fsA fsA1 fsB :
  replayed fs' fsA fsB -> covers fs' fsA1 -> covers fsA1 fsA ->
  covers fsB fsA1.
Proof.
  intros Hr H1 H2 q. destruct (Hr q) as [Heq|(text & HB & HA)].
  - unfold is_dir, is_file. rewrite Heq. apply H1.
  - split.
    + intros [l Hl].
      destruct (proj2 (H2 q)) as [d Hd]; [by exists text|]. congruence.
    + intros _. by exists text.
Qed.

(** The loop over a category folder in the second run. *)
Lemma visits_again `{Externals}
  category subdirs articles fsA articles' fsA' fs' fsB :
  category ∈ ["news"; "reviews"] ->
  foldM (visit category (Path.join CONTENT_DIR category)) subdirs articles fsA
  = (Ok articles', fsA') ->
  agree_on_source fsA fsB -> covers fs' fsA' -> replayed fs' fsA fsB ->
  exists fsB',
    foldM (visit category (Path.join CONTENT_DIR category)) subdirs articles fsB
    = (Ok articles', fsB') /\
    agree_on_source fsA' fsB' /\ replayed fs' fsA' fsB'.
Proof.
  intros Hcat. set (category_dir := Path.join CONTENT_DIR category).
  revert articles fsA fsB.
  induction subdirs as [|subdir subdirs IH];
    intros articles fsA fsB Hf Hagree Hcov Hrep; simpl in Hf.
  - injection Hf as <- <-. by exists fsB.
  - apply bind_Ok in Hf as (articles1 & fsA1 & Hv & Hf).
    assert (Hsrc : in_source (Path.join category_dir subdir) = true).
    { by apply in_source_join, in_source_category. }
    pose proof (visits_covers _ _ _ _ _ _ _ Hcat Hf) as Hrest.
    assert (Hstep : exists fsB1,
              visit category category_dir articles subdir fsB
              = (Ok articles1, fsB1) /\
              agree_on_source fsA1 fsB1 /\ replayed fs' fsA1 fsB1).
    { unfold visit in Hv |- *.
      rewrite (bind_eq _ _ fsB
                 (match fsA !! Path.join category_dir subdir with
                  | Some (Dir _) => true
                  | _ => false
                  end) fsB)
        by (unfold FS.isdir; by rewrite (Hagree _ Hsrc)).
      apply bind_Ok in Hv as (d & fs0 & Hd & Hv).
      unfold FS.isdir in Hd. injection Hd as Hd Hfs. subst d fs0.
      destruct (match fsA !! _ with Some (Dir _) => true | _ => false end).
      2: { injection Hv as <- <-. by exists fsB. }
      apply bind_Ok in Hv as (meta & fs0 & Hp & Hv).
      assert (Hcov1 : covers fsA1 fsA).
      { destruct meta; injection Hv as _ <-;
          by eapply process_article_covers. }
      assert (fs0 = fsA1) as -> by (destruct meta; by injection Hv as _ <-).
      assert (HcovB : covers fsB fsA1).
      { eapply replayed_covers; [done| |done]. by eapply covers_trans. }
      pose proof (process_article_again _ _ fsA fsB _ _ Hcat Hsrc Hagree Hp
                    HcovB) as Hagain.
      destruct meta as [e|]; injection Hv as <-.
      - destruct Hagain as (text & Hwritten & HpB).
        exists (<[entry_path e := File text]> fsB).
        rewrite (bind_eq _ _ _ _ _ HpB). split; [done|].
        destruct (process_article_step _ _ _ _ _ Hcat Hp)
          as (Hwf & _ & Hframe).
        split.
        + intros q Hq. rewrite lookup_insert_ne.
          * rewrite (Hagree q Hq). symmetry.
            eapply (keeps_process_article q); [done| | | |done].
            -- apply (in_source_outside q Hq).
            -- by apply outside_output_dir; [apply in_source_outside|].
            -- intros unique_id Hlen Hhex.
               by apply in_source_not_output.
          * intros <-. destruct Hwf as (Hc & Hlen & Hhex).
            by apply (in_source_not_output (entry_path e) (entry_category e)
                        (entry_id e)).
        + intros q. destruct (decide (q = entry_path e)) as [->|Hne].
          * right. exists text. by rewrite lookup_insert_eq.
          * rewrite lookup_insert_ne by done.
            destruct (Hrep q) as [Heq|(t & HB & HA)]; [by left|].
            right. exists t. split; [done|]. by apply Hframe.
      - apply process_article_None in Hp as ->.
        exists fsB. by rewrite (bind_eq _ _ _ _ _ Hagain). }
    destruct Hstep as (fsB1 & HvB & Hagree1 & Hrep1).
    destruct (IH _ _ fsB1 Hf Hagree1 Hcov Hrep1) as (fsB' & HfB & Hres).
    exists fsB'. split; [|done]. simpl. by rewrite (bind_eq _ _ _ _ _ HvB).
Qed.

Lemma visit_category_again `{Externals}
  articles category fsA articles' fsA' fs' fsB :
  category ∈ ["news"; "reviews"] ->
  visit_category articles category fsA = (Ok articles', fsA') ->
  agree_on_source fsA fsB -> covers fs' fsA' -> replayed fs' fsA fsB ->
  exists fsB',
    visit_category articles category fsB = (Ok articles', fsB') /\
    agree_on_source fsA' fsB' /\ replayed fs' fsA' fsB'.
Proof.
  intros Hcat Hv Hagree Hcov Hrep. unfold visit_category in Hv |- *.
  pose proof (Hagree _ (in_source_category category Hcat)) as Hdir.
  apply bind_Ok in Hv as (ex & fs1 & Hex & Hv).
  unfold FS.path_exists in Hex. injection Hex as Hex Hfs. subst ex fs1.
  rewrite (bind_eq _ _ fsB
             (bool_decide (is_Some (fsA !! Path.join CONTENT_DIR category)))
             fsB)
    by (unfold FS.path_exists; by rewrite Hdir).
  destruct (negb _).
  { injection Hv as <- <-. by exists fsB. }
  apply bind_Ok in Hv as (subdirs & fs1 & Hl & Hv).
  assert (FS.listdir (Path.join CONTENT_DIR category) fsB = (Ok subdirs, fsB)
          /\ fs1 = fsA) as [HlB ->].
  { unfold FS.listdir in Hl |- *. rewrite Hdir.
    destruct (fsA !! Path.join CONTENT_DIR category) as [[d|l]|];
      by simplify_eq. }
  rewrite (bind_eq _ _ _ _ _ HlB). by eapply visits_again.
Qed.

(** X16: a second run on the output of a first one that completed changes
    nothing: [main] returns normally again and leaves the file system exactly
    as the first run left it, every compiled article and every manifest
    byte for byte what it was. *)
Theorem second_run_changes_nothing `{Externals} (fs fs' : filesys) :
  main fs = (Ok tt, fs') -> main fs' = (Ok tt, fs').
Proof.
  intros Hm. pose proof Hm as Hm0. unfold main in Hm.
  apply bind_Ok in Hm as (articles & fs1 & Hc & Hg).
  destruct articles as [|a articles].
  { injection Hg as <-.
    unfold collect in Hc. simpl in Hc.
    apply bind_Ok in Hc as (articles1 & fs2 & H1 & Hc).
    apply bind_Ok in Hc as (articles2 & fs3 & H2 & Hc).
    injection Hc as -> ->.
    apply visit_category_grows in H2 as (more2 & Heq2 & Hfs2).
    apply visit_category_grows in H1 as (more1 & Heq1 & Hfs1).
    simpl in Heq1. subst articles1. symmetry in Heq2.
    apply app_eq_nil in Heq2 as [-> ->].
    rewrite Hfs2, Hfs1 in Hm0 |- * by done. done. }
  assert (Hagree : agree_on_source fs fs').
  { intros q Hq. by apply (keeps_main q (in_source_outside q Hq) fs (Ok tt)). }
  pose proof (generate_manifests_covers _ _ _ Hg) as Hcov.
  assert (Hcollect : exists fsB,
            collect fs' = (Ok (a :: articles), fsB) /\ replayed fs' fs1 fsB).
  { unfold collect in Hc |- *. simpl in Hc |- *.
    apply bind_Ok in Hc as (articles1 & fs2 & H1 & Hc).
    apply bind_Ok in Hc as (articles2 & fs3 & H2 & Hc).
    injection Hc as -> ->.
    assert (Hreviews : "reviews" ∈ ["news"; "reviews"]) by set_solver.
    pose proof (visit_category_covers _ _ _ _ _ Hreviews H2) as Hcov2.
    destruct (visit_category_again [] "news" fs articles1 fs2 fs' fs')
      as (fsB1 & HB1 & Hagree1 & Hrep1);
      [set_solver|done|done|by eapply covers_trans|by left|].
    destruct (visit_category_again articles1 "reviews" fs2 (a :: articles)
                fs1 fs' fsB1)
      as (fsB2 & HB2 & Hagree2 & Hrep2); [set_solver|done..|].
    exists fsB2. split; [|done].
    by rewrite (bind_eq _ _ _ _ _ HB1), (bind_eq _ _ _ _ _ HB2). }
  destruct Hcollect as (fsB & HcB & Hrep).
  destruct (generate_manifests_Ok _ _ _ Hg)
    as (sorted & Hsort & Hfull & Hlatest & Hnews & Hreviews).
  assert (fsB = fs') as ->.
  { apply map_eq. intros q.
    destruct (decide (q ∈ map manifest_path ["full"; "latest"; "news"; "reviews"]))
      as [Hin|Hnin].
    - apply list_elem_of_fmap in Hin as (name & -> & Hname).
      by eapply collect_keeps_manifests.
    - destruct (Hrep q) as [Heq|(text & HB & HA)]; [done|].
      rewrite HB. symmetry.
      eapply generate_manifests_files; [done| |done].
      intros name Hname ->. apply Hnin.
      apply list_elem_of_fmap. by exists name. }
  unfold main. rewrite (bind_eq _ _ _ _ _ HcB).
  unfold generate_manifests.
  rewrite (bind_eq _ _ fs' sorted fs') by (unfold lift; by rewrite Hsort).
  cbn [foldM].
  rewrite (bind_eq _ _ _ _ _ (write_text_same _ _ _ Hfull)).
  rewrite (bind_eq _ _ _ _ _ (write_text_same _ _ _ Hlatest)).
  rewrite (bind_eq _ _ _ _ _ (write_text_same _ _ _ Hnews)).
  by rewrite (bind_eq _ _ _ _ _ (write_text_same _ _ _ Hreviews)).
Qed.

(** ** Files the run does not write *)

Lemma visits_keep_files `{Externals}
  category category_dir subdirs articles fs articles' fs' :
  category ∈ ["news"; "reviews"] ->
  foldM (visit category category_dir) subdirs articles fs = (Ok articles', fs') ->
  exists more,
    articles' = (articles ++ more)%list /\
    forall q data, (forall e, e ∈ more -> q <> entry_path e) ->
      fs !! q = Some (File data) -> fs' !! q = Some (File data).
Proof.
  intros Hcat. revert articles fs.
  induction subdirs as [|subdir subdirs IH]; intros articles fs Hf; simpl in Hf.
  - injection Hf as <- <-. exists []. by rewrite app_nil_r.
  - apply bind_Ok in Hf as (articles1 & fs1 & Hv & Hf).
    apply IH in Hf as (more & -> & Hkeep).
    apply visit_grows in Hv as [[-> ->]|(e & -> & Hp)]; [by exists more|].
    exists (e :: more). split; [by rewrite <- app_assoc|].
    intros q data Hq Hfile. apply Hkeep.
    + intros e0 He0. apply Hq. by right.
    + destruct (process_article_step _ _ _ _ _ Hcat Hp) as (_ & _ & Hframe).
      apply Hframe; [|done]. apply Hq. by left.
Qed.

Lemma visit_category_keeps_files `{Externals}
  articles category fs articles' fs' :
  category ∈ ["news"; "reviews"] ->
  visit_category articles category fs = (Ok articles', fs') ->
  exists more,
    articles' = (articles ++ more)%list /\
    forall q data, (forall e, e ∈ more -> q <> entry_path e) ->
      fs !! q = Some (File data) -> fs' !! q = Some (File data).
Proof.
  intros Hcat Hv. unfold visit_category in Hv.
  apply bind_Ok in Hv as (ex & fs1 & Hex & Hv).
  unfold FS.path_exists in Hex. injection Hex as Hex Hfs. subst ex fs1.
  destruct (negb _).
  { injection Hv as <- <-. exists []. by rewrite app_nil_r. }
  apply bind_Ok in Hv as (subdirs & fs1 & Hl & Hv).
  assert (fs1 = fs) as ->.
  { unfold FS.listdir in Hl. repeat case_match_in Hl; by simplify_eq. }
  by eapply visits_keep_files.
Qed.

(** X17: nothing is cleaned up.  After a complete run, every regular file
    that was on disk before the run and is neither the file of a summary
    collected in this run nor, when manifests were written, one of the four
    manifests, is still there with the same bytes: a compiled article left
    by an earlier run, whose folder has since been edited, renamed or
    removed, stays in the output directory. *)
Theorem stale_files_are_kept `{Externals} (fs fs' : filesys) :
  main fs = (Ok tt, fs') ->
  exists articles fs1,
    collect fs = (Ok articles, fs1) /\
    forall q data,
      fs !! q = Some (File data) ->
      (forall e, e ∈ articles -> q <> entry_path e) ->
      (forall name, name ∈ ["full"; "latest"; "news"; "reviews"] ->
                    articles = [] \/ q <> manifest_path name) ->
      fs' !! q = Some (File data).
Proof.
  unfold main. intros (articles & fs1 & Hc & Hg)%bind_Ok.
  exists articles, fs1. split; [done|]. intros q data Hfile Hq Hm.
  assert (Hf1 : fs1 !! q = Some (File data)).
  { unfold collect in Hc. simpl in Hc.
    apply bind_Ok in Hc as (articles1 & fs2 & H1 & Hc).
    apply bind_Ok in Hc as (articles2 & fs3 & H2 & Hc).
    injection Hc as <- <-.
    apply visit_category_keeps_files in H1 as (more1 & -> & Hk1);
      [|set_solver].
    apply visit_category_keeps_files in H2 as (more2 & -> & Hk2);
      [|set_solver].
    apply Hk2; [intros e He; apply Hq; set_solver|].
    apply Hk1; [intros e He; apply Hq; set_solver|done]. }
  destruct articles as [|a articles]; [by injection Hg as <-|].
  eapply generate_manifests_files; [done| |done].
  intros name Hname. by destruct (Hm name Hname).
Qed.

(** ** Line endings *)

(** X18: [article.md] is read in text mode, so the identifier is a hash of
    the decoded text, not of the bytes of the file: two files that differ
    only in their line endings (the same text once CR LF and a lone CR are
    read as LF) yield the same summary, identifier included. *)
Theorem line_endings_do_not_change_the_summary `{Externals}
  (article_dir category data1 data2 : string)
  (fs1 fs1' fs2 fs2' : filesys) (e1 e2 : entry) :
  fs1 !! Path.join article_dir "article.md" = Some (File data1) ->
  fs2 !! Path.join article_dir "article.md" = Some (File data2) ->
  Bytes.universal_newlines data1 = Bytes.universal_newlines data2 ->
  process_article article_dir category fs1 = (Ok (Some e1), fs1') ->
  process_article article_dir category fs2 = (Ok (Some e2), fs2') ->
  e1 = e2 /\
  entry_id e1
  = Str.take 12
      (MD5.hexdigest
         (Bytes.of_string
            (Path.basename article_dir +:+ Bytes.universal_newlines data1))).
Proof.
  intros Hmd1 Hmd2 Heq
    (d1 & metadata1 & content1 & Hd1 & _ & Hl1 & _ & _ & Hc1)%process_article_Some
    (d2 & metadata2 & content2 & Hd2 & _ & Hl2 & _ & _ & Hc2)%process_article_Some.
  rewrite Hmd1 in Hd1. rewrite Hmd2 in Hd2.
  injection Hd1 as <-. injection Hd2 as <-.
  rewrite <- Heq in Hl2, Hc2. rewrite Hl1 in Hl2. injection Hl2 as <- <-.
  apply compile_article_Some in Hc1
    as (assets1 & fs3 & title1 & date1 & _ & _ & _ & _ & Ht1 & Hdt1 & ->).
  apply compile_article_Some in Hc2
    as (assets2 & fs4 & title2 & date2 & _ & _ & _ & _ & Ht2 & Hdt2 & ->).
  rewrite Ht1 in Ht2. rewrite Hdt1 in Hdt2.
  injection Ht2 as <-. injection Hdt2 as <-. done.
Qed.

(** ** The names of the images *)

Lemma length_lower s : String.length (Str.lower s) = String.length s.
Proof. induction s as [|c s IH]; [done|]. simpl. by rewrite IH. Qed.

Lemma lower_append s t : Str.lower (s +:+ t) = Str.lower s +:+ Str.lower t.
Proof.
  induction s as [|c s IH]; [done|]. rewrite append_cons. simpl.
  by rewrite IH.
Qed.

Lemma substring_skip s t n :
  String.substring (String.length s) n (s +:+ t) = String.substring 0 n t.
Proof. induction s as [|c s IH]; [done|]. rewrite append_cons. by simpl. Qed.

Lemma substring_all s : String.substring 0 (String.length s) s = s.
Proof. induction s as [|c s IH]; [done|]. simpl. by rewrite IH. Qed.

Lemma substring_split s k :
  k <= String.length s ->
  s = String.substring 0 k s
      +:+ String.substring k (String.length s - k) s.
Proof.
  revert k. induction s as [|c s IH]; intros k Hk.
  - by destruct k.
  - destruct k as [|k].
    + simpl. by rewrite substring_all.
    + simpl in *. rewrite append_cons. f_equal. apply IH. lia.
Qed.

Lemma append_inj_length s1 t1 s2 t2 :
  s1 +:+ t1 = s2 +:+ t2 -> String.length s1 = String.length s2 ->
  s1 = s2 /\ t1 = t2.
Proof.
  revert s2. induction s1 as [|c s1 IH]; intros [|c2 s2] Heq Hlen;
    try done.
  rewrite !append_cons in Heq. injection Heq as -> Heq.
  simpl in Hlen. destruct (IH s2 Heq) as [-> ->]; [lia|done].
Qed.

(** [s.endswith(p)] holds exactly of the texts that end with [p]. *)
Lemma endswith_suffix s p :
  Str.endswith s p = true <-> exists stem, s = stem +:+ p.
Proof.
  unfold Str.endswith. split.
  - intros [Hle Heq]%andb_true_iff. apply Nat.leb_le in Hle.
    apply String.eqb_eq in Heq.
    exists (String.substring 0 (String.length s - String.length p) s).
    pose proof (substring_split s (String.length s - String.length p)
                  ltac:(lia)) as Hs.
    replace (String.length s - (String.length s - String.length p))
      with (String.length p) in Hs by lia.
    by rewrite Heq in Hs.
  - intros [stem ->]. rewrite length_append. apply andb_true_iff. split.
    + apply Nat.leb_le. lia.
    + apply String.eqb_eq.
      replace (String.length stem + String.length p - String.length p)
        with (String.length stem) by lia.
      by rewrite substring_skip, substring_all.
Qed.

Lemma lower_suffix f p :
  (exists stem, Str.lower f = stem +:+ p) <->
  (exists stem ext, f = stem +:+ ext /\ Str.lower ext = p).
Proof.
  split.
  - intros [stem Heq].
    assert (Hk : String.length stem <= String.length f).
    { rewrite <- (length_lower f), Heq, length_append. lia. }
    pose proof (substring_split f (String.length stem) Hk) as Hf.
    eexists _, _. split; [exact Hf|].
    rewrite Hf, lower_append in Heq.
    apply append_inj_length in Heq as [_ Hext]; [done|].
    rewrite length_lower. by apply (length_take (String.length stem) f).
  - intros (stem & ext & -> & <-). exists (Str.lower stem).
    apply lower_append.
Qed.

(** X19: a file of images/ counts as an image exactly when its name ends,
    upper and lower case of the ASCII letters not being told apart, with
    one of .png, .jpg, .jpeg and .gif; nothing else of the name, and nothing
    of the content of the file, is looked at. *)
Theorem image_names_end_with_an_extension (img_file : string) :
  is_image_name img_file = true <->
  exists stem ext,
    img_file = stem +:+ ext /\ Str.lower ext ∈ image_extensions.
Proof.
  unfold is_image_name, image_extensions. cbv zeta.
  rewrite !orb_true_iff, !endswith_suffix, !lower_suffix. split.
  - intros [[[Hp|Hp]|Hp]|Hp]; destruct Hp as (stem & ext & -> & Hext);
      exists stem, ext; (split; [done|]); rewrite Hext.
    + apply list_elem_of_here.
    + apply list_elem_of_further, list_elem_of_here.
    + do 2 apply list_elem_of_further. apply list_elem_of_here.
    + do 3 apply list_elem_of_further. apply list_elem_of_here.
  - intros (stem & ext & -> & Hext).
    repeat (apply elem_of_cons in Hext as [Hext|Hext]);
      [| | | |by apply elem_of_nil in Hext].
    + left. left. left. by exists stem, ext.
    + left. left. right. by exists stem, ext.
    + left. right. by exists stem, ext.
    + right. by exists stem, ext.
Qed.

(** ** What a compiled article depends on *)

(** X20: what [process_article] returns and writes for a folder of the
    content tree depends on the source side only: on two file systems that
    agree on every path below content (and on every absolute path), two
    calls that both return a summary return the same summary and write the
    same text to the same file, whatever the state of the output directory
    and whatever other articles were compiled before. *)
Theorem compiled_article_depends_on_the_source_only `{Externals}
  (category subdir : string) (fsA fsA' fsB fsB' : filesys) (eA eB : entry) :
  (forall q, in_source q = true -> fsB !! q = fsA !! q) ->
  process_article (Path.join (Path.join CONTENT_DIR category) subdir) category
    fsA = (Ok (Some eA), fsA') ->
  process_article (Path.join (Path.join CONTENT_DIR category) subdir) category
    fsB = (Ok (Some eB), fsB') ->
  eB = eA /\
  fsB' !! output_path category (entry_id eA)
  = fsA' !! output_path category (entry_id eA) /\
  exists text,
    fsA' !! output_path category (entry_id eA) = Some (File text).
Proof.
  intros Hagree.
  set (article_dir := Path.join (Path.join CONTENT_DIR category) subdir).
  assert (Hsrc : in_source article_dir = true).
  { apply in_source_join. unfold Path.join, CONTENT_DIR.
    destruct category as [|c category]; [done|].
    by destruct (Ascii.eqb_spec c Path.sep) as [->|_]. }
  intros
    (dA & metadataA & contentA & HmdA & _ & HlA & _ & _ & HcA)%process_article_Some
    (dB & metadataB & contentB & HmdB & _ & HlB & _ & _ & HcB)%process_article_Some.
  rewrite (Hagree _ (in_source_join article_dir "article.md" Hsrc)), HmdA
    in HmdB.
  injection HmdB as <-. rewrite HlA in HlB. injection HlB as <- <-.
  apply compile_article_Some in HcA
    as (assetsA & fs1 & titleA & dateA & _ & HaA & _ & HwA & HtA & HdtA & ->).
  apply compile_article_Some in HcB
    as (assetsB & fs2 & titleB & dateB & _ & HaB & _ & HwB & HtB & HdtB & ->).
  rewrite (collect_assets_agree article_dir fsA fsB _ Hsrc Hagree HaA) in HaB.
  injection HaB as <-.
  rewrite HtA in HtB. rewrite HdtA in HdtB.
  injection HtB as <-. injection HdtB as <-.
  split; [done|]. simpl.
  rewrite (write_text_written _ _ _ _ HwA), (write_text_written _ _ _ _ HwB).
  split; [done|]. by eexists.
Qed.

(** ** The program on the sample inputs *)

Lemma pair_from_fst {A B : Type} (x : A * B) (a : A) :
  x.1 = a -> x = (a, x.2).
Proof. destruct x. simpl. by intros ->. Qed.



(** The folder content/news/untitled of the sample tree, whose metadata
    has no title, is skipped. *)
Lemma untitled_is_skipped :
  @process_article Sample.libs (Path.join "content/news" "untitled") "news"
    Sample.tree = (Ok None, Sample.tree) /\
  @visit Sample.libs "news" "content/news" [] "untitled" Sample.tree
    = (Ok [], Sample.tree) /\
  foldM (@visit Sample.libs "news" "content/news") ["untitled"; "empty"] []
    Sample.tree =
  foldM (@visit Sample.libs "news" "content/news") ["empty"] [] Sample.tree.
Proof.
  apply (@skipped_article_is_left_out Sample.libs).
  right. exists Sample.doc_untitled.
  split; [vm_compute; reflexivity|]. split; [vm_compute; reflexivity|].
  left. vm_compute. reflexivity.
Defined.

(** In content/news/hello/images the corrupt broken.png is left out and
    p.png is embedded. *)
Lemma broken_image_is_left_out :
  exists assets,
    @collect_assets Sample.libs "content/news/hello" Sample.tree
      = (Ok assets, Sample.tree) /\
    assets !! "broken.png" = None /\
    assets !! "p.png"
      = Some "data:image/jpeg;base64,SlBFRzo8anBlZyA4MDB4NjAwPg==".
Proof.
  destruct (@image_failures_are_left_out Sample.libs Sample.tree
              "content/news/hello" ["broken.png"; "p.png"; "readme.txt"])
    as (assets & Hc & Hiff & _).
  { vm_compute. reflexivity. }
  exists assets. split; [exact Hc|]. split.
  - destruct (assets !! "broken.png") as [uri|] eqn:Hb; [|reflexivity].
    apply Hiff in Hb as (_ & _ & _ & Hb). vm_compute in Hb. discriminate.
  - apply Hiff. split; [apply list_elem_of_further, list_elem_of_here|].
    split; [vm_compute; reflexivity|].
    split; [discriminate|]. vm_compute. reflexivity.
Defined.

(** A complete run on the sample tree. *)
Lemma sample_run_keeps_compiled_files :
  exists articles fs1,
    @collect Sample.libs Sample.tree = (Ok articles, fs1) /\
    (forall e, e ∈ articles ->
       exists metadata content_md,
         (@main Sample.libs Sample.tree).2
           !! output_path (entry_category e) (entry_id e) =
         Some (File (Sample.dumps
                       (article_data (entry_id e) metadata content_md)))) /\
    (forall e1 e2, e1 ∈ articles -> e2 ∈ articles ->
       output_path (entry_category e1) (entry_id e1)
       = output_path (entry_category e2) (entry_id e2) ->
       entry_category e1 = entry_category e2 /\ entry_id e1 = entry_id e2).
Proof.
  apply (@every_entry_has_a_compiled_file Sample.libs Sample.tree).
  apply pair_from_fst. vm_compute. reflexivity.
Defined.

(** C8, as the specification words it, fails: the folders alpha and beta of
    one category yield the identifier 8c609e9b69c6; the run completes with
    two different manifest entries and a single compiled file, which holds
    the article of beta, compiled last. *)
Lemma colliding_articles_share_one_file :
  (@collect Sample.libs Sample.colliding_tree).1
    = Ok [Sample.alpha_entry; Sample.beta_entry] /\
  (@main Sample.libs Sample.colliding_tree).1 = Ok tt /\
  Sample.alpha_entry <> Sample.beta_entry /\
  ~ @one_file_each Sample.libs (@main Sample.libs Sample.colliding_tree).2
      [Sample.alpha_entry; Sample.beta_entry] /\
  (@main Sample.libs Sample.colliding_tree).2
    !! "compressed/news/8c609e9b69c6.json"
    = Some (File (Sample.dumps
                    (article_data "8c609e9b69c6"
                       [("title", VStr "Beta 2057267");
                        ("date", VStr "2024-02-01")] "Text"))) /\
  (@main Sample.libs Sample.colliding_tree).2 !! "compressed/news"
    = Some (Dir ["8c609e9b69c6.json"]).
Proof.
  split; [vm_compute; reflexivity|]. split; [vm_compute; reflexivity|].
  split; [discriminate|]. split; [|split; vm_compute; reflexivity].
  intros [_ Hdistinct].
  apply (Hdistinct 0 1 Sample.alpha_entry Sample.beta_entry);
    [reflexivity|reflexivity|lia|].
  vm_compute. reflexivity.
Qed.

(** The run on the tree whose only article is dated 'next tuesday': the
    article is compiled, manifest generation raises, and no manifest is on
    disk. *)
Lemma next_tuesday_aborts_the_run :
  (exists metadata content_md,
     (@collect Sample.libs Sample.tuesday_tree).2
       !! output_path "news" "299a3df15360" =
     Some (File (Sample.dumps
                   (article_data "299a3df15360" metadata content_md)))) /\
  @main Sample.libs Sample.tuesday_tree
    = (Raise ValueError, (@collect Sample.libs Sample.tuesday_tree).2) /\
  Forall (fun name =>
            (@main Sample.libs Sample.tuesday_tree).2 !! manifest_path name
            = None)
    ["full"; "latest"; "news"; "reviews"].
Proof.
  destruct (@unparseable_date_aborts_manifests Sample.libs "next tuesday"
              Sample.tuesday_tree (@collect Sample.libs Sample.tuesday_tree).2
              [Sample.tuesday_entry] Sample.tuesday_entry)
    as (Hfile & _ & Hmain & _).
  - vm_compute. reflexivity.
  - apply pair_from_fst. vm_compute. reflexivity.
  - apply list_elem_of_here.
  - reflexivity.
  - intros x ->%list_elem_of_singleton. by eexists.
  - split; [exact Hfile|]. split; [exact Hmain|].
    repeat constructor; vm_compute; reflexivity.
Defined.

(** ** The program on further inputs *)

(** The document of the sample article is the same after the run. *)
Lemma sample_run_keeps_the_document :
  (@main Sample.libs Sample.tree).2 !! "content/news/hello/article.md"
  = Sample.tree !! "content/news/hello/article.md".
Proof.
  apply (@run_leaves_the_source_tree_alone Sample.libs Sample.tree
           (@main Sample.libs Sample.tree).2 (@main Sample.libs Sample.tree).1).
  - apply surjective_pairing.
  - vm_compute. discriminate.
  - vm_compute. reflexivity.
Defined.

(** A tree with a stray file, a skipped folder and an empty folder: the run
    collects nothing and changes nothing. *)
Lemma nothing_valid_nothing_written :
  (@collect Sample.libs Edge.nothing_valid_tree).2 = Edge.nothing_valid_tree /\
  @main Sample.libs Edge.nothing_valid_tree = (Ok tt, Edge.nothing_valid_tree).
Proof.
  apply (@run_without_articles_changes_nothing Sample.libs).
  apply pair_from_fst. vm_compute. reflexivity.
Defined.

(** The news article is compiled, then the run ends on the file that
    stands in the place of reviews. *)
Lemma reviews_file_ends_the_run :
  @main Sample.libs Edge.reviews_file_tree
  = (Raise NotADirectoryError,
     (@visit_category Sample.libs [] "news" Edge.reviews_file_tree).2) /\
  forall name, name ∈ ["full"; "latest"; "news"; "reviews"] ->
    (@visit_category Sample.libs [] "news" Edge.reviews_file_tree).2
      !! manifest_path name
    = Edge.reviews_file_tree !! manifest_path name.
Proof.
  apply (@category_that_is_a_file_ends_the_run Sample.libs
           Edge.reviews_file_tree _ "not a folder" [Sample.hello_entry]).
  - vm_compute. reflexivity.
  - apply pair_from_fst. vm_compute. reflexivity.
Defined.

(** The run on the sample tree, two articles dated in ISO form, completes
    and writes the manifests. *)
Lemma sample_run_writes_the_manifests :
  exists fs',
    @main Sample.libs Sample.tree = (Ok tt, fs') /\
    fs' !! manifest_path "full"
      = Some (File (Sample.dumps (manifest_json
                (sort_desc (@instant_of Sample.libs)
                   [Sample.hello_entry; Edge.review_entry])))) /\
    fs' !! manifest_path "latest"
      = Some (File (Sample.dumps (manifest_json
                (firstn 10 (sort_desc (@instant_of Sample.libs)
                   [Sample.hello_entry; Edge.review_entry]))))) /\
    (forall category, category ∈ ["news"; "reviews"] ->
       fs' !! manifest_path category
       = Some (File (Sample.dumps (manifest_json
                 (category_articles category
                    (sort_desc (@instant_of Sample.libs)
                       [Sample.hello_entry; Edge.review_entry])))))).
Proof.
  apply (@run_with_articles_writes_the_manifests Sample.libs Sample.tree
           (@collect Sample.libs Sample.tree).2).
  - apply pair_from_fst. vm_compute. reflexivity.
  - discriminate.
  - intros data. vm_compute. discriminate.
  - intros name l Hname.
    repeat (apply elem_of_cons in Hname as [->|Hname]);
      try (by apply elem_of_nil in Hname); vm_compute; discriminate.
  - repeat constructor; eexists; vm_compute; reflexivity.
  - intros x y dx dy Hx Hy.
    repeat (apply elem_of_cons in Hx as [->|Hx]);
      try (by apply elem_of_nil in Hx);
      repeat (apply elem_of_cons in Hy as [->|Hy]);
      try (by apply elem_of_nil in Hy);
      vm_compute; intros [= <-] [= <-]; reflexivity.
Defined.

(** The summary of the sample article and the file written with it. *)
Lemma hello_summary_agrees_with_its_file :
  exists data metadata content assets,
    Sample.tree !! Path.join "content/news/hello" "article.md"
      = Some (File data) /\
    Sample.loads (Bytes.universal_newlines data) = Some (metadata, content) /\
    @collect_assets Sample.libs "content/news/hello" Sample.tree
      = (Ok assets, Sample.tree) /\
    (@process_article Sample.libs "content/news/hello" "news" Sample.tree).2
      !! output_path "news" (entry_id Sample.hello_entry) =
      Some (File (Sample.dumps
                    (article_data (entry_id Sample.hello_entry)
                       (map (fun kv => (kv.1, serialize_date kv.2)) metadata)
                       (replace_image_paths content assets)))) /\
    entry_category Sample.hello_entry = "news" /\
    Some (entry_title Sample.hello_entry)
      = serialize_date <$> dict_get metadata "title" /\
    Some (entry_date Sample.hello_entry)
      = serialize_date <$> dict_get metadata "date" /\
    entry_tags Sample.hello_entry
      = default (VList []) (serialize_date <$> dict_get metadata "tags") /\
    entry_author Sample.hello_entry
      = default (VStr "Unknown")
          (serialize_date <$> dict_get metadata "author").
Proof.
  apply (@summary_agrees_with_compiled_file Sample.libs
           "content/news/hello" "news" Sample.tree).
  apply pair_from_fst. vm_compute. reflexivity.
Defined.

(** The folder binary, whose article.md is no UTF-8 text, ends the loop:
    the folder hello listed after it is not visited. *)
Lemma undecodable_article_ends_the_run :
  exists e,
    e = UnicodeDecodeError /\
    @process_article Sample.libs (Path.join "content/news" "binary") "news"
      Edge.undecodable_tree
    = (Raise e, Edge.undecodable_tree) /\
    foldM (@visit Sample.libs "news" "content/news") ["binary"; "hello"] []
      Edge.undecodable_tree
    = (Raise e, Edge.undecodable_tree).
Proof.
  apply (@unreadable_article_ends_the_run Sample.libs Edge.undecodable_tree
           "news" "content/news" "binary" [] ["hello"] (File Edge.not_utf8)).
  - eexists. vm_compute. reflexivity.
  - vm_compute. reflexivity.
  - vm_compute. reflexivity.
Defined.

(** The valid article beside which images is a file. *)
Lemma images_file_raises :
  @process_article Sample.libs "content/news/hello" "news" Edge.images_file_tree
  = (Raise NotADirectoryError, Edge.images_file_tree).
Proof.
  apply (@images_that_is_a_file_raises Sample.libs Edge.images_file_tree
           "content/news/hello" "news" Sample.doc_hello Sample.hello_body
           "not a folder" Sample.hello_metadata);
    vm_compute; reflexivity.
Defined.

(** The image p.png of the sample tree. *)
Lemma p_png_data_uri :
  Edge.p_uri <> "" /\
  (exists fmt buffer,
     fmt <> "" /\
     Edge.p_uri = "data:image/" +:+ Str.lower fmt +:+ ";base64,"
                  +:+ Base64.b64encode (Bytes.of_string buffer)) /\
  (forall images_dir img_file assets,
     "content/news/hello/images/p.png" = Path.join images_dir img_file ->
     is_image_name img_file = true ->
     @add_asset Sample.libs Sample.tree images_dir assets img_file
     = <[img_file := Edge.p_uri]> assets).
Proof.
  apply (@data_uri_is_never_empty Sample.libs Sample.tree
           "content/news/hello/images/p.png" Edge.p_uri).
  vm_compute. reflexivity.
Defined.

(** A body that starts with a reference to p.png. *)
Lemma reference_to_p_png_is_rewritten :
  replace_image_paths (Re.image_text "pic" "images/p.png" +:+ " and more")
    {[ "p.png" := Edge.p_uri ]}
  = "![" +:+ "pic" +:+ "]("
    +:+ default "images/p.png"
          (({[ "p.png" := Edge.p_uri ]} : gmap string string)
             !! Path.basename "images/p.png")
    +:+ ")" +:+ replace_image_paths " and more" {[ "p.png" := Edge.p_uri ]} /\
  (forall c s, c <> "!"%char ->
     replace_image_paths (String c s) {[ "p.png" := Edge.p_uri ]}
     = String c (replace_image_paths s {[ "p.png" := Edge.p_uri ]})).
Proof.
  apply (replace_image_paths_walks_through_the_body
           {[ "p.png" := Edge.p_uri ]} "pic" "images/p.png" " and more");
    vm_compute; reflexivity.
Defined.

(** An article dated with the integer 2024 is compiled and collected; the
    run ends with [TypeError] when the manifests are to be sorted. *)
Lemma integer_date_ends_the_run :
  exists e,
    e = TypeError /\
    @generate_manifests Edge.libs
      ([Sample.hello_entry] ++ Edge.annual_entry :: [])
      (@collect Edge.libs Edge.year_tree).2
    = (Raise e, (@collect Edge.libs Edge.year_tree).2) /\
    @main Edge.libs Edge.year_tree
    = (Raise e, (@collect Edge.libs Edge.year_tree).2).
Proof.
  apply (@first_bad_date_ends_the_run Edge.libs Edge.year_tree
           (@collect Edge.libs Edge.year_tree).2
           [Sample.hello_entry] [] Edge.annual_entry).
  - apply pair_from_fst. vm_compute. reflexivity.
  - repeat constructor. eexists. vm_compute. reflexivity.
  - intros d. vm_compute. discriminate.
Defined.

(** A date without and a date with a UTC offset. *)
Lemma naive_and_aware_dates_do_not_sort :
  @generate_manifests Edge.libs Edge.mixed_entries Sample.output_tree
  = (Raise TypeError, Sample.output_tree).
Proof.
  apply (@mixed_offsets_stop_the_manifests Edge.libs Edge.mixed_entries
           Sample.output_tree
           (Sample.dated "00000000000a" "news" "2024-01-01")
           (Sample.dated "00000000000d" "news" "2024-01-01T00:00:00+00:00")
           {| instant := 752928; aware := false |}
           {| instant := 752928; aware := true |}).
  - repeat constructor; eexists; vm_compute; reflexivity.
  - apply list_elem_of_here.
  - apply list_elem_of_further, list_elem_of_here.
  - vm_compute. reflexivity.
  - vm_compute. reflexivity.
  - discriminate.
Defined.

(** The two summaries of the sample tree, and the manifest order review,
    hello. *)
Lemma sample_manifests_are_split :
  [Sample.hello_entry; Edge.review_entry]
  = (category_articles "news" [Sample.hello_entry; Edge.review_entry]
     ++ category_articles "reviews" [Sample.hello_entry; Edge.review_entry])%list
  /\
  (category_articles "news" [Edge.review_entry; Sample.hello_entry]
   ++ category_articles "reviews" [Edge.review_entry; Sample.hello_entry])%list
    ≡ₚ [Edge.review_entry; Sample.hello_entry] /\
  (forall e, e ∈ [Edge.review_entry; Sample.hello_entry] ->
     (e ∈ category_articles "news" [Edge.review_entry; Sample.hello_entry] /\
      e ∉ category_articles "reviews" [Edge.review_entry; Sample.hello_entry])
     \/
     (e ∈ category_articles "reviews" [Edge.review_entry; Sample.hello_entry] /\
      e ∉ category_articles "news" [Edge.review_entry; Sample.hello_entry])).
Proof.
  apply (@category_manifests_split_the_full_manifest Sample.libs Sample.tree
           (@collect Sample.libs Sample.tree).2).
  - apply pair_from_fst. vm_compute. reflexivity.
  - apply Permutation_swap.
Defined.

(** The stray file notes.txt, between two valid articles, does not count. *)
Lemma stray_file_between_articles :
  foldM (@visit Sample.libs "news" (Path.join CONTENT_DIR "news"))
    (["alpha"] ++ "notes.txt" :: ["untitled"; "beta"]) [] Edge.cluttered_tree
  = foldM (@visit Sample.libs "news" (Path.join CONTENT_DIR "news"))
      (["alpha"] ++ ["untitled"; "beta"]) [] Edge.cluttered_tree.
Proof.
  apply (@ignored_entry_has_no_influence Sample.libs Edge.cluttered_tree
           "news" "notes.txt" ["alpha"] ["untitled"; "beta"] []).
  - apply list_elem_of_here.
  - left. intros l. vm_compute. discriminate.
Defined.


(** A second run on the output of the run on the sample tree. *)
Lemma sample_second_run_changes_nothing :
  @main Sample.libs (@main Sample.libs Sample.tree).2
  = (Ok tt, (@main Sample.libs Sample.tree).2).
Proof.
  apply (@second_run_changes_nothing Sample.libs Sample.tree).
  apply pair_from_fst. vm_compute. reflexivity.
Defined.

(** The run on the sample tree with a compiled article of an earlier run
    in the output directory. *)
Lemma stale_article_is_kept :
  exists articles fs1,
    @collect Sample.libs Edge.stale_tree = (Ok articles, fs1) /\
    forall q data,
      Edge.stale_tree !! q = Some (File data) ->
      (forall e, e ∈ articles -> q <> entry_path e) ->
      (forall name, name ∈ ["full"; "latest"; "news"; "reviews"] ->
                    articles = [] \/ q <> manifest_path name) ->
      (@main Sample.libs Edge.stale_tree).2 !! q = Some (File data).
Proof.
  apply (@stale_files_are_kept Sample.libs Edge.stale_tree).
  apply pair_from_fst. vm_compute. reflexivity.
Defined.

(** The document of hello stored with DOS line endings yields the summary
    of the document stored with line feeds. *)
Lemma dos_line_endings_same_summary :
  Sample.hello_entry = Sample.hello_entry /\
  entry_id Sample.hello_entry
  = Str.take 12
      (MD5.hexdigest
         (Bytes.of_string
            (Path.basename "content/news/hello"
             +:+ Bytes.universal_newlines Sample.doc_hello))).
Proof.
  apply (@line_endings_do_not_change_the_summary Sample.libs
           "content/news/hello" "news" Sample.doc_hello
           (crlf Sample.doc_hello) Sample.tree
           (@process_article Sample.libs "content/news/hello" "news"
              Sample.tree).2
           Edge.dos_tree
           (@process_article Sample.libs "content/news/hello" "news"
              Edge.dos_tree).2).
  - vm_compute. reflexivity.
  - vm_compute. reflexivity.
  - vm_compute. reflexivity.
  - apply pair_from_fst. vm_compute. reflexivity.
  - apply pair_from_fst. vm_compute. reflexivity.
Defined.

(** The article hello is compiled alike whether the output directory is
    missing or holds the files of an earlier run. *)
Lemma hello_does_not_depend_on_the_output :
  Sample.hello_entry = Sample.hello_entry /\
  (@process_article Sample.libs
     (Path.join (Path.join CONTENT_DIR "news") "hello") "news"
     Edge.stale_tree).2
    !! output_path "news" (entry_id Sample.hello_entry)
  = (@process_article Sample.libs
       (Path.join (Path.join CONTENT_DIR "news") "hello") "news"
       Sample.tree).2
      !! output_path "news" (entry_id Sample.hello_entry) /\
  exists text,
    (@process_article Sample.libs
       (Path.join (Path.join CONTENT_DIR "news") "hello") "news"
       Sample.tree).2
      !! output_path "news" (entry_id Sample.hello_entry)
    = Some (File text).
Proof.
  apply (@compiled_article_depends_on_the_source_only Sample.libs
           "news" "hello" Sample.tree _ Edge.stale_tree _).
  - intros q Hq. unfold Edge.stale_tree.
    rewrite !lookup_insert_ne; [done|intros <-; by vm_compute in Hq..].
  - apply pair_from_fst. vm_compute. reflexivity.
  - apply pair_from_fst. vm_compute. reflexivity.
Defined.
